(** * Viral content analyzer: a shallow embedding of
    [src/services/viral_content_analyzer.py] and the properties proved of it.

    Python values are embedded as the inductive [pyval]; a [dict] is an
    association list in insertion order (Python dictionaries iterate in
    insertion order, and the analyzer depends on that order when it
    flattens the platform buckets).  Text is a [string] of bytes holding
    UTF-8: substring search on valid UTF-8 agrees with substring search on
    code points.  Where the code reads a text character by character (the
    regular expressions, [str.isdigit], [int], [float]) the bytes are cut
    into code points. *)

From Stdlib Require Import ZArith QArith Bool List Lia.
From Stdlib Require Import Strings.String Strings.Ascii Numbers.DecimalString.
From Stdlib Require Import Sorting.Permutation Sorting.Sorted.
From Stdlib Require Structures.OrderedTypeEx.
Import ListNotations.

Open Scope string_scope.
Open Scope Z_scope.
Open Scope list_scope.

Set Warnings "-register-all".

(** ** Python values *)

Inductive pyval : Type :=
| VNone
| VBool (b : bool)
| VInt (z : Z)
| VFloat (q : Q)
| VStr (s : string)
| VList (l : list pyval)
| VDict (d : list (string * pyval))
| VObj (attrs : list (string * pyval)).

(** A dictionary with text keys, in insertion order. *)
Definition Dict : Type := list (string * pyval).

Module dict.

Fixpoint get {A : Type} (d : list (string * A)) (k : string) : option A :=
  match d with
  | [] => None
  | (k', v) :: d' => if String.eqb k k' then Some v else get d' k
  end.

(** [d.get(k, default)] *)
Definition get_or {A : Type} (d : list (string * A)) (k : string) (default : A) : A :=
  match get d k with
  | Some v => v
  | None => default
  end.

(** [k in d] *)
Definition has {A : Type} (d : list (string * A)) (k : string) : bool :=
  match get d k with
  | Some _ => true
  | None => false
  end.

(** [d[k] = v]: the value is replaced in place, a new key goes last. *)
Fixpoint set {A : Type} (d : list (string * A)) (k : string) (v : A) : list (string * A) :=
  match d with
  | [] => [(k, v)]
  | (k', v') :: d' =>
      if String.eqb k k' then (k', v) :: d' else (k', v') :: set d' k v
  end.

End dict.

(** ** Exceptions and results *)

Record exn : Type := Exn { exn_kind : string; exn_text : string }.

Inductive result (A : Type) : Type :=
| Ok (a : A)
| Raise (e : exn).
Arguments Ok {A} a.
Arguments Raise {A} e.

Definition TypeError (text : string) : exn := Exn "TypeError" text.
Definition KeyError (text : string) : exn := Exn "KeyError" text.
Definition AttributeError (text : string) : exn := Exn "AttributeError" text.
Definition ZeroDivisionError (text : string) : exn := Exn "ZeroDivisionError" text.
Definition ValueError (text : string) : exn := Exn "ValueError" text.
Definition OverflowError (text : string) : exn := Exn "OverflowError" text.

(** ** Text *)

(** [sub in s] for two [str] values. *)
Fixpoint str_in (sub s : string) : bool :=
  String.prefix sub s ||
  match s with
  | EmptyString => false
  | String _ s' => str_in sub s'
  end.

(** The relation [str_in] decides: [sub] occurs somewhere inside [s]. *)
Definition occurs_in (sub s : string) : Prop :=
  exists a b : string, s = (a ++ sub ++ b)%string.

(** ** The runtime the analyzer runs against

    What the module takes from outside its own code: the builtins whose
    full Unicode behaviour is a table of the interpreter ([str.lower], the
    rendering of a value inside an f-string, the characters that [\d],
    [str.isdigit] and [\s] accept), the interpreter's limit on the digits
    [int] converts, the optional [instascrape] import with its
    [Post(url).scrape()], the wall clock and the file system. *)

Class Runtime : Type := {
  (** [s.lower()] *)
  lower : string -> string;
  (** the text an f-string field [{v}] renders *)
  fmt : pyval -> string;
  (** the value of a character that is a decimal digit (Unicode category
      Nd): the characters [\d] matches and [int] and [float] read *)
  decimal_digit : string -> option nat;
  (** whether [str.isdigit] accepts a character that is no decimal digit
      (a superscript digit, for one) *)
  other_digit : string -> bool;
  (** whether [\s] matches a character *)
  is_whitespace : string -> bool;
  (** [sys.get_int_max_str_digits()]: the most digits [int] converts from
      text, 0 for no limit (4300 unless the interpreter is told otherwise) *)
  int_max_str_digits : nat;
  (** whether [from instascrape import ...] succeeded *)
  HAS_INSTASCRAPE : bool;
  (** [post = Post(url); post.scrape()] at a given clock reading: the
      attributes of the scraped post, or the exception raised *)
  scrape_post : nat -> pyval -> result Dict;
  (** [datetime.now().isoformat()] at a given clock reading *)
  now_isoformat : nat -> string;
  (** [datetime.now().strftime('%Y%m%d_%H%M%S')] at a given clock reading *)
  now_strftime : nat -> string;
  (** [open(path, 'w')] followed by [json.dump]: nothing, or the exception *)
  write_json : string -> Dict -> result unit
}.

(** ** Characters and runs of digits

    The regular expressions and the conversions [int] and [float] read a
    text character by character.  A character is kept as the text of its
    UTF-8 bytes. *)

Definition is_continuation_byte (c : ascii) : bool :=
  let n := nat_of_ascii c in (128 <=? n)%nat && (n <? 192)%nat.

(** The characters of UTF-8 text, one string for each code point. *)
Definition utf8_chars (s : string) : list string :=
  let step (c : ascii) (acc : string * list string) :=
    let (pending, done) := acc in
    if is_continuation_byte c then (String c pending, done)
    else (EmptyString, String c pending :: done) in
  let (pending, done) := fold_right step (EmptyString, []) (list_ascii_of_string s) in
  match pending with
  | EmptyString => done
  | _ => pending :: done
  end.

(** The text the characters make up. *)
Definition text_of (chars : list string) : string := fold_right String.append "" chars.

Section DigitRuns.

Context {rt : Runtime}.

(** [\d] on one character. *)
Definition is_decimal (c : string) : bool :=
  match decimal_digit c with
  | Some _ => true
  | None => false
  end.

Definition digit_value (c : string) : Z :=
  match decimal_digit c with
  | Some d => Z.of_nat d
  | None => 0
  end.

(** The maximal runs of decimal digits among the characters, left to
    right; [run] is the run being read (its digits in reverse). *)
Fixpoint digit_runs_from (run : list string) (chars : list string) : list (list string) :=
  let flush (k : list (list string)) :=
    match run with
    | [] => k
    | _ => rev run :: k
    end in
  match chars with
  | [] => flush []
  | c :: chars' =>
      if is_decimal c
      then digit_runs_from (c :: run) chars'
      else flush (digit_runs_from [] chars')
  end.

(** [re.findall(r'\d+', s)] *)
Definition findall_digits (s : string) : list string :=
  map text_of (digit_runs_from [] (utf8_chars s)).

(** [s.isdigit()] *)
Definition isdigit (s : string) : bool :=
  match utf8_chars s with
  | [] => false
  | chars => forallb (fun c => is_decimal c || other_digit c) chars
  end.

(** The number a run of decimal digits denotes. *)
Definition digits_value (chars : list string) : Z :=
  fold_left (fun acc c => 10 * acc + digit_value c) chars 0.

(** Whether a run of that many digits is more than [int] converts. *)
Definition over_int_limit (digits : nat) : bool :=
  (0 <? int_max_str_digits)%nat && (int_max_str_digits <? digits)%nat.

(** [int(s)] for a text that passes [isdigit], which is what the analyzer
    converts: the number it denotes when all its characters are decimal
    digits, a [ValueError] when one is not or when the digits are more
    than the interpreter's limit. *)
Definition int_of_digits (s : string) : result Z :=
  let chars := utf8_chars s in
  match chars with
  | [] => Raise (ValueError "invalid literal for int() with base 10")
  | _ =>
      if forallb is_decimal chars then
        if over_int_limit (List.length chars)
        then Raise (ValueError "Exceeds the limit for integer string conversion")
        else Ok (digits_value chars)
      else Raise (ValueError "invalid literal for int() with base 10")
  end.

End DigitRuns.

Section PlatformClassifier.

Context {rt : Runtime}.

Definition _identify_platform (url : string) : option string :=
  let url_lower := lower url in
  if str_in "instagram.com" url_lower then Some "instagram"
  else if str_in "youtube.com" url_lower || str_in "youtu.be" url_lower then Some "youtube"
  else if str_in "facebook.com" url_lower || str_in "fb.com" url_lower then Some "facebook"
  else if str_in "twitter.com" url_lower || str_in "x.com" url_lower then Some "twitter"
  else if str_in "tiktok.com" url_lower then Some "tiktok"
  else if str_in "linkedin.com" url_lower then Some "linkedin"
  else None.

(** The classifier as the specification words it: a fixed ordered list of
    domain fragments, each with its platform tag, searched for the first
    fragment that occurs in the lower-cased URL. *)
Definition domain_fragments : list (string * string) :=
  [ ("instagram.com", "instagram");
    ("youtube.com", "youtube"); ("youtu.be", "youtube");
    ("facebook.com", "facebook"); ("fb.com", "facebook");
    ("twitter.com", "twitter"); ("x.com", "twitter");
    ("tiktok.com", "tiktok");
    ("linkedin.com", "linkedin") ].

Definition classify_first_match (url : string) : option string :=
  option_map snd (find (fun fp => str_in (fst fp) (lower url)) domain_fragments).

End PlatformClassifier.


(** ** Binary floating point

    A [float] is embedded as the rational it denotes; the result of an
    operation on floats is the double nearest to the exact result, as
    IEEE 754 arithmetic gives it.  The embedding has no infinite float and
    no not-a-number: where the code's result is beyond the largest double
    (about 1.8e308) the functions below say so, and the arithmetic of the
    aggregator, which then yields inf or raises [OverflowError], keeps the
    exact value instead.  The properties that depend on the value of such a
    result bound the numbers they speak of.  A negative zero is 0. *)

(** [n / d] rounded to the nearest integer, a tie to the even one, for
    [0 <= n] and [0 < d]. *)
Definition round_half_even (n d : Z) : Z :=
  let q := n / d in
  let r := n mod d in
  if 2 * r <? d then q
  else if d <? 2 * r then q + 1
  else if Z.even q then q else q + 1.

(** The exponent [k] of the leading bit of [n / d], for [0 < n] and
    [0 < d]: [2^k <= n / d < 2^(k+1)]. *)
Definition leading_exponent (n d : Z) : Z :=
  let k := Z.log2 n - Z.log2 d in
  if (if 0 <=? k then d * 2 ^ k <=? n else d <=? n * 2 ^ (- k)) then k else k - 1.

(** The double nearest to [n / d], for [0 < n] and [0 < d]: a significand
    of 53 bits, or of fewer bits at the smallest exponent -1074, rounded to
    nearest with a tie to the even significand; [None] when that is beyond
    the largest double. *)
Definition double_of_ratio (n d : Z) : option Q :=
  let e := Z.max (leading_exponent n d - 52) (-1074) in
  if 0 <=? e then
    let m := round_half_even n (d * 2 ^ e) in
    if 2 ^ 1024 <=? m * 2 ^ e then None else Some (inject_Z (m * 2 ^ e))
  else
    let m := round_half_even (n * 2 ^ (- e)) d in
    Some (Qred (m # Z.to_pos (2 ^ (- e)))).

(** The double nearest to a rational, [None] when it is infinite. *)
Definition double_of_Q (q : Q) : option Q :=
  let q := Qred q in
  match Qnum q with
  | Z0 => Some 0%Q
  | Zpos n => double_of_ratio (Zpos n) (Zpos (Qden q))
  | Zneg n => option_map Qopp (double_of_ratio (Zpos n) (Zpos (Qden q)))
  end.

(** The double nearest to a rational within the range of the doubles. *)
Definition round_double (q : Q) : Q :=
  match double_of_Q q with
  | Some d => d
  | None => Qred q
  end.

(** ** Numbers, comparison and arithmetic on Python values

    Comparisons of numbers are exact, also between an [int] and a
    [float].  The sum of two [int] is exact.  An [int] that meets a [float]
    in an operation is first converted to the nearest double; the quotient
    of two [int] is the double nearest to the exact quotient.  The
    thresholds the analyzer computes ([1000 * 0.5], [0.03 * 100],
    [0.03 * 50], ...) are written as the numbers the code computes there
    (500.0, 3.0, 1.5, ...). *)

Definition as_number (v : pyval) : option Q :=
  match v with
  | VBool b => Some (if b then 1%Q else 0%Q)
  | VInt z => Some (inject_Z z)
  | VFloat q => Some q
  | _ => None
  end.

(** [v >= q] for a number [q] *)
Definition py_ge (v : pyval) (q : Q) : result bool :=
  match as_number v with
  | Some x => Ok (Qle_bool q x)
  | None => Raise (TypeError "'>=' not supported between these instances")
  end.

(** [v > q] for a number [q] *)
Definition py_gt (v : pyval) (q : Q) : result bool :=
  match as_number v with
  | Some x => Ok (negb (Qle_bool x q))
  | None => Raise (TypeError "'>' not supported between these instances")
  end.

(** [float(v)] for a number that is an operand of float arithmetic. *)
Definition as_double (v : pyval) : option Q :=
  match v with
  | VBool b => Some (if b then 1%Q else 0%Q)
  | VInt z => Some (round_double (inject_Z z))
  | VFloat q => Some q
  | _ => None
  end.

(** [a + b] *)
Definition py_add (a b : pyval) : result pyval :=
  match a, b with
  | VStr x, VStr y => Ok (VStr (x ++ y))
  | VList x, VList y => Ok (VList (x ++ y))
  | (VInt _ | VBool _), (VInt _ | VBool _) =>
      match as_number a, as_number b with
      | Some x, Some y => Ok (VInt (Qnum x + Qnum y))
      | _, _ => Raise (TypeError "unsupported operand type(s) for +")
      end
  | _, _ =>
      match as_double a, as_double b with
      | Some x, Some y => Ok (VFloat (round_double (x + y)))
      | _, _ => Raise (TypeError "unsupported operand type(s) for +")
      end
  end.

(** [a / b] *)
Definition py_truediv (a b : pyval) : result pyval :=
  match as_number a, as_number b with
  | Some x, Some y =>
      if Qeq_bool y 0 then Raise (ZeroDivisionError "division by zero")
      else
        match a, b with
        | (VInt _ | VBool _), (VInt _ | VBool _) => Ok (VFloat (round_double (x / y)))
        | _, _ =>
            match as_double a, as_double b with
            | Some x', Some y' => Ok (VFloat (round_double (x' / y')))
            | _, _ => Raise (TypeError "unsupported operand type(s) for /")
            end
        end
  | _, _ => Raise (TypeError "unsupported operand type(s) for /")
  end.

(** [s * n] for a sequence: [n] copies, none when [n] is not positive. *)
Definition repeat_string (s : string) (n : Z) : string :=
  String.concat "" (List.repeat s (Z.to_nat n)).

Definition repeat_list {A : Type} (l : list A) (n : Z) : list A :=
  List.concat (List.repeat l (Z.to_nat n)).

(** [a * n] for an integer literal [n] *)
Definition py_mul_int (a : pyval) (n : Z) : result pyval :=
  match a with
  | VFloat x => Ok (VFloat (round_double (x * round_double (inject_Z n))))
  | VInt z => Ok (VInt (z * n))
  | VBool b => Ok (VInt ((if b then 1 else 0) * n))
  | VStr s => Ok (VStr (repeat_string s n))
  | VList l => Ok (VList (repeat_list l n))
  | _ => Raise (TypeError "unsupported operand type(s) for *")
  end.

(** The number of code points of UTF-8 text: the bytes that are not
    continuation bytes. *)
Definition utf8_length (s : string) : nat :=
  List.length (filter (fun c => let n := nat_of_ascii c in
                                (n <? 128)%nat || (192 <=? n)%nat)
                      (list_ascii_of_string s)).

(** [len(v)] *)
Definition py_len (v : pyval) : result Z :=
  match v with
  | VStr s => Ok (Z.of_nat (utf8_length s))
  | VList l => Ok (Z.of_nat (List.length l))
  | VDict d => Ok (Z.of_nat (List.length d))
  | _ => Raise (TypeError "object has no len()")
  end.

(** ** Computations that mutate a state and may raise

    [Try S A] is a block of statements over a mutable state [S]: it ends
    with a value or with an exception, and in both cases with the state as
    the statements left it, which is what an enclosing [try ... except]
    sees. *)

Definition Try (S A : Type) : Type := S -> result A * S.

Definition ret {S A : Type} (a : A) : Try S A := fun s => (Ok a, s).

Definition bind {S A B : Type} (m : Try S A) (k : A -> Try S B) : Try S B :=
  fun s =>
    match m s with
    | (Ok a, s') => k a s'
    | (Raise e, s') => (Raise e, s')
    end.

Definition lift {S A : Type} (r : result A) : Try S A := fun s => (r, s).

Definition modify {S : Type} (f : S -> S) : Try S unit := fun s => (Ok tt, f s).

(** [try: m  except Exception as e: h e] *)
Definition catch {S A : Type} (m : Try S A) (h : exn -> Try S A) : Try S A :=
  fun s =>
    match m s with
    | (Ok a, s') => (Ok a, s')
    | (Raise e, s') => h e s'
    end.

Declare Scope try_scope.
Delimit Scope try_scope with try.
Notation "x <- m ;; k" := (bind m (fun x => k))
  (at level 61, m at next level, right associativity) : try_scope.
Notation "m ;; k" := (bind m (fun _ => k))
  (at level 61, right associativity) : try_scope.
Open Scope try_scope.

(** [for x in l: body x] *)
Fixpoint for_each {S A : Type} (l : list A) (body : A -> Try S unit) : Try S unit :=
  match l with
  | [] => ret tt
  | x :: l' => body x ;; for_each l' body
  end.

(** ** The viral score calculator *)

(** [self.viral_thresholds], set once by [__init__]. *)
Definition viral_thresholds : list (string * list (string * Q)) :=
  [ ("youtube", [("min_views", 10000); ("min_likes", 500); ("min_comments", 50);
                 ("engagement_rate", 5 # 100)]);
    ("instagram", [("min_likes", 1000); ("min_comments", 50); ("engagement_rate", 3 # 100)]);
    ("facebook", [("min_likes", 1000); ("min_comments", 50); ("engagement_rate", 3 # 100)]);
    ("twitter", [("min_retweets", 100); ("min_likes", 500); ("min_replies", 20)]);
    ("tiktok", [("min_views", 50000); ("min_likes", 2000); ("min_shares", 100)]) ]%Q.

(** [score += n] *)
Definition add_score (n : Z) : Try Z unit := modify (fun score => score + n).

(** [if v >= full: score += hi  elif v >= full * half: score += lo], the
    shape of every tier of the calculator; [half] is the factor the source
    writes ([0.5] for counts; [100] and [50] for the engagement rate, whose
    threshold is a fraction). *)
Definition score_tier (v : pyval) (full half : Q) (hi lo : Z) : Try Z unit :=
  above <- lift (py_ge v full) ;;
  if above then add_score hi
  else
    above_half <- lift (py_ge v half) ;;
    if above_half then add_score lo else ret tt.

Definition _calculate_viral_score (analysis : Dict) (platform : string) : Z :=
  let thresholds := dict.get_or viral_thresholds platform [] in
  let body : Try Z unit :=
    if (platform =? "instagram")%string then
      let likes := dict.get_or analysis "likes" (VInt 0) in
      let comments := dict.get_or analysis "comments" (VInt 0) in
      score_tier likes (dict.get_or thresholds "min_likes" 1000)%Q
                       (dict.get_or thresholds "min_likes" 1000 * (1 # 2))%Q 30 15 ;;
      score_tier comments (dict.get_or thresholds "min_comments" 50)%Q
                          (dict.get_or thresholds "min_comments" 50 * (1 # 2))%Q 20 10 ;;
      let engagement_rate := dict.get_or analysis "engagement_rate" (VInt 0) in
      score_tier engagement_rate (dict.get_or thresholds "engagement_rate" (3 # 100) * 100)%Q
                                 (dict.get_or thresholds "engagement_rate" (3 # 100) * 50)%Q 25 15 ;;
      hashtags <- lift (py_len (dict.get_or analysis "hashtags" (VList []))) ;;
      mentions <- lift (py_len (dict.get_or analysis "mentions" (VList []))) ;;
      add_score (Z.min (hashtags * 2) 10) ;;
      add_score (Z.min (mentions * 3) 15)
    else if (platform =? "youtube")%string then
      let views := dict.get_or analysis "views" (VInt 0) in
      let likes := dict.get_or analysis "likes" (VInt 0) in
      let comments := dict.get_or analysis "comments" (VInt 0) in
      score_tier views (dict.get_or thresholds "min_views" 10000)%Q
                       (dict.get_or thresholds "min_views" 10000 * (1 # 2))%Q 40 20 ;;
      score_tier likes (dict.get_or thresholds "min_likes" 500)%Q
                       (dict.get_or thresholds "min_likes" 500 * (1 # 2))%Q 20 10 ;;
      score_tier comments (dict.get_or thresholds "min_comments" 50)%Q
                          (dict.get_or thresholds "min_comments" 50 * (1 # 2))%Q 15 8
    else ret tt in
  (* try: body  except Exception: log; the score reached so far is kept *)
  let score := snd (body 0) in
  Z.min score 100.

(** ** The candidate filter *)

Section CandidateFilter.

Context {rt : Runtime}.

(** [f"{result.get('title', '')} {result.get('description', '')}".lower()] *)
Definition text_content_of (result : Dict) : string :=
  lower (fmt (dict.get_or result "title" (VStr "")) ++ " "
         ++ fmt (dict.get_or result "description" (VStr "")))%string.

(** The list [viral_keywords] of [_is_potentially_viral]. *)
Definition viral_keywords : list string :=
  [ "viral"; "trending"; "popular"; "milhões"; "millions";
    "views"; "visualizações"; "curtidas"; "likes"; "shares";
    "compartilhamentos"; "comentários"; "comments" ].

(** [any(int(num) > 1000 for num in numbers if num.isdigit())]: the
    numbers are converted one after the other up to the first one above
    1000; a conversion that raises ends the search with its exception. *)
Fixpoint any_above_1000 (numbers : list string) : result bool :=
  match numbers with
  | [] => Ok false
  | num :: rest =>
      if isdigit num then
        match int_of_digits num with
        | Ok value => if value >? 1000 then Ok true else any_above_1000 rest
        | Raise e => Raise e
        end
      else any_above_1000 rest
  end.

Definition _is_potentially_viral (result : Dict) (platform : string) : bool :=
  let text_content := text_content_of result in
  let has_viral_keywords :=
    existsb (fun keyword => str_in keyword text_content) viral_keywords in
  let numbers := findall_digits text_content in
  match any_above_1000 numbers with
  | Ok has_large_numbers => has_viral_keywords || has_large_numbers
  | Raise _ => false   (* except Exception: log; return False *)
  end.

(** The dictionary [viral_keywords] of [_calculate_initial_score]:
    keyword to points, in the order it is written. *)
Definition viral_keyword_points : list (string * Z) :=
  [ ("viral", 10); ("trending", 8); ("popular", 6);
    ("milhões", 15); ("millions", 15);
    ("views", 5); ("visualizações", 5);
    ("curtidas", 3); ("likes", 3) ].

(** The [if/elif] chain on one number found in the text. *)
Definition number_points (value : Z) : Z :=
  if value >? 1000000 then 20
  else if value >? 100000 then 15
  else if value >? 10000 then 10
  else if value >? 1000 then 5
  else 0.

Definition _calculate_initial_score (result : Dict) (platform : string) : Z :=
  let text_content := text_content_of result in
  let body : Try Z unit :=
    for_each viral_keyword_points (fun kp =>
      let '(keyword, points) := kp in
      if str_in keyword text_content then add_score points else ret tt) ;;
    let numbers := findall_digits text_content in
    for_each numbers (fun num =>
      if isdigit num then
        value <- lift (int_of_digits num) ;;
        add_score (number_points value)
      else ret tt) in
  (* try: body  except Exception: log; the score reached so far is kept *)
  let score := snd (body 0) in
  Z.min score 100.

(** The dictionary [_identify_viral_content] appends for a promoted
    result. *)
Definition candidate (source : string) (url : pyval) (result : Dict) (platform : string)
  : Dict :=
  [ ("url", url);
    ("platform", VStr platform);
    ("source", VStr source);
    ("title", dict.get_or result "title" (VStr ""));
    ("description", dict.get_or result "description" (VStr ""));
    ("initial_score", VFloat (inject_Z (_calculate_initial_score result platform))) ].

(** The body of the inner loop of [_identify_viral_content], on one entry
    of one source's result list; the state is the list [viral_content]. *)
Definition scan_result (source : string) (result : pyval) : Try (list Dict) unit :=
  match result with
  | VDict result =>
      if dict.has result "url" then
        let url := dict.get_or result "url" VNone in
        platform <- lift (match url with
                          | VStr u => Ok (_identify_platform u)
                          | _ => Raise (AttributeError "object has no attribute 'lower'")
                          end) ;;
        match platform with
        | Some platform =>
            if _is_potentially_viral result platform then
              modify (fun viral_content =>
                viral_content ++ [candidate source url result platform])
            else ret tt
        | None => ret tt
        end
      else ret tt
  | _ => ret tt
  end.

Definition _identify_viral_content (search_results : pyval) : list Dict :=
  let body : Try (list Dict) unit :=
    match search_results with
    | VDict items =>
        for_each items (fun entry =>
          let '(source, results) := entry in
          match results with
          | VList results => for_each results (scan_result source)
          | _ => ret tt
          end)
    | _ => lift (Raise (AttributeError "object has no attribute 'items'"))
    end in
  (* try: body  except Exception: log; what was collected is returned *)
  snd (body []).

End CandidateFilter.

(** ** Text of the YouTube view count *)

Section CountPattern.

Context {rt : Runtime}.

(** The run of decimal digits the characters start with, and what follows
    it. *)
Fixpoint span_decimal (chars : list string) : list string * list string :=
  match chars with
  | [] => ([], [])
  | c :: chars' =>
      if is_decimal c
      then let (ds, rest) := span_decimal chars' in (c :: ds, rest)
      else ([], chars)
  end.

Fixpoint drop_whitespace (chars : list string) : list string :=
  match chars with
  | c :: chars' => if is_whitespace c then drop_whitespace chars' else chars
  | [] => chars
  end.

(** Whether the characters start with the characters of [unit]. *)
Fixpoint starts_with (unit chars : list string) : bool :=
  match unit, chars with
  | [], _ => true
  | u :: unit', c :: chars' => String.eqb u c && starts_with unit' chars'
  | _ :: _, [] => false
  end.

(** The alternatives [million|milhão|mil|k|thousand], in the order the
    pattern tries them. *)
Definition count_units : list string :=
  [ "million"; "milhão"; "mil"; "k"; "thousand" ].

(** One attempt of the pattern
    [(\d+(?:\.\d+)?)\s*(?:million|milhão|mil|k|thousand)] at the start of
    the characters: the text of group 1 and the number of characters of
    the whole match.  Every quantifier is followed by text it cannot
    itself match, so giving back characters never turns a failed attempt
    into a match and the greedy reading is the only one. *)
Definition match_count_chars (chars : list string) : option (string * nat) :=
  let (int_part, after_int) := span_decimal chars in
  match int_part with
  | [] => None
  | _ =>
      let (num, after_num) :=
        match after_int with
        | "." :: after_dot =>
            let (frac_part, after_frac) := span_decimal after_dot in
            match frac_part with
            | [] => (int_part, after_int)
            | _ => (int_part ++ "." :: frac_part, after_frac)
            end
        | _ => (int_part, after_int)
        end in
      let after_space := drop_whitespace after_num in
      match find (fun unit => starts_with (utf8_chars unit) after_space) count_units with
      | Some unit =>
          Some (text_of num,
                (List.length chars - List.length after_space
                 + List.length (utf8_chars unit))%nat)
      | None => None
      end
  end.

Definition match_count_at (s : string) : option (string * nat) :=
  match_count_chars (utf8_chars s).

(** [re.findall] of that pattern: the matches do not overlap, and [skip]
    counts the characters of the last match still to step over. *)
Fixpoint findall_counts_from (skip : nat) (chars : list string) : list string :=
  match chars with
  | [] => []
  | _ :: chars' =>
      match skip with
      | S skip' => findall_counts_from skip' chars'
      | O =>
          match match_count_chars chars with
          | Some (num, len) => num :: findall_counts_from (len - 1) chars'
          | None => findall_counts_from 0 chars'
          end
      end
  end.

Definition findall_counts (s : string) : list string :=
  findall_counts_from 0 (utf8_chars s).

(** [s.replace(',', '.')] *)
Definition replace_comma (s : string) : string :=
  text_of (map (fun c => if String.eqb c "," then "." else c) (utf8_chars s)).

(** [float(s)] on the literals the pattern captures, decimal digits with
    an optional fraction: the double nearest to the number written, [None]
    standing for inf, which a literal beyond the largest double gives;
    anything else is taken as a [ValueError]. *)
Definition py_float (s : string) : result (option Q) :=
  let (int_part, rest) := span_decimal (utf8_chars s) in
  match int_part, rest with
  | [], _ => Raise (ValueError "could not convert string to float")
  | _, [] => Ok (double_of_Q (inject_Z (digits_value int_part)))
  | _, "." :: frac_part =>
      match frac_part with
      | [] => Raise (ValueError "could not convert string to float")
      | _ =>
          if forallb is_decimal frac_part
          then Ok (double_of_Q (inject_Z (digits_value (int_part ++ frac_part))
                                / inject_Z (10 ^ Z.of_nat (List.length frac_part))))
          else Raise (ValueError "could not convert string to float")
      end
  | _, _ => Raise (ValueError "could not convert string to float")
  end.

End CountPattern.

(** [x * n] for a float [x], [None] standing for inf, and a positive
    integer literal [n] that is a double. *)
Definition float_times (x : option Q) (n : Z) : option Q :=
  match x with
  | Some q => double_of_Q (q * inject_Z n)
  | None => None
  end.

(** [int(x)] for a finite float: truncation towards zero. *)
Definition py_int (x : Q) : Z := Z.quot (Qnum x) (Zpos (Qden x)).

(** [int(x)] for a float, [None] standing for inf. *)
Definition int_of_float (x : option Q) : result Z :=
  match x with
  | Some q => Ok (py_int q)
  | None => Raise (OverflowError "cannot convert float infinity to integer")
  end.

(** ** The world a run acts on *)

Record World : Type := {
  (** readings of the wall clock taken so far *)
  clock : nat;
  (** seconds spent in [asyncio.sleep] *)
  slept : nat;
  (** the artifacts the run tried to write, latest first: path and content *)
  written : list (string * Dict)
}.

Definition IO (A : Type) : Type := Try World A.

(** Platform buckets: [Dict[str, List[Dict]]], in insertion order. *)
Definition Buckets : Type := list (string * list Dict).

(** [d[k]] *)
Definition getitem (d : Dict) (k : string) : result pyval :=
  match dict.get d k with
  | Some v => Ok v
  | None => Raise (KeyError k)
  end.

(** [v == 0] *)
Definition py_eq_zero (v : pyval) : bool :=
  match as_number v with
  | Some x => Qeq_bool x 0
  | None => false
  end.

(** [v == text] for a [str] literal *)
Definition py_eq_str (v : pyval) (text : string) : bool :=
  match v with
  | VStr s => String.eqb s text
  | _ => false
  end.

(** [hasattr(o, name)] and [getattr(o, name, default)] for the attribute
    names the analyzer probes (the fields of a scraped post and of its
    owner): only an object carries them. *)
Definition hasattr (o : pyval) (name : string) : bool :=
  match o with
  | VObj attrs => dict.has attrs name
  | _ => false
  end.

Definition getattr (o : pyval) (name : string) (default : pyval) : pyval :=
  match o with
  | VObj attrs => dict.get_or attrs name default
  | _ => default
  end.

(** [platform_analysis[key].append(analysis)] *)
Definition bucket_append (platform_analysis : Buckets) (key : string) (analysis : Dict)
  : Buckets :=
  dict.set platform_analysis key (dict.get_or platform_analysis key [] ++ [analysis]).

(** [platform_analysis.get(platform, platform_analysis['other']).append(analysis)];
    a platform that cannot be hashed cannot be looked up. *)
Definition bucket_append_or_other (platform_analysis : Buckets) (platform : pyval)
           (analysis : Dict) : result Buckets :=
  match platform with
  | VList _ | VDict _ => Raise (TypeError "unhashable type")
  | VStr p =>
      if dict.has platform_analysis p
      then Ok (bucket_append platform_analysis p analysis)
      else Ok (bucket_append platform_analysis "other" analysis)
  | _ => Ok (bucket_append platform_analysis "other" analysis)
  end.

Definition empty_buckets : Buckets :=
  [ ("instagram", []); ("youtube", []); ("facebook", []);
    ("twitter", []); ("tiktok", []); ("other", []) ].

(** ** The enrichment adapter *)

Section EnrichmentAdapter.

Context {rt : Runtime}.

(** [datetime.now().isoformat()] *)
Definition datetime_now_isoformat : IO pyval :=
  fun w => (Ok (VStr (now_isoformat (clock w))),
            {| clock := S (clock w); slept := slept w; written := written w |}).

(** [await asyncio.sleep(seconds)] *)
Definition asyncio_sleep (seconds : nat) : IO unit :=
  modify (fun w => {| clock := clock w; slept := (slept w + seconds)%nat;
                      written := written w |}).

Definition _analyze_instagram_post (url : pyval) (content : Dict) : IO (option Dict) :=
  catch
    (post <- (fun w => (scrape_post (clock w) url, w)) ;;
     let post := VObj post in
     stamp <- datetime_now_isoformat ;;
     let analysis : Dict :=
       [ ("url", url);
         ("platform", VStr "instagram");
         ("title", dict.get_or content "title" (VStr ""));
         ("caption", getattr post "caption" (VStr ""));
         ("likes", getattr post "likes" (VInt 0));
         ("comments", getattr post "comments" (VInt 0));
         ("timestamp", getattr post "timestamp" (VStr ""));
         ("owner", getattr post "owner" (VStr ""));
         ("hashtags", getattr post "hashtags" (VList []));
         ("mentions", getattr post "mentions" (VList []));
         ("is_video", getattr post "is_video" (VBool false));
         ("engagement_rate", VInt 0);
         ("viral_score", VInt 0);
         ("analysis_timestamp", stamp) ] in
     analysis <-
       (if hasattr post "owner" && hasattr (getattr post "owner" VNone) "followers" then
          let followers := getattr (getattr post "owner" VNone) "followers" (VInt 1) in
          positive <- lift (py_gt followers 0) ;;
          if positive then
            total <- lift (py_add (dict.get_or analysis "likes" VNone)
                                  (dict.get_or analysis "comments" VNone)) ;;
            ratio <- lift (py_truediv total followers) ;;
            rate <- lift (py_mul_int ratio 100) ;;
            ret (dict.set analysis "engagement_rate" rate)
          else ret analysis
        else ret analysis) ;;
     let analysis :=
       dict.set analysis "viral_score"
                (VFloat (inject_Z (_calculate_viral_score analysis "instagram"))) in
     ret (Some analysis))
    (fun _ => ret None).

(** One turn of the loop of [_analyze_youtube_video], inside its [try]. *)
Definition views_from_number (num_str text_content : string) (analysis : Dict)
  : result Dict :=
  match py_float (replace_comma num_str) with
  | Ok num =>
      let num :=
        if str_in "million" (lower text_content)
           || str_in "milhão" (lower text_content)
        then float_times num 1000000
        else if str_in "mil" (lower text_content)
                || str_in "k" (lower text_content)
                || str_in "thousand" (lower text_content)
        then float_times num 1000
        else num in
      if py_eq_zero (dict.get_or analysis "views" VNone)
      then match int_of_float num with
           | Ok views => Ok (dict.set analysis "views" (VInt views))
           | Raise e => Raise e
           end
      else Ok analysis
  | Raise e => Raise e
  end.

(** The loop of [_analyze_youtube_video] over the captured numbers: the
    first one that converts sets [views] and ends the loop ([break]); one
    that raises is skipped ([continue]). *)
Fixpoint views_from_numbers (numbers : list string) (text_content : string)
         (analysis : Dict) : Dict :=
  match numbers with
  | [] => analysis
  | num_str :: rest =>
      match views_from_number num_str text_content analysis with
      | Ok analysis => analysis
      | Raise _ => views_from_numbers rest text_content analysis
      end
  end.

Definition _analyze_youtube_video (url : pyval) (content : Dict) : IO (option Dict) :=
  catch
    (stamp <- datetime_now_isoformat ;;
     let analysis : Dict :=
       [ ("url", url);
         ("platform", VStr "youtube");
         ("title", dict.get_or content "title" (VStr ""));
         ("description", dict.get_or content "description" (VStr ""));
         ("views", VInt 0);
         ("likes", VInt 0);
         ("comments", VInt 0);
         ("engagement_rate", VInt 0);
         ("viral_score", dict.get_or content "initial_score" (VInt 0));
         ("analysis_timestamp", stamp);
         ("analysis_method", VStr "basic_fallback") ] in
     let text_content :=
       (fmt (dict.get_or analysis "title" VNone) ++ " "
        ++ fmt (dict.get_or analysis "description" VNone))%string in
     let numbers := findall_counts (lower text_content) in
     ret (Some (views_from_numbers numbers text_content analysis)))
    (fun _ => ret None).

Definition _basic_url_analysis (url : pyval) (content : Dict) : IO (option Dict) :=
  catch
    (stamp <- datetime_now_isoformat ;;
     let analysis : Dict :=
       [ ("url", url);
         ("platform", dict.get_or content "platform" (VStr "other"));
         ("title", dict.get_or content "title" (VStr ""));
         ("description", dict.get_or content "description" (VStr ""));
         ("viral_score", dict.get_or content "initial_score" (VInt 0));
         ("analysis_timestamp", stamp);
         ("analysis_method", VStr "basic_fallback") ] in
     ret (Some analysis))
    (fun _ => ret None).

(** [if analysis: ...]: a returned record that is a non-empty dictionary. *)
Definition truthy (analysis : option Dict) : option Dict :=
  match analysis with
  | Some ((_ :: _) as a) => Some a
  | _ => None
  end.

(** One turn of the loop of [_basic_analysis_fallback], inside its [try]. *)
Definition fallback_item (content : Dict) (platform_analysis : Buckets) : IO Buckets :=
  let platform := dict.get_or content "platform" (VStr "other") in
  url <- lift (getitem content "url") ;;
  analysis <- _basic_url_analysis url content ;;
  match truthy analysis with
  | Some analysis => lift (bucket_append_or_other platform_analysis platform analysis)
  | None => ret platform_analysis
  end.

(** [for content in viral_urls: try: ...  except Exception: continue],
    threading the buckets the loop appends to. *)
Fixpoint each_candidate (item : Dict -> Buckets -> IO Buckets) (viral_urls : list Dict)
         (platform_analysis : Buckets) : IO Buckets :=
  match viral_urls with
  | [] => ret platform_analysis
  | content :: rest =>
      platform_analysis <-
        catch (item content platform_analysis) (fun _ => ret platform_analysis) ;;
      each_candidate item rest platform_analysis
  end.

Definition _basic_analysis_fallback (viral_urls : list Dict) : IO Buckets :=
  each_candidate fallback_item viral_urls empty_buckets.

(** One turn of the loop of [_analyze_with_instascrape], inside its [try]. *)
Definition instascrape_item (content : Dict) (platform_analysis : Buckets) : IO Buckets :=
  url <- lift (getitem content "url") ;;
  platform <- lift (getitem content "platform") ;;
  platform_analysis <-
    (if py_eq_str platform "instagram" then
       analysis <- _analyze_instagram_post url content ;;
       match truthy analysis with
       | Some analysis => ret (bucket_append platform_analysis "instagram" analysis)
       | None => ret platform_analysis
       end
     else if py_eq_str platform "youtube" then
       analysis <- _analyze_youtube_video url content ;;
       match truthy analysis with
       | Some analysis => ret (bucket_append platform_analysis "youtube" analysis)
       | None => ret platform_analysis
       end
     else
       analysis <- _basic_url_analysis url content ;;
       match truthy analysis with
       | Some analysis => lift (bucket_append_or_other platform_analysis platform analysis)
       | None => ret platform_analysis
       end) ;;
  asyncio_sleep 1 ;;
  ret platform_analysis.

Definition _analyze_with_instascrape (viral_urls : list Dict) : IO Buckets :=
  if negb HAS_INSTASCRAPE then _basic_analysis_fallback viral_urls
  else each_candidate instascrape_item viral_urls empty_buckets.

End EnrichmentAdapter.

(** ** The aggregator *)

(** [a < b], as [sorted] compares two keys: numbers by value, text by code
    point (the byte order of UTF-8 is the order of the code points).
    Python also orders lists, item by item, and whether a sort of such
    keys raises depends on the pairs the sorting algorithm happens to
    compare; the comparison is not followed there: any other pair is taken
    as not ordered, and the properties of the sort are stated for keys
    that are numbers or text. *)
Definition py_lt (a b : pyval) : result bool :=
  match a, b with
  | VStr x, VStr y => Ok (String.ltb x y)
  | _, _ =>
      match as_number a, as_number b with
      | Some x, Some y => Ok (negb (Qle_bool y x))
      | _, _ => Raise (TypeError "'<' not supported between these instances")
      end
  end.

Section SortedBuiltin.

Context {A : Type} (key : A -> pyval).

(** [x] goes in front of the first element that is not greater than it,
    so that among equal keys the earlier element stays first. *)
Fixpoint insert_descending (x : A) (l : list A) : result (list A) :=
  match l with
  | [] => Ok [x]
  | y :: l' =>
      match py_lt (key x) (key y) with
      | Ok true =>
          match insert_descending x l' with
          | Ok r => Ok (y :: r)
          | Raise e => Raise e
          end
      | Ok false => Ok (x :: l)
      | Raise e => Raise e
      end
  end.

(** [sorted(l, key=key, reverse=True)]: the stable descending sort, or
    the [TypeError] of a comparison. *)
Fixpoint sorted_reverse (l : list A) : result (list A) :=
  match l with
  | [] => Ok []
  | x :: l' =>
      match sorted_reverse l' with
      | Ok s => insert_descending x s
      | Raise e => Raise e
      end
  end.

End SortedBuiltin.

(** [l[:n]] for an integer [n]; a negative [n] counts from the end. *)
Definition slice_to {A : Type} (l : list A) (n : Z) : list A :=
  if 0 <=? n then firstn (Z.to_nat n) l
  else firstn (List.length l - Z.to_nat (- n)) l.

(** [l[:n]] for any value [n]. *)
Definition py_slice_to {A : Type} (l : list A) (n : pyval) : result (list A) :=
  match n with
  | VInt z => Ok (slice_to l z)
  | VBool b => Ok (slice_to l (if b then 1 else 0))
  | VNone => Ok l
  | _ => Raise (TypeError
                  "slice indices must be integers or None or have an __index__ method")
  end.

Definition viral_score_of (x : Dict) : pyval := dict.get_or x "viral_score" (VInt 0).

(** [all_content], the buckets flattened in the order of the mapping. *)
Definition all_content_of (platform_analysis : Buckets) : list Dict :=
  List.concat (map snd platform_analysis).

Definition _get_top_performers (platform_analysis : Buckets) (top_n : Z) : list Dict :=
  let all_content := all_content_of platform_analysis in
  match sorted_reverse viral_score_of all_content with
  | Ok top_performers => slice_to top_performers top_n
  | Raise _ => []   (* except Exception: log; return [] *)
  end.

(** [sum(values)]: the values added to the start value one after the
    other, from the left, each float sum rounded, which is what CPython
    does up to 3.11.  From 3.12 on [sum] carries a correction term through
    a run of floats, and may differ in the last bit where a partial sum
    has been rounded; the two agree where every partial sum is exact, and
    the properties on the value of a sum of floats are stated for such
    sums. *)
Fixpoint py_sum_from (acc : pyval) (values : list pyval) : result pyval :=
  match values with
  | [] => Ok acc
  | v :: values' =>
      match py_add acc v with
      | Ok acc' => py_sum_from acc' values'
      | Raise e => Raise e
      end
  end.

Definition py_sum (values : list pyval) : result pyval := py_sum_from (VInt 0) values.

(** The dictionary [metrics] of [_calculate_viral_metrics] and the two
    lists its loop fills. *)
Record MetricsState : Type := {
  metrics : Dict;
  all_content : list Dict;
  viral_scores : list pyval
}.

Definition metrics_start : MetricsState :=
  {| metrics :=
       [ ("total_content_analyzed", VInt 0);
         ("viral_content_count", VInt 0);
         ("average_viral_score", VInt 0);
         ("platform_distribution", VDict []);
         ("engagement_totals",
          VDict [ ("total_likes", VInt 0); ("total_comments", VInt 0);
                  ("total_shares", VInt 0); ("total_views", VInt 0) ]) ];
     all_content := [];
     viral_scores := [] |}.

(** The dictionary stored under [k], empty when [k] holds none. *)
Definition subdict (d : Dict) (k : string) : Dict :=
  match dict.get d k with
  | Some (VDict inner) => inner
  | _ => []
  end.

(** [metrics[k] = v] *)
Definition set_metric (k : string) (v : pyval) : Try MetricsState unit :=
  modify (fun st => {| metrics := dict.set (metrics st) k v;
                       all_content := all_content st;
                       viral_scores := viral_scores st |}).

(** [metrics[outer][k] = v] *)
Definition set_metric_in (outer k : string) (v : pyval) : Try MetricsState unit :=
  modify (fun st =>
    {| metrics := dict.set (metrics st) outer
                           (VDict (dict.set (subdict (metrics st) outer) k v));
       all_content := all_content st;
       viral_scores := viral_scores st |}).

(** [metrics['engagement_totals'][k] += v] *)
Definition add_to_total (k : string) (v : pyval) : Try MetricsState unit :=
  total <- (fun st =>
              (py_add (dict.get_or (subdict (metrics st) "engagement_totals") k VNone) v,
               st)) ;;
  set_metric_in "engagement_totals" k total.

Definition metrics_of_content (content : Dict) : Try MetricsState unit :=
  let viral_score := dict.get_or content "viral_score" (VInt 0) in
  modify (fun st => {| metrics := metrics st;
                       all_content := all_content st;
                       viral_scores := viral_scores st ++ [viral_score] |}) ;;
  viral <- lift (py_ge viral_score 50) ;;
  (if viral then
     count <- (fun st =>
                 (py_add (dict.get_or (metrics st) "viral_content_count" VNone) (VInt 1),
                  st)) ;;
     set_metric "viral_content_count" count
   else ret tt) ;;
  add_to_total "total_likes" (dict.get_or content "likes" (VInt 0)) ;;
  add_to_total "total_comments" (dict.get_or content "comments" (VInt 0)) ;;
  add_to_total "total_shares" (dict.get_or content "shares" (VInt 0)) ;;
  add_to_total "total_views" (dict.get_or content "views" (VInt 0)).

Definition metrics_of_bucket (bucket : string * list Dict) : Try MetricsState unit :=
  let '(platform, content_list) := bucket in
  match content_list with
  | [] => ret tt
  | _ =>
      set_metric_in "platform_distribution" platform
                    (VInt (Z.of_nat (List.length content_list))) ;;
      modify (fun st => {| metrics := metrics st;
                           all_content := all_content st ++ content_list;
                           viral_scores := viral_scores st |}) ;;
      for_each content_list metrics_of_content
  end.

Definition _calculate_viral_metrics (platform_analysis : Buckets) : Dict :=
  let body : Try MetricsState unit :=
    for_each platform_analysis metrics_of_bucket ;;
    n <- (fun st => (Ok (List.length (all_content st)), st)) ;;
    set_metric "total_content_analyzed" (VInt (Z.of_nat n)) ;;
    scores <- (fun st => (Ok (viral_scores st), st)) ;;
    match scores with
    | [] => ret tt
    | _ =>
        total <- lift (py_sum scores) ;;
        average <- lift (py_truediv total (VInt (Z.of_nat (List.length scores)))) ;;
        set_metric "average_viral_score" average
    end in
  (* try: body  except Exception: log; the metrics as updated so far *)
  metrics (snd (body metrics_start)).

(** The dictionary [insights] of [_generate_engagement_insights] with the
    two dictionaries it builds on the side. *)
Record InsightsState : Type := {
  insights : Dict;
  platform_scores : list (string * pyval);
  hashtag_counts : list (pyval * Z)
}.

Definition insights_start : InsightsState :=
  {| insights :=
       [ ("best_performing_platform", VStr "");
         ("average_engagement_by_platform", VDict []);
         ("content_type_insights", VDict []);
         ("hashtag_insights", VDict []);
         ("timing_insights", VDict []) ];
     platform_scores := [];
     hashtag_counts := [] |}.

(** [insights[k] = v] *)
Definition set_insight (k : string) (v : pyval) : Try InsightsState unit :=
  modify (fun st => {| insights := dict.set (insights st) k v;
                       platform_scores := platform_scores st;
                       hashtag_counts := hashtag_counts st |}).

(** [sum(likes + comments + shares for content in content_list)]: each
    term is computed when the sum reaches it. *)
Fixpoint engagement_sum (acc : pyval) (content_list : list Dict) : result pyval :=
  match content_list with
  | [] => Ok acc
  | content :: rest =>
      match py_add (dict.get_or content "likes" (VInt 0))
                   (dict.get_or content "comments" (VInt 0)) with
      | Ok two =>
          match py_add two (dict.get_or content "shares" (VInt 0)) with
          | Ok three =>
              match py_add acc three with
              | Ok acc' => engagement_sum acc' rest
              | Raise e => Raise e
              end
          | Raise e => Raise e
          end
      | Raise e => Raise e
      end
  end.

Definition insights_of_bucket (bucket : string * list Dict) : Try InsightsState unit :=
  let '(platform, content_list) := bucket in
  match content_list with
  | [] => ret tt
  | _ =>
      let scores := map (fun content => dict.get_or content "viral_score" (VInt 0))
                        content_list in
      total <- lift (py_sum scores) ;;
      mean <- lift (py_truediv total (VInt (Z.of_nat (List.length scores)))) ;;
      modify (fun st => {| insights := insights st;
                           platform_scores := dict.set (platform_scores st) platform mean;
                           hashtag_counts := hashtag_counts st |}) ;;
      total_engagement <- lift (engagement_sum (VInt 0) content_list) ;;
      average <- lift (py_truediv total_engagement
                                  (VInt (Z.of_nat (List.length content_list)))) ;;
      modify (fun st =>
        {| insights :=
             dict.set (insights st) "average_engagement_by_platform"
                      (VDict (dict.set (subdict (insights st) "average_engagement_by_platform")
                                       platform average));
           platform_scores := platform_scores st;
           hashtag_counts := hashtag_counts st |})
  end.

(** [max(scores, key=scores.get)] from a first key on: a later key takes
    over only when its value is greater. *)
Fixpoint max_key_from (best : string * pyval) (scores : list (string * pyval))
  : result string :=
  match scores with
  | [] => Ok (fst best)
  | item :: rest =>
      match py_lt (snd best) (snd item) with
      | Ok true => max_key_from item rest
      | Ok false => max_key_from best rest
      | Raise e => Raise e
      end
  end.

(** [for x in v]: the items a loop over [v] visits. *)
Definition py_iter (v : pyval) : result (list pyval) :=
  match v with
  | VList l => Ok l
  | VStr s => Ok (map VStr (utf8_chars s))
  | VDict d => Ok (map (fun kv => VStr (fst kv)) d)
  | _ => Raise (TypeError "object is not iterable")
  end.

(** Whether two hashable values are one dictionary key: numbers by value,
    text by content; an object is a key of its own. *)
Definition same_key (a b : pyval) : bool :=
  match a, b with
  | VStr x, VStr y => String.eqb x y
  | VNone, VNone => true
  | _, _ =>
      match as_number a, as_number b with
      | Some x, Some y => Qeq_bool x y
      | _, _ => false
      end
  end.

Fixpoint count_up (counts : list (pyval * Z)) (k : pyval) : list (pyval * Z) :=
  match counts with
  | [] => [(k, 1)]
  | (k', n) :: counts' =>
      if same_key k k' then (k', n + 1) :: counts' else (k', n) :: count_up counts' k
  end.

(** [hashtag_counts[hashtag] = hashtag_counts.get(hashtag, 0) + 1] *)
Definition count_hashtag (hashtag : pyval) : Try InsightsState unit :=
  match hashtag with
  | VList _ | VDict _ => lift (Raise (TypeError "unhashable type"))
  | _ =>
      modify (fun st => {| insights := insights st;
                           platform_scores := platform_scores st;
                           hashtag_counts := count_up (hashtag_counts st) hashtag |})
  end.

Definition _generate_engagement_insights (platform_analysis : Buckets) : Dict :=
  let body : Try InsightsState unit :=
    for_each platform_analysis insights_of_bucket ;;
    scores <- (fun st => (Ok (platform_scores st), st)) ;;
    match scores with
    | [] => ret tt
    | first :: others =>
        best <- lift (max_key_from first others) ;;
        set_insight "best_performing_platform" (VStr best)
    end ;;
    let instagram_content := dict.get_or platform_analysis "instagram" [] in
    for_each instagram_content (fun content =>
      hashtags <- lift (py_iter (dict.get_or content "hashtags" (VList []))) ;;
      for_each hashtags count_hashtag) ;;
    counts <- (fun st => (Ok (hashtag_counts st), st)) ;;
    top_hashtags <- lift (sorted_reverse (fun item => VInt (snd item)) counts) ;;
    let top_hashtags := slice_to top_hashtags 10 in
    set_insight "hashtag_insights"
      (VDict [ ("top_hashtags",
                VList (map (fun item => VList [fst item; VInt (snd item)]) top_hashtags));
               ("total_unique_hashtags", VInt (Z.of_nat (List.length counts))) ]) in
  (* try: body  except Exception: log; the insights as updated so far *)
  insights (snd (body insights_start)).

(** ** The report writer and the entry point *)

Definition buckets_value (platform_analysis : Buckets) : pyval :=
  VDict (map (fun bucket => (fst bucket, VList (map VDict (snd bucket)))) platform_analysis).

Section Analyzer.

Context {rt : Runtime}.

Definition _save_analysis_results (results : Dict) (session_id : string) : IO unit :=
  catch
    (stamp <- (fun w => (Ok (now_strftime (clock w)),
                         {| clock := S (clock w); slept := slept w;
                            written := written w |})) ;;
     let filename := ("viral_analysis_" ++ session_id ++ "_" ++ stamp ++ ".json")%string in
     let filepath := ("viral_data/" ++ filename)%string in
     fun w => (write_json filepath results,
               {| clock := clock w; slept := slept w;
                  written := (filepath, results) :: written w |}))
    (fun _ => ret tt).

(** The state of a run: the world and the dictionary [analysis_results]
    that the run fills key by key. *)
Definition Run (A : Type) : Type := Try (World * Dict) A.

Definition in_world {A : Type} (m : IO A) : Run A :=
  fun st => let (r, w) := m (fst st) in (r, (w, snd st)).

(** [analysis_results[k] = v] *)
Definition set_result (k : string) (v : pyval) : Run unit :=
  modify (fun st => (fst st, dict.set (snd st) k v)).

(** The [try] block of [analyze_and_capture_viral_content]. *)
Definition analysis_phases (search_results : pyval) (session_id : string)
           (max_captures : pyval) : Run unit :=
  let viral_urls := _identify_viral_content search_results in
  set_result "viral_content_identified" (VList (map VDict viral_urls)) ;;
  captured <- lift (py_slice_to viral_urls max_captures) ;;
  detailed_analysis <- in_world (_analyze_with_instascrape captured) ;;
  set_result "platform_analysis" (buckets_value detailed_analysis) ;;
  let metrics := _calculate_viral_metrics detailed_analysis in
  set_result "viral_metrics" (VDict metrics) ;;
  set_result "top_performers"
             (VList (map VDict (_get_top_performers detailed_analysis 10))) ;;
  set_result "engagement_insights"
             (VDict (_generate_engagement_insights detailed_analysis)) ;;
  completed <- in_world datetime_now_isoformat ;;
  set_result "analysis_completed" completed ;;
  set_result "success" (VBool true) ;;
  analysis_results <- (fun st => (Ok (snd st), st)) ;;
  in_world (_save_analysis_results analysis_results session_id).

(** [analysis_results] as the entry point first builds it. *)
Definition new_analysis_results (session_id : string) (started : pyval) : Dict :=
  [ ("session_id", VStr session_id);
    ("analysis_started", started);
    ("viral_content_identified", VList []);
    ("screenshots_captured", VList []);
    ("viral_metrics", VDict []);
    ("platform_analysis", VDict []);
    ("top_performers", VList []);
    ("engagement_insights", VDict []) ].

(** [except Exception as e:] of the entry point. *)
Definition analysis_failed (e : exn) : Run unit :=
  set_result "error" (VStr (exn_text e)) ;;
  set_result "success" (VBool false).

Definition analyze_and_capture_viral_content (search_results : pyval)
           (session_id : string) (max_captures : pyval) : IO Dict :=
  started <- datetime_now_isoformat ;;
  let analysis_results := new_analysis_results session_id started in
  fun w =>
    match catch (analysis_phases search_results session_id max_captures)
                analysis_failed (w, analysis_results) with
    | (Ok _, st) => (Ok (snd st), fst st)   (* return analysis_results *)
    | (Raise e, st) => (Raise e, fst st)
    end.

End Analyzer.

(** ** A runtime for the worked examples

    The examples below run the analyzer on ASCII text in lower or upper
    case and on text already in lower case, where [str.lower] is the
    ASCII mapping and the digits and the white space are the ASCII ones,
    with the interpreter's default limit of 4300 digits on [int], and on
    text fields that hold text, [None], booleans or
    integers, whose rendering is written out here (a float or a container
    renders through its [repr], which is not written out: it renders as
    empty text here, and no example puts one in a text field).  The clock
    and the file system are the simplest ones: the clock reads its own
    count and every write succeeds. *)

Definition ascii_lower_char (c : ascii) : ascii :=
  let n := nat_of_ascii c in
  if (65 <=? n)%nat && (n <=? 90)%nat then ascii_of_nat (n + 32) else c.

Fixpoint ascii_lower (s : string) : string :=
  match s with
  | EmptyString => EmptyString
  | String c s' => String (ascii_lower_char c) (ascii_lower s')
  end.

Definition decimal_of_Z (z : Z) : string :=
  DecimalString.NilZero.string_of_int (Z.to_int z).

Definition render_text (v : pyval) : string :=
  match v with
  | VStr s => s
  | VNone => "None"
  | VBool true => "True"
  | VBool false => "False"
  | VInt z => decimal_of_Z z
  | _ => ""
  end.

(** The ASCII digits. *)
Definition ascii_digit (c : string) : option nat :=
  match c with
  | String a EmptyString =>
      let n := nat_of_ascii a in
      if (48 <=? n)%nat && (n <=? 57)%nat then Some (n - 48)%nat else None
  | _ => None
  end.

(** The ASCII white space [\s] matches. *)
Definition ascii_space (c : string) : bool :=
  match c with
  | String a EmptyString =>
      let n := nat_of_ascii a in
      ((9 <=? n)%nat && (n <=? 13)%nat) || ((28 <=? n)%nat && (n <=? 32)%nat)
  | _ => false
  end.

Definition example_runtime (has_instascrape : bool) (post : result Dict) : Runtime :=
  {| lower := ascii_lower;
     fmt := render_text;
     decimal_digit := ascii_digit;
     other_digit := fun _ => false;
     is_whitespace := ascii_space;
     int_max_str_digits := 4300;
     HAS_INSTASCRAPE := has_instascrape;
     scrape_post := fun _ _ => post;
     now_isoformat := fun n => decimal_of_Z (Z.of_nat n);
     now_strftime := fun n => decimal_of_Z (Z.of_nat n);
     write_json := fun _ _ => Ok tt |}.

Definition start_of_run : World := {| clock := 0; slept := 0; written := [] |}.

(** ** Blocks that only add to the score *)

(** A block over the local [score] never leaves it lower than it found it,
    whether it ends normally or raises. *)
Definition grows {A : Type} (m : Try Z A) : Prop :=
  forall score, score <= snd (m score).

(** ** The initial score as the specification words it *)

Definition Zsum (l : list Z) : Z := fold_right Z.add 0 l.

Definition clamp (lo hi x : Z) : Z := Z.max lo (Z.min hi x).

(** The magnitude tiers, largest first: a number above the bound earns the
    bonus. *)
Definition magnitude_tiers : list (Z * Z) :=
  [ (1000000, 20); (100000, 15); (10000, 10); (1000, 5) ].

(** The bonus of one number: that of the highest tier it exceeds. *)
Definition magnitude_bonus (n : Z) : Z :=
  match find (fun tier => fst tier <? n) magnitude_tiers with
  | Some tier => snd tier
  | None => 0
  end.

Section InitialScoreSpec.

Context {rt : Runtime}.

(** The integer literals embedded in a text: the numbers its runs of
    decimal digits denote. *)
Definition embedded_numbers (text : string) : list Z :=
  map (fun num => digits_value (utf8_chars num)) (findall_digits text).

(** The numbers [int] converts before it fails: those of the runs of
    digits up to the first one that [int] does not convert. *)
Fixpoint converted_until_failure (numbers : list string) : list Z :=
  match numbers with
  | [] => []
  | num :: rest =>
      match int_of_digits num with
      | Ok value => value :: converted_until_failure rest
      | Raise _ => []
      end
  end.

Definition converted_numbers (text : string) : list Z :=
  converted_until_failure (findall_digits text).

(** [int] converts the run of digits: they are not more than the limit. *)
Definition converts (num : string) : Prop :=
  over_int_limit (List.length (utf8_chars num)) = false.

(** What one keyword of the weight table adds: its weight when the text
    contains it, however often. *)
Definition keyword_weight (text : string) (kp : string * Z) : Z :=
  if str_in (fst kp) text then snd kp else 0.

Definition initial_score_spec (text : string) : Z :=
  clamp 0 100 (Zsum (map (keyword_weight text) viral_keyword_points)
               + Zsum (map magnitude_bonus (embedded_numbers text))).

(** The same sum over the numbers [int] converts before it fails. *)
Definition initial_score_converted (text : string) : Z :=
  clamp 0 100 (Zsum (map (keyword_weight text) viral_keyword_points)
               + Zsum (map magnitude_bonus (converted_numbers text))).

(** The search result [result], listed under [source], is an entry of
    [search_results]. *)
Definition listed_in (search_results : pyval) (source : string) (result : Dict) : Prop :=
  exists items results,
    search_results = VDict items
    /\ In (source, VList results) items
    /\ In (VDict result) results.

(** What one turn of the inner loop leaves in [viral_content]: nothing
    new, or the candidate of a result that has a URL of a known platform
    and passes the viral test. *)
Definition promoted_from (source : string) (result : pyval) (c : Dict) : Prop :=
  exists (r : Dict) (u platform : string),
    result = VDict r
    /\ dict.get r "url" = Some (VStr u)
    /\ _identify_platform u = Some platform
    /\ _is_potentially_viral r platform = true
    /\ c = candidate source (VStr u) r platform.

End InitialScoreSpec.

(** ** Worked inputs *)

(** The runtime of the examples with [instascrape] installed and no post
    reachable. *)
Definition offline_runtime : Runtime :=
  example_runtime true (Raise (Exn "ConnectionError" "no route to host")).

(** [analysis['views']] of the record [_analyze_youtube_video] returns for a
    candidate with the given title, run on the example runtime. *)
Definition parsed_views (title : string) : option pyval :=
  match fst (@_analyze_youtube_video offline_runtime
               (VStr "https://youtube.com/watch?v=1")
               [("title", VStr title)] start_of_run) with
  | Ok (Some analysis) => dict.get analysis "views"
  | _ => None
  end.

(** The input of the specification's first scenario. *)
Definition scenario_results : pyval :=
  VDict [ ("google",
           VList [ VDict [ ("url", VStr "https://instagram.com/p/abc");
                           ("title", VStr "video viral com 2000000 visualizações") ] ]) ].

(** The candidate the filter makes of it: 10 for 'viral', 5 for
    'visualizações' and 20 for the number above one million. *)
Definition scenario_candidate : Dict :=
  [ ("url", VStr "https://instagram.com/p/abc");
    ("platform", VStr "instagram");
    ("source", VStr "google");
    ("title", VStr "video viral com 2000000 visualizações");
    ("description", VStr "");
    ("initial_score", VFloat (inject_Z 35)) ].

(** A result whose text holds the number 2000 and, after it, a number of
    4301 digits, one more than [int] converts by default. *)
Definition long_number_result : Dict :=
  [ ("url", VStr "https://facebook.com/some.page/posts/2");
    ("title", VStr ("2000 " ++ repeat_string "9" 4301)) ].

Definition long_number_results : pyval :=
  VDict [ ("google", VList [ VDict long_number_result ]) ].

(** A result whose text holds the keyword 'viral', the number 12 and a
    number of 4301 digits. *)
Definition viral_long_number_result : Dict :=
  [ ("url", VStr "https://www.tiktok.com/@a/video/7");
    ("title", VStr ("viral 12 " ++ repeat_string "9" 4301)) ].

(** A result whose text holds a keyword of the filter that carries no
    weight, and no number. *)
Definition comments_only_results : pyval :=
  VDict [ ("google",
           VList [ VDict [ ("url", VStr "https://facebook.com/some.page/posts/1");
                           ("title", VStr "Comments") ] ]) ].

(** ** Order and ties of sort keys *)

(** [a] is not below [b]: the comparison [a < b] is made and fails. *)
Definition not_below (a b : pyval) : Prop := py_lt a b = Ok false.

(** Two keys tie: neither is below the other. *)
Definition tied (a b : pyval) : bool :=
  match py_lt a b, py_lt b a with
  | Ok false, Ok false => true
  | _, _ => false
  end.

(** The key of [x] is not below the key of [y]. *)
Definition key_not_below {A : Type} (key : A -> pyval) (x y : A) : Prop :=
  not_below (key x) (key y).

(** Record [x] does not score below record [y]. *)
Definition scores_not_below : Dict -> Dict -> Prop := key_not_below viral_score_of.

(** The records of [l] whose score ties with that of [z], in their order. *)
Definition tied_with (z : Dict) (l : list Dict) : list Dict :=
  filter (fun x => tied (viral_score_of z) (viral_score_of x)) l.

(** A sort key [sorted] is followed on: a number or text. *)
Definition number_or_text (v : pyval) : bool :=
  match v with
  | VStr _ => true
  | _ => match as_number v with Some _ => true | None => false end
  end.

(** A platform-analysis mapping of three buckets, with two ties. *)
Definition sample_buckets : Buckets :=
  [ ("instagram", [ [("url", VStr "i1"); ("viral_score", VFloat (inject_Z 40))];
                    [("url", VStr "i2"); ("viral_score", VFloat (inject_Z 91))] ]);
    ("youtube", [ [("url", VStr "y1"); ("viral_score", VInt 40)] ]);
    ("other", [ [("url", VStr "o1")];
                [("url", VStr "o2"); ("viral_score", VFloat (inject_Z 91))] ]) ].

(** A platform-analysis mapping whose mean engagements are no whole
    numbers: 100 / 3 for 'instagram', 7 / 2 for 'youtube'. *)
Definition engaged_buckets : Buckets :=
  [ ("instagram", [ [("viral_score", VFloat (inject_Z 91)); ("likes", VInt 60);
                     ("comments", VInt 30); ("shares", VInt 10)];
                    [("viral_score", VFloat (inject_Z 40))];
                    [("viral_score", VInt 0)] ]);
    ("tiktok", []);
    ("youtube", [ [("viral_score", VFloat (inject_Z 25)); ("likes", VInt 7)];
                  [("viral_score", VFloat (inject_Z 30)); ("views", VInt 1500)] ]) ].

(** ** Candidates and their fallback records *)

(** The names of the buckets the adapter fills. *)
Definition bucket_names : list string := map fst empty_buckets.

(** The bucket a platform tag is routed to by
    [platform_analysis.get(platform, platform_analysis['other'])]: its own
    when the mapping has one, ['other'] when it has none. *)
Definition bucket_of (platform : string) : string :=
  if dict.has empty_buckets platform then platform else "other".

(** What the loops of the adapter read of a candidate: a URL, a platform
    tag that is text, and an initial score. *)
Definition candidate_shape (c : Dict) : Prop :=
  exists url platform score,
    dict.get c "url" = Some url
    /\ dict.get c "platform" = Some (VStr platform)
    /\ dict.get c "initial_score" = Some score.

(** The platform tag of a candidate. *)
Definition platform_of (c : Dict) : string :=
  match dict.get c "platform" with
  | Some (VStr platform) => platform
  | _ => "other"
  end.

(** The candidates of [viral_urls] routed to bucket [name], in order. *)
Definition routed_to (name : string) (viral_urls : list Dict) : list Dict :=
  filter (fun c => String.eqb (bucket_of (platform_of c)) name) viral_urls.

(** [r] is the Basic Fallback record of candidate [c]: it passes the URL,
    platform, title and description through, carries the candidate's
    initial score as its viral score, and is marked ['basic_fallback']. *)
Definition fallback_of (c r : Dict) : Prop :=
  dict.get r "url" = dict.get c "url"
  /\ dict.get r "platform" = dict.get c "platform"
  /\ dict.get r "title" = Some (dict.get_or c "title" (VStr ""))
  /\ dict.get r "description" = Some (dict.get_or c "description" (VStr ""))
  /\ dict.get r "viral_score" = dict.get c "initial_score"
  /\ dict.get r "analysis_method" = Some (VStr "basic_fallback").

(** Three candidates as the filter builds them: LinkedIn, TikTok and
    Instagram. *)
Definition linkedin_candidate : Dict :=
  [ ("url", VStr "https://www.linkedin.com/posts/some-post");
    ("platform", VStr "linkedin");
    ("source", VStr "google");
    ("title", VStr "trending post");
    ("description", VStr "");
    ("initial_score", VFloat (inject_Z 8)) ].

Definition tiktok_candidate : Dict :=
  [ ("url", VStr "https://www.tiktok.com/@someone/video/1");
    ("platform", VStr "tiktok");
    ("source", VStr "google");
    ("title", VStr "viral dance");
    ("description", VStr "");
    ("initial_score", VFloat (inject_Z 10)) ].

Definition instagram_candidate : Dict :=
  [ ("url", VStr "https://instagram.com/p/abc");
    ("platform", VStr "instagram");
    ("source", VStr "google");
    ("title", VStr "popular reel");
    ("description", VStr "");
    ("initial_score", VFloat (inject_Z 6)) ].

(** The runtime of the examples without [instascrape]. *)
Definition bare_runtime : Runtime :=
  example_runtime false (Raise (Exn "NameError" "name 'Post' is not defined")).

(** ** Predicates of the further properties *)

(** The six platform tags the classifier returns. *)
Definition platform_tags : list string :=
  [ "instagram"; "youtube"; "facebook"; "twitter"; "tiktok"; "linkedin" ].

(** A block over the local [score] adds at most [n] to it, whether it ends
    normally or raises. *)
Definition adds_at_most {A : Type} (n : Z) (m : Try Z A) : Prop :=
  forall score, snd (m score) <= score + n.

(** A search result with nothing the filter reacts to. *)
Definition plain_result : Dict :=
  [ ("url", VStr "https://www.youtube.com/watch?v=1");
    ("title", VStr "Receita de bolo em 45 minutos");
    ("description", VStr "passo a passo") ].

(** The field [field] of the record, 0 when it is missing, is a number
    that is at least [n]. *)
Definition at_least (analysis : Dict) (field : string) (n : Q) : Prop :=
  exists x, as_number (dict.get_or analysis field (VInt 0)) = Some x /\ (n <= x)%Q.

(** The field [field] of the record is a sequence of at least [n]
    entries. *)
Definition lists_at_least (analysis : Dict) (field : string) (n : Z) : Prop :=
  exists k, py_len (dict.get_or analysis field (VList [])) = Ok k /\ n <= k.

(** Records that reach every tier of their formula. *)
Definition top_instagram_record : Dict :=
  [ ("likes", VInt 1000); ("comments", VInt 50); ("engagement_rate", VInt 3);
    ("hashtags", VList [VStr "a"; VStr "b"; VStr "c"; VStr "d"; VStr "e"]);
    ("mentions", VList [VStr "a"; VStr "b"; VStr "c"; VStr "d"; VStr "e"]) ].

Definition top_youtube_record : Dict :=
  [ ("views", VInt 10000); ("likes", VInt 500); ("comments", VInt 50) ].

(** ** The candidate filter without its loops *)

Section FilterByResult.

Context {rt : Runtime}.

(** What the filter makes of one entry of a result list: the candidate of
    a dictionary with a text URL of a known platform that passes the viral
    test, nothing of anything else. *)
Definition promote (source : string) (result : pyval) : list Dict :=
  match result with
  | VDict r =>
      match dict.get r "url" with
      | Some (VStr u) =>
          match _identify_platform u with
          | Some platform =>
              if _is_potentially_viral r platform
              then [candidate source (VStr u) r platform]
              else []
          | None => []
          end
      | _ => []
      end
  | _ => []
  end.

(** What the filter makes of one source: the candidates of its results
    when they come as a list, nothing otherwise. *)
Definition promote_source (entry : string * pyval) : list Dict :=
  match snd entry with
  | VList results => flat_map (promote (fst entry)) results
  | _ => []
  end.

End FilterByResult.

(** A result the scan gets past: anything but a dictionary whose [url] is
    there and is not text. *)
Definition url_is_text_or_absent (result : pyval) : Prop :=
  match result with
  | VDict r =>
      match dict.get r "url" with
      | Some (VStr _) | None => True
      | Some _ => False
      end
  | _ => True
  end.

Definition source_scans_cleanly (entry : string * pyval) : Prop :=
  match snd entry with
  | VList results => Forall url_is_text_or_absent results
  | _ => True
  end.

(** Search results of two sources; the second result of the first source
    carries a number where its URL should be. *)
Definition results_with_bad_url : pyval :=
  VDict [ ("google",
           VList [ VDict [ ("url", VStr "https://www.tiktok.com/@a/video/1");
                           ("title", VStr "trending now") ];
                   VDict [ ("url", VInt 404); ("title", VStr "viral") ];
                   VDict [ ("url", VStr "https://twitter.com/a/status/2");
                           ("title", VStr "viral thread") ] ]);
          ("bing",
           VList [ VDict [ ("url", VStr "https://fb.com/a/posts/3");
                           ("title", VStr "2000 likes") ] ]) ].

(** ** Predicates on the adapter *)

(** A computation that neither sleeps nor writes, however it ends. *)
Definition quiet {A : Type} (m : IO A) : Prop :=
  forall w, slept (snd (m w)) = slept w /\ written (snd (m w)) = written w.

(** The viral score of a record is a number of whole points within
    [0, 100]. *)
Definition score_in_range (r : Dict) : Prop :=
  exists s, dict.get r "viral_score" = Some (VFloat (inject_Z s)) /\ 0 <= s <= 100.

(** The initial score of a candidate is a number of whole points within
    [0, 100]. *)
Definition initial_score_in_range (c : Dict) : Prop :=
  exists s, dict.get c "initial_score" = Some (VFloat (inject_Z s)) /\ 0 <= s <= 100.

(** What one turn of an adapter loop does to the buckets when it does not
    raise: nothing, or one record appended that stands in relation [P] to
    the candidate of the turn. *)
Definition appends_at_most_one (P : Dict -> Dict -> Prop)
           (item : Dict -> Buckets -> IO Buckets) : Prop :=
  forall c platform_analysis w,
    match fst (item c platform_analysis w) with
    | Ok pa1 =>
        pa1 = platform_analysis
        \/ exists name a, pa1 = bucket_append platform_analysis name a /\ P c a
    | Raise _ => True
    end.

(** What the adapter makes of a candidate whose initial score is in range:
    a record whose viral score is. *)
Definition keeps_score_in_range (c a : Dict) : Prop :=
  initial_score_in_range c -> score_in_range a.

(** A scraped post with 2000 likes, 100 comments and an owner followed by
    10000 accounts. *)
Definition sample_post : Dict :=
  [ ("caption", VStr "new drop");
    ("likes", VInt 2000);
    ("comments", VInt 100);
    ("hashtags", VList [VStr "a"; VStr "b"; VStr "a"]);
    ("owner", VObj [("followers", VInt 10000)]) ].

(** The runtime of the examples with [instascrape] installed and every
    scrape returning [sample_post]. *)
Definition scraping_runtime : Runtime := example_runtime true (Ok sample_post).

(** A computation that writes no file, however it ends. *)
Definition writes_nothing {A : Type} (m : IO A) : Prop :=
  forall w, written (snd (m w)) = written w.

(** ** Predicates on the aggregator *)

(** The field [k] of a record, 0 when it is missing, is a number. *)
Definition numeric_field (k : string) (r : Dict) : Prop :=
  exists q, as_number (dict.get_or r k (VInt 0)) = Some q.

(** The viral score of a record, 0 when it is missing, is a number. *)
Definition numeric_score (r : Dict) : Prop := numeric_field "viral_score" r.

(** A record the aggregator can add up: its viral score and its likes,
    comments, shares and views, where it has them, are numbers. *)
Definition summable (r : Dict) : Prop :=
  numeric_score r
  /\ numeric_field "likes" r /\ numeric_field "comments" r
  /\ numeric_field "shares" r /\ numeric_field "views" r.

(** [viral_score >= 50] on a record whose score is a number. *)
Definition counts_as_viral (r : Dict) : bool :=
  match py_ge (dict.get_or r "viral_score" (VInt 0)) 50 with
  | Ok true => true
  | _ => false
  end.

(** The number a value denotes, 0 for a value that is no number. *)
Definition number_of (v : pyval) : Q :=
  match as_number v with
  | Some q => q
  | None => 0%Q
  end.

Definition Qsum (l : list Q) : Q := fold_right Qplus 0%Q l.

(** The number in field [k] of a record, 0 when the field is missing. *)
Definition field_number (k : string) (r : Dict) : Q :=
  number_of (dict.get_or r k (VInt 0)).

(** The engagement totals and the record field each one adds up. *)
Definition totals_fields : list (string * string) :=
  [ ("total_likes", "likes"); ("total_comments", "comments");
    ("total_shares", "shares"); ("total_views", "views") ].

(** [metrics['engagement_totals'][k]] in a state of the metrics loop. *)
Definition total_of (st : MetricsState) (k : string) : pyval :=
  dict.get_or (subdict (metrics st) "engagement_totals") k VNone.

(** A value that is a number. *)
Definition numeric (v : pyval) : Prop := exists q, as_number v = Some q.

(** [a + v], and [a] where the sum is not defined. *)
Definition plus (a v : pyval) : pyval :=
  match py_add a v with
  | Ok r => r
  | Raise _ => a
  end.

(** The values added to [start] one after the other, from the left. *)
Definition added_up (start : pyval) (values : list pyval) : pyval :=
  fold_left plus values start.

(** [a / b], and [None] where the quotient is not defined. *)
Definition quotient (a b : pyval) : pyval :=
  match py_truediv a b with
  | Ok r => r
  | Raise _ => VNone
  end.

(** The value of field [k] of a record, the integer 0 when it is
    missing. *)
Definition field_value (k : string) (r : Dict) : pyval := dict.get_or r k (VInt 0).

(** The metrics account for the records [seen]: the viral count is the
    number of them that score 50 or more, and each engagement total is a
    number, its field added up over them. *)
Definition accounts_for (st : MetricsState) (seen : list Dict) : Prop :=
  dict.get (metrics st) "viral_content_count"
  = Some (VInt (Z.of_nat (List.length (filter counts_as_viral seen))))
  /\ forall tk fk, In (tk, fk) totals_fields ->
       total_of st tk = added_up (VInt 0) (map (field_value fk) seen)
       /\ numeric (total_of st tk).

(** The record field an engagement total adds up. *)
Definition field_of (tk : string) : string := dict.get_or totals_fields tk "none".

(** Each engagement total of the state is the number [f] gives. *)
Definition totals_are (st : MetricsState) (f : string -> pyval) : Prop :=
  forall tk, In tk (map fst totals_fields) ->
    total_of st tk = f tk /\ numeric (f tk).

(** The integer a value is: an [int], or a [bool], which counts as 1 or
    0. *)
Definition integer_value (v : pyval) : option Z :=
  match v with
  | VInt z => Some z
  | VBool b => Some (if b then 1 else 0)
  | _ => None
  end.

Definition integer_of (v : pyval) : Z :=
  match integer_value v with
  | Some z => z
  | None => 0
  end.

(** The integer in field [k] of a record, 0 when the field is missing. *)
Definition field_integer (k : string) (r : Dict) : Z := integer_of (field_value k r).

(** The field [k] of a record, 0 when it is missing, is an integer of
    less than 2^64 in absolute value. *)
Definition integer_field (k : string) (r : Dict) : Prop :=
  exists z, integer_value (field_value k r) = Some z /\ Z.abs z < 2 ^ 64.

(** The value [v] is the whole number [z], as an [int], a [bool] or a
    [float]. *)
Definition whole (v : pyval) (z : Z) : Prop :=
  exists q, as_number v = Some q /\ (q == inject_Z z)%Q.

(** The viral score of a record, 0 when it is missing, is a whole number
    from 0 to 100, as the two score calculators give it. *)
Definition whole_score (r : Dict) : Prop :=
  exists z, whole (field_value "viral_score" r) z /\ 0 <= z <= 100.

(** A record as the adapter files it: a whole score from 0 to 100, and
    integers as likes, comments, shares and views where it has them. *)
Definition tallied (r : Dict) : Prop :=
  whole_score r
  /\ integer_field "likes" r /\ integer_field "comments" r
  /\ integer_field "shares" r /\ integer_field "views" r.



Definition is_nonempty {A : Type} (l : list A) : bool :=
  match l with
  | [] => false
  | _ :: _ => true
  end.



(** ** Predicates on the insights *)

(** A block that leaves what [view] shows of the state as it is, however
    it ends. *)
Definition preserves {S A V : Type} (view : S -> V) (m : Try S A) : Prop :=
  forall s, view (snd (m s)) = view s.

(** The buckets that hold a record. *)
Definition nonempty_buckets (platform_analysis : Buckets) : Buckets :=
  filter (fun bucket => is_nonempty (snd bucket)) platform_analysis.

(** The mean viral score of a list of records. *)
Definition mean_score (content_list : list Dict) : Q :=
  Qsum (map (field_number "viral_score") content_list)
  / inject_Z (Z.of_nat (List.length content_list)).

(** [likes + comments + shares] of a record. *)
Definition engagement_of (r : Dict) : Q :=
  field_number "likes" r + field_number "comments" r + field_number "shares" r.

(** [likes + comments + shares] of a record whose fields are integers. *)
Definition engagement_integer (r : Dict) : Z :=
  field_integer "likes" r + field_integer "comments" r + field_integer "shares" r.

(** The mean engagement of a list of records. *)
Definition mean_engagement (content_list : list Dict) : Q :=
  Qsum (map engagement_of content_list)
  / inject_Z (Z.of_nat (List.length content_list)).

(** What [sum(scores) / len(scores)] makes of the viral scores of a
    list of records. *)
Definition score_quotient (content_list : list Dict) : pyval :=
  quotient (added_up (VInt 0) (map (field_value "viral_score") content_list))
           (VInt (Z.of_nat (List.length content_list))).

(** [likes + comments + shares] of a record, as the code adds them. *)
Definition engagement_value (r : Dict) : pyval :=
  plus (plus (field_value "likes" r) (field_value "comments" r)) (field_value "shares" r).

(** What [total_engagement / len(content_list)] makes of a list of
    records. *)
Definition engagement_quotient (content_list : list Dict) : pyval :=
  quotient (added_up (VInt 0) (map engagement_value content_list))
           (VInt (Z.of_nat (List.length content_list))).

(** A dictionary entry holds, under the name of a bucket, the float
    [value] gives for the bucket's records. *)
Definition holds_value (value : list Dict -> pyval) (entry : string * pyval)
           (bucket : string * list Dict) : Prop :=
  fst entry = fst bucket
  /\ exists q, snd entry = VFloat q /\ VFloat q = value (snd bucket).

(** A dictionary entry holds, under the name of a bucket, the double
    nearest to the [mean] of the bucket's records. *)
Definition holds_mean (mean : list Dict -> Q) (entry : string * pyval)
           (bucket : string * list Dict) : Prop :=
  fst entry = fst bucket
  /\ snd entry = VFloat (round_double (mean (snd bucket))).

(** [insights['average_engagement_by_platform']] in a state of the
    insights loop. *)
Definition engagement_by_platform (st : InsightsState) : Dict :=
  subdict (insights st) "average_engagement_by_platform".

(** ** The report of a run *)

(** The world after one reading of the clock. *)
Definition tick (w : World) : World :=
  {| clock := S (clock w); slept := slept w; written := written w |}.

(** The dictionary a completed run returns, key by key in its order. *)
Definition report (session_id : string) (started : pyval) (viral_urls : list Dict)
           (detailed_analysis : Buckets) (completed : pyval) : Dict :=
  [ ("session_id", VStr session_id);
    ("analysis_started", started);
    ("viral_content_identified", VList (map VDict viral_urls));
    ("screenshots_captured", VList []);
    ("viral_metrics", VDict (_calculate_viral_metrics detailed_analysis));
    ("platform_analysis", buckets_value detailed_analysis);
    ("top_performers", VList (map VDict (_get_top_performers detailed_analysis 10)));
    ("engagement_insights", VDict (_generate_engagement_insights detailed_analysis));
    ("analysis_completed", completed);
    ("success", VBool true) ].

(** The file a run saves its report to. *)
Definition report_path (session_id stamp : string) : string :=
  ("viral_data/" ++ ("viral_analysis_" ++ session_id ++ "_" ++ stamp ++ ".json"))%string.

(** The values [viral_urls[:max_captures]] accepts as [max_captures]. *)
Definition is_slice_index (v : pyval) : bool :=
  match v with
  | VInt _ | VBool _ | VNone => true
  | _ => false
  end.

(** ** Comparing two runs of a scoring block *)

(** From a score that is not lower, the block [m'] ends the way [m] does
    (with the same value or the same exception) and with a score that is
    not lower. *)
Definition no_lower {A : Type} (m m' : Try Z A) : Prop :=
  forall score score',
    score <= score' ->
    fst (m score) = fst (m' score') /\ snd (m score) <= snd (m' score').

(** ** Predicates on the hashtag insights *)








(** ** Well-formed characters *)

(** One step of [utf8_chars], read from the right: a continuation byte
    joins the character being read, any other byte completes it. *)
Definition utf8_step (c : ascii) (acc : string * list string) : string * list string :=
  let (pending, done) := acc in
  if is_continuation_byte c then (String c pending, done)
  else (EmptyString, String c pending :: done).

Definition utf8_scan (bytes : list ascii) : string * list string :=
  fold_right utf8_step (EmptyString, []) bytes.

Definition utf8_finish (acc : string * list string) : list string :=
  let (pending, done) := acc in
  match pending with
  | EmptyString => done
  | _ => pending :: done
  end.

Definition continuation_only (s : string) : bool :=
  forallb is_continuation_byte (list_ascii_of_string s).

(** A character as UTF-8 writes it: a byte that is no continuation byte,
    followed by continuation bytes. *)
Definition well_formed_char (c : string) : bool :=
  match c with
  | String b rest => negb (is_continuation_byte b) && continuation_only rest
  | EmptyString => false
  end.

(** Characters as [utf8_chars] cuts them: well formed, except that the
    first may be the continuation bytes a text starts with. *)
Definition chars_cut (l : list string) : bool :=
  match l with
  | [] => true
  | c :: l' =>
      (well_formed_char c || (negb (String.eqb c "") && continuation_only c))
      && forallb well_formed_char l'
  end.

(** * Properties *)

(** ** Substring search *)

Lemma prefix_occurs (sub s : string) :
  String.prefix sub s = true <-> exists b, s = (sub ++ b)%string.
Proof.
  revert s; induction sub as [|c sub IH]; intros s; simpl.
  - split; [intros _; now exists s | intros _; now destruct s].
  - destruct s as [|c' s]; [split; [discriminate | intros [b Hb]; discriminate]|].
    simpl. destruct (Ascii.ascii_dec c c') as [->|Hne].
    + rewrite IH. split; intros [b Hb]; exists b; congruence.
    + split; [discriminate | intros [b Hb]; congruence].
Qed.

Lemma str_in_occurs (sub s : string) :
  str_in sub s = true <-> occurs_in sub s.
Proof.
  unfold occurs_in. induction s as [|c s IH].
  - cbn [str_in]. rewrite orb_false_r, prefix_occurs. split.
    + intros [b Hb]. now exists EmptyString, b.
    + intros [a [b Hb]]. destruct a; [now exists b | discriminate].
  - cbn [str_in]. rewrite orb_true_iff, prefix_occurs, IH. split.
    + intros [[b Hb]|[a [b Hb]]].
      * now exists EmptyString, b.
      * exists (String c a), b. simpl. now rewrite Hb.
    + intros [a [b Hb]]. destruct a as [|c' a].
      * left. now exists b.
      * right. exists a, b. simpl in Hb. congruence.
Qed.

Lemma str_in_not_occurs (sub s : string) :
  str_in sub s = false <-> ~ occurs_in sub s.
Proof.
  rewrite <- str_in_occurs. destruct (str_in sub s); split; congruence.
Qed.

(** ** The platform classifier *)

Section ClassifierProperties.

Context {rt : Runtime}.

Lemma _identify_platform_first_match (url : string) :
  _identify_platform url = classify_first_match url.
Proof.
  unfold _identify_platform, classify_first_match, domain_fragments.
  cbn [find fst snd option_map].
  repeat match goal with
         | |- context [str_in ?f ?s] => destruct (str_in f s); cbn [orb option_map snd]; try reflexivity
         end.
Qed.

Lemma find_some_split {A : Type} (p : A -> bool) (l : list A) (x : A) :
  find p l = Some x <->
  exists before after,
    l = before ++ x :: after /\ p x = true /\ forall y, In y before -> p y = false.
Proof.
  induction l as [|a l IH]; simpl.
  - split; [discriminate | intros (b & a & H & _); destruct b; discriminate].
  - destruct (p a) eqn:Hp.
    + split.
      * intros [= ->]. exists [], l. repeat split; [assumption | intros y []].
      * intros (b & af & H & Hx & Hb). destruct b as [|b0 b].
        -- simpl in H. congruence.
        -- simpl in H. injection H as -> ->.
           rewrite (Hb b0 (or_introl eq_refl)) in Hp. discriminate.
    + rewrite IH. split.
      * intros (b & af & -> & Hx & Hb). exists (a :: b), af.
        repeat split; [assumption | intros y [<-|Hy]; auto].
      * intros (b & af & H & Hx & Hb). destruct b as [|b0 b].
        -- simpl in H. injection H as -> ->. congruence.
        -- simpl in H. injection H as -> ->. exists b, af.
           repeat split; [assumption | intros y Hy; apply Hb; now right].
Qed.

(** C4.  The classifier returns the platform of the first fragment, in the
    fixed order of [domain_fragments], that occurs in the lower-cased URL:
    it agrees with the first-match search of the specification; it returns
    a platform exactly when that platform's fragment occurs and no
    fragment earlier in the list does; it returns [None] (unrecognized)
    exactly when no fragment occurs; and when every fragment that occurs
    belongs to one platform, it returns exactly that platform. *)
Theorem identify_platform_first_fragment_wins :
  (forall url, _identify_platform url = classify_first_match url)
  /\ (forall url p,
        _identify_platform url = Some p <->
        exists before f after,
          domain_fragments = before ++ (f, p) :: after
          /\ occurs_in f (lower url)
          /\ forall g q, In (g, q) before -> ~ occurs_in g (lower url))
  /\ (forall url,
        _identify_platform url = None <->
        forall f p, In (f, p) domain_fragments -> ~ occurs_in f (lower url))
  /\ (forall url f p,
        In (f, p) domain_fragments ->
        occurs_in f (lower url) ->
        (forall g q, In (g, q) domain_fragments -> occurs_in g (lower url) -> q = p) ->
        _identify_platform url = Some p).
Proof.
  assert (Hsome : forall url p,
    _identify_platform url = Some p <->
    exists before f after,
      domain_fragments = before ++ (f, p) :: after
      /\ occurs_in f (lower url)
      /\ forall g q, In (g, q) before -> ~ occurs_in g (lower url)).
  { intros url p. rewrite _identify_platform_first_match. unfold classify_first_match.
    split.
    - destruct (find _ domain_fragments) as [[f p']|] eqn:Hf; [|discriminate].
      intros [= <-]. apply find_some_split in Hf.
      destruct Hf as (b & a & Hl & Hx & Hb). exists b, f, a.
      repeat split; [assumption | now apply str_in_occurs |].
      intros g q Hg. apply str_in_not_occurs. exact (Hb (g, q) Hg).
    - intros (b & f & a & Hl & Hx & Hb).
      assert (Hf : find (fun fp => str_in (fst fp) (lower url)) domain_fragments
                   = Some (f, p)).
      { apply find_some_split. exists b, a. repeat split; [assumption | now apply str_in_occurs |].
        intros [g q] Hg. apply str_in_not_occurs. exact (Hb g q Hg). }
      now rewrite Hf. }
  assert (Hnone : forall url,
    _identify_platform url = None <->
    forall f p, In (f, p) domain_fragments -> ~ occurs_in f (lower url)).
  { intros url. rewrite _identify_platform_first_match. unfold classify_first_match.
    split.
    - destruct (find _ domain_fragments) as [fp|] eqn:Hf; [discriminate|].
      intros _ f p Hin. apply str_in_not_occurs.
      exact (find_none _ _ Hf (f, p) Hin).
    - intros Hall.
      destruct (find _ domain_fragments) as [[f p]|] eqn:Hf; [|reflexivity].
      apply find_some in Hf. destruct Hf as [Hin Hm].
      exfalso. apply (Hall f p Hin). now apply str_in_occurs. }
  split; [exact _identify_platform_first_match|].
  split; [exact Hsome|]. split; [exact Hnone|].
  intros url f p Hin Hocc Hsame.
  destruct (_identify_platform url) as [p'|] eqn:Hr.
  - apply Hsome in Hr. destruct Hr as (b & g & a & Hl & Hg & _).
    f_equal. apply (Hsame g p'); [|assumption].
    rewrite Hl. apply in_or_app. right. now left.
  - exfalso. exact (proj1 (Hnone url) Hr f p Hin Hocc).
Qed.

End ClassifierProperties.

(** ** Stepping through a block *)

Lemma bind_ok {S A B : Type} (m : Try S A) (k : A -> Try S B) (s s' : S) (a : A) :
  m s = (Ok a, s') -> bind m k s = k a s'.
Proof. intros H. unfold bind. now rewrite H. Qed.

Lemma bind_raise {S A B : Type} (m : Try S A) (k : A -> Try S B) (s s' : S) (e : exn) :
  m s = (Raise e, s') -> bind m k s = (Raise e, s').
Proof. intros H. unfold bind. now rewrite H. Qed.

(** ** Blocks of statements that only add to the score *)

Lemma grows_ret {A : Type} (a : A) : grows (ret a).
Proof. intros s. simpl. lia. Qed.

Lemma grows_add_score (n : Z) : 0 <= n -> grows (add_score n).
Proof. intros Hn s. simpl. lia. Qed.

Lemma grows_bind {A B : Type} (m : Try Z A) (k : A -> Try Z B) :
  grows m -> (forall a, grows (k a)) -> grows (bind m k).
Proof.
  intros Hm Hk s. unfold bind. specialize (Hm s).
  destruct (m s) as [[a|e] s']; simpl in *.
  - specialize (Hk a s'). lia.
  - exact Hm.
Qed.

Lemma grows_bind_lift {A B : Type} (r : result A) (k : A -> Try Z B) :
  (forall a, r = Ok a -> grows (k a)) -> grows (bind (lift r) k).
Proof.
  intros Hk s. unfold bind, lift. destruct r as [a|e]; simpl.
  - exact (Hk a eq_refl s).
  - lia.
Qed.

Lemma grows_for_each {A : Type} (l : list A) (body : A -> Try Z unit) :
  (forall x, In x l -> grows (body x)) -> grows (for_each l body).
Proof.
  induction l as [|x l IH]; intros Hbody; cbn [for_each].
  - apply grows_ret.
  - apply grows_bind; [apply Hbody; now left | intros _].
    apply IH. intros y Hy. apply Hbody. now right.
Qed.

Lemma grows_score_tier (v : pyval) (full half : Q) (hi lo : Z) :
  0 <= hi -> 0 <= lo -> grows (score_tier v full half hi lo).
Proof.
  intros Hhi Hlo. unfold score_tier.
  apply grows_bind_lift. intros [|] _.
  - now apply grows_add_score.
  - apply grows_bind_lift. intros [|] _.
    + now apply grows_add_score.
    + apply grows_ret.
Qed.

Lemma py_len_nonneg (v : pyval) (n : Z) : py_len v = Ok n -> 0 <= n.
Proof. destruct v; simpl; intros [= <-] || discriminate; lia. Qed.

Lemma fold_left_grows {A : Type} (f : Z -> A -> Z) (l : list A) (acc : Z) :
  (forall a x, In x l -> a <= f a x) -> acc <= fold_left f l acc.
Proof.
  revert acc. induction l as [|x l IH]; intros acc Hf; simpl.
  - lia.
  - specialize (IH (f acc x) (fun a y Hy => Hf a y (or_intror Hy))).
    specialize (Hf acc x (or_introl eq_refl)). lia.
Qed.

Lemma number_points_nonneg (value : Z) : 0 <= number_points value.
Proof.
  unfold number_points.
  repeat match goal with |- context [?a >? ?b] => destruct (a >? b) end; lia.
Qed.

Section ScoreBounds.

Context {rt : Runtime}.

Lemma _calculate_initial_score_bounds (result : Dict) (platform : string) :
  0 <= _calculate_initial_score result platform <= 100.
Proof.
  unfold _calculate_initial_score. split; [|apply Z.le_min_r].
  apply Z.min_glb; [|lia].
  match goal with |- 0 <= snd (?body 0) => assert (Hg : grows body) end.
  { apply grows_bind.
    - apply grows_for_each. intros [k p] Hin.
      assert (0 <= p).
      { unfold viral_keyword_points in Hin. simpl in Hin.
        repeat (destruct Hin as [[= <- <-]|Hin]; [lia|]). destruct Hin. }
      destruct (str_in k _); [now apply grows_add_score | apply grows_ret].
    - intros _. apply grows_for_each. intros num _.
      destruct (isdigit num); [|apply grows_ret].
      apply grows_bind_lift. intros value _.
      apply grows_add_score, number_points_nonneg. }
  exact (Hg 0).
Qed.

Lemma _calculate_viral_score_bounds (analysis : Dict) (platform : string) :
  0 <= _calculate_viral_score analysis platform <= 100.
Proof.
  unfold _calculate_viral_score. split; [|apply Z.le_min_r].
  apply Z.min_glb; [|lia].
  match goal with |- 0 <= snd (?body 0) => assert (Hg : grows body) end.
  { destruct (platform =? "instagram")%string;
      [|destruct (platform =? "youtube")%string].
    - repeat (apply grows_bind; [apply grows_score_tier; lia | intros _]).
      apply grows_bind_lift. intros hashtags Hh.
      apply grows_bind_lift. intros mentions Hm.
      apply py_len_nonneg in Hh, Hm.
      apply grows_bind; [apply grows_add_score; lia | intros _].
      apply grows_add_score; lia.
    - repeat (apply grows_bind; [apply grows_score_tier; lia | intros _]).
      apply grows_score_tier; lia.
    - apply grows_ret. }
  exact (Hg 0).
Qed.

(** C1.  For every input record and every analysis record, whatever
    fields they hold or lack and whatever values those fields carry,
    [_calculate_initial_score] and [_calculate_viral_score] return a value
    within [0, 100]. *)
Theorem scores_within_0_100 :
  (forall (result : Dict) (platform : string),
      0 <= _calculate_initial_score result platform <= 100)
  /\ (forall (analysis : Dict) (platform : string),
      0 <= _calculate_viral_score analysis platform <= 100).
Proof.
  split.
  - exact _calculate_initial_score_bounds.
  - exact _calculate_viral_score_bounds.
Qed.

End ScoreBounds.

(** ** The Instagram formula on the scenario of the specification *)

(** C7.  An Instagram analysis record with likes = 2000, comments = 100,
    engagement_rate = 5, five hashtags and two mentions scores
    30 + 20 + 25 + 10 + 6 = 91, and no Instagram record scores above 100. *)
Theorem instagram_scenario_scores_91 :
  forall (analysis : Dict) (hashtags mentions : list pyval),
    dict.get analysis "likes" = Some (VInt 2000) ->
    dict.get analysis "comments" = Some (VInt 100) ->
    dict.get analysis "engagement_rate" = Some (VInt 5) ->
    dict.get analysis "hashtags" = Some (VList hashtags) ->
    dict.get analysis "mentions" = Some (VList mentions) ->
    List.length hashtags = 5%nat ->
    List.length mentions = 2%nat ->
    _calculate_viral_score analysis "instagram" = 91
    /\ forall other : Dict, _calculate_viral_score other "instagram" <= 100.
Proof.
  intros analysis hashtags mentions Hl Hc He Hh Hm Hnh Hnm.
  assert (H91 : _calculate_viral_score analysis "instagram" = 91).
  { unfold _calculate_viral_score, dict.get_or.
    rewrite Hl, Hc, He, Hh, Hm. cbn [String.eqb Ascii.eqb Bool.eqb].
    unfold py_len. rewrite Hnh, Hnm. reflexivity. }
  split; [exact H91|].
  intros other. apply _calculate_viral_score_bounds.
Qed.

Lemma instagram_scenario_scores_91_witness :
  let analysis : Dict :=
    [ ("url", VStr "https://instagram.com/p/abc");
      ("likes", VInt 2000); ("comments", VInt 100); ("engagement_rate", VInt 5);
      ("hashtags", VList [VStr "a"; VStr "b"; VStr "c"; VStr "d"; VStr "e"]);
      ("mentions", VList [VStr "x"; VStr "y"]) ] in
  _calculate_viral_score analysis "instagram" = 91.
Proof.
  intros analysis.
  exact (proj1 (instagram_scenario_scores_91 analysis
           [VStr "a"; VStr "b"; VStr "c"; VStr "d"; VStr "e"] [VStr "x"; VStr "y"]
           eq_refl eq_refl eq_refl eq_refl eq_refl eq_refl eq_refl)).
Defined.

(** ** The candidate filter *)

Lemma Zsum_nonneg (l : list Z) : Forall (fun x => 0 <= x) l -> 0 <= Zsum l.
Proof. induction 1; simpl; lia. Qed.

(** ** Text cut into characters *)

Lemma string_append_nil_r (s : string) : (s ++ "")%string = s.
Proof. induction s as [|c s IH]; simpl; [reflexivity | now rewrite IH]. Qed.

Lemma list_ascii_of_string_app (a b : string) :
  list_ascii_of_string (a ++ b) = list_ascii_of_string a ++ list_ascii_of_string b.
Proof. induction a as [|c a IH]; simpl; [reflexivity | now rewrite IH]. Qed.

Lemma utf8_chars_scan (s : string) :
  utf8_chars s = utf8_finish (utf8_scan (list_ascii_of_string s)).
Proof. reflexivity. Qed.

Lemma utf8_scan_continuation (c : string) (bytes : list ascii) :
  continuation_only c = true ->
  fold_right utf8_step (utf8_scan bytes) (list_ascii_of_string c)
  = ((c ++ fst (utf8_scan bytes))%string, snd (utf8_scan bytes)).
Proof.
  unfold continuation_only.
  induction c as [|b c IH]; cbn [list_ascii_of_string forallb fold_right append].
  - intros _. now destruct (utf8_scan bytes).
  - intros H. apply andb_true_iff in H. destruct H as [Hb Hc].
    rewrite (IH Hc). unfold utf8_step at 1. now rewrite Hb.
Qed.

Lemma utf8_scan_char (c : string) (bytes : list ascii) :
  well_formed_char c = true ->
  fst (utf8_scan bytes) = EmptyString ->
  fold_right utf8_step (utf8_scan bytes) (list_ascii_of_string c)
  = (EmptyString, c :: snd (utf8_scan bytes)).
Proof.
  destruct c as [|b c]; [discriminate|].
  cbn [well_formed_char list_ascii_of_string fold_right].
  intros H Hp. apply andb_true_iff in H. destruct H as [Hb Hc].
  apply negb_true_iff in Hb.
  rewrite (utf8_scan_continuation c bytes Hc), Hp, string_append_nil_r.
  unfold utf8_step. now rewrite Hb.
Qed.

Lemma utf8_scan_text_of (l : list string) :
  forallb well_formed_char l = true ->
  utf8_scan (list_ascii_of_string (text_of l)) = (EmptyString, l).
Proof.
  induction l as [|c l IH]; cbn [forallb text_of fold_right]; [reflexivity|].
  intros H. apply andb_true_iff in H. destruct H as [Hc Hl].
  rewrite list_ascii_of_string_app. unfold utf8_scan at 1. rewrite fold_right_app.
  fold (utf8_scan (list_ascii_of_string (fold_right append "" l))).
  fold (text_of l).
  rewrite (utf8_scan_char c _ Hc) by now rewrite (IH Hl).
  now rewrite (IH Hl).
Qed.

(** Cutting the text of characters gives the characters back. *)
Lemma utf8_chars_text_of (l : list string) :
  chars_cut l = true -> utf8_chars (text_of l) = l.
Proof.
  destruct l as [|c l]; [reflexivity|].
  cbn [chars_cut]. intros H. apply andb_true_iff in H. destruct H as [Hc Hl].
  rewrite utf8_chars_scan.
  apply orb_true_iff in Hc. destruct Hc as [Hc|Hc].
  - rewrite (utf8_scan_text_of (c :: l)); [reflexivity|].
    cbn [forallb]. now rewrite Hc, Hl.
  - apply andb_true_iff in Hc. destruct Hc as [Hne Hc].
    cbn [text_of fold_right]. rewrite list_ascii_of_string_app.
    unfold utf8_scan at 1. rewrite fold_right_app.
    fold (utf8_scan (list_ascii_of_string (fold_right append "" l))).
    fold (text_of l).
    rewrite (utf8_scan_continuation c _ Hc), (utf8_scan_text_of l Hl).
    cbn [fst snd utf8_finish]. rewrite string_append_nil_r.
    destruct c; [discriminate | reflexivity].
Qed.

Lemma utf8_scan_cut (bytes : list ascii) :
  continuation_only (fst (utf8_scan bytes)) = true
  /\ forallb well_formed_char (snd (utf8_scan bytes)) = true.
Proof.
  unfold utf8_scan.
  induction bytes as [|b bytes [Hp Hd]]; cbn [fold_right]; [split; reflexivity|].
  destruct (fold_right utf8_step (EmptyString, []) bytes) as [p d].
  cbn [fst snd] in *. unfold utf8_step.
  destruct (is_continuation_byte b) eqn:Hb; cbn [fst snd].
  - split; [|exact Hd]. unfold continuation_only in *.
    cbn [list_ascii_of_string forallb]. now rewrite Hb, Hp.
  - split; [reflexivity|]. cbn [forallb well_formed_char]. now rewrite Hb, Hp, Hd.
Qed.

(** The characters a text is cut into are well formed, the first one
    apart when the text starts inside a character. *)
Lemma utf8_chars_cut (s : string) : chars_cut (utf8_chars s) = true.
Proof.
  rewrite utf8_chars_scan.
  destruct (utf8_scan_cut (list_ascii_of_string s)) as [Hp Hd].
  destruct (utf8_scan (list_ascii_of_string s)) as [p d]. cbn [fst snd] in *.
  destruct p as [|b p]; cbn [utf8_finish].
  - destruct d as [|c d]; [reflexivity|]. cbn [chars_cut forallb] in *.
    apply andb_true_iff in Hd. destruct Hd as [Hc Hd]. now rewrite Hc, Hd.
  - cbn [chars_cut]. rewrite Hd, Hp. cbn. now rewrite orb_true_r.
Qed.

Lemma chars_cut_app_l (a b : list string) : chars_cut (a ++ b) = true -> chars_cut a = true.
Proof.
  destruct a as [|c a]; [reflexivity|]. cbn [app chars_cut].
  rewrite forallb_app. intros H. apply andb_true_iff in H. destruct H as [Hc H].
  apply andb_true_iff in H. destruct H as [Ha _]. now rewrite Hc, Ha.
Qed.

Lemma chars_cut_app_r (a b : list string) : chars_cut (a ++ b) = true -> chars_cut b = true.
Proof.
  destruct a as [|c a]; [trivial|]. cbn [app chars_cut].
  rewrite forallb_app. intros H. apply andb_true_iff in H. destruct H as [_ H].
  apply andb_true_iff in H. destruct H as [_ Hb].
  destruct b as [|d b]; [reflexivity|]. cbn [chars_cut forallb] in *.
  apply andb_true_iff in Hb. destruct Hb as [Hd Hb]. now rewrite Hd, Hb.
Qed.

Section DigitRunProperties.

Context {rt : Runtime}.

Lemma digit_runs_from_cut (chars : list string) :
  forall run : list string,
    chars_cut (rev run ++ chars) = true ->
    forallb is_decimal run = true ->
    Forall (fun r => chars_cut r = true /\ r <> [] /\ forallb is_decimal r = true)
           (digit_runs_from run chars).
Proof.
  assert (Hflush : forall run rest k,
            chars_cut (rev run ++ rest) = true ->
            forallb is_decimal run = true ->
            Forall (fun r => chars_cut r = true /\ r <> [] /\ forallb is_decimal r = true) k ->
            Forall (fun r => chars_cut r = true /\ r <> [] /\ forallb is_decimal r = true)
                   match run with
                   | [] => k
                   | _ => rev run :: k
                   end).
  { intros run rest k Hcut Hrun Hk. destruct run as [|d run]; [exact Hk|].
    constructor; [|exact Hk]. split; [now apply chars_cut_app_l in Hcut|]. split.
    - intros Hnil. apply (f_equal (@List.length string)) in Hnil.
      rewrite length_rev in Hnil. discriminate.
    - rewrite forallb_forall in *. intros x Hx. apply Hrun. now apply in_rev. }
  induction chars as [|c chars IH]; intros run Hcut Hrun; cbn [digit_runs_from].
  - apply (Hflush run []); [exact Hcut | exact Hrun | constructor].
  - destruct (is_decimal c) eqn:Hc.
    + apply IH.
      * cbn [rev]. now rewrite <- app_assoc.
      * cbn [forallb]. now rewrite Hc.
    + apply (Hflush run (c :: chars)); [exact Hcut | exact Hrun |].
      apply IH; [|reflexivity]. cbn [rev app].
      apply chars_cut_app_r in Hcut.
      now apply (chars_cut_app_r [c]) in Hcut.
Qed.

(** Every match of [\d+] is the text of its digits, at least one. *)
Lemma findall_digits_runs (s : string) :
  Forall (fun num => utf8_chars num <> []
                     /\ forallb is_decimal (utf8_chars num) = true)
         (findall_digits s).
Proof.
  unfold findall_digits. apply Forall_map.
  eapply Forall_impl; [|apply (digit_runs_from_cut (utf8_chars s) []);
                        [apply utf8_chars_cut | reflexivity]].
  intros r (Hcut & Hne & Hdec). now rewrite (utf8_chars_text_of r Hcut).
Qed.

(** [num.isdigit()] holds of every match of [\d+]. *)
Lemma findall_digits_isdigit (s : string) :
  Forall (fun num => isdigit num = true) (findall_digits s).
Proof.
  eapply Forall_impl; [|apply findall_digits_runs].
  intros num [Hne Hdec]. unfold isdigit.
  destruct (utf8_chars num) as [|c l] eqn:E; [congruence|].
  rewrite forallb_forall in *. intros x Hx. now rewrite (Hdec x Hx).
Qed.

(** [int] converts a match of [\d+] unless it has more digits than the
    limit. *)
Lemma findall_digits_int (s : string) :
  Forall (fun num =>
            int_of_digits num
            = if over_int_limit (List.length (utf8_chars num))
              then Raise (ValueError "Exceeds the limit for integer string conversion")
              else Ok (digits_value (utf8_chars num)))
         (findall_digits s).
Proof.
  eapply Forall_impl; [|apply findall_digits_runs].
  intros num [Hne Hdec]. unfold int_of_digits.
  destruct (utf8_chars num) as [|c l] eqn:E; [congruence|].
  now rewrite Hdec.
Qed.

End DigitRunProperties.

Lemma number_points_bonus (n : Z) : number_points n = magnitude_bonus n.
Proof.
  unfold number_points, magnitude_bonus, magnitude_tiers. cbn [find fst snd].
  rewrite !Z.gtb_ltb.
  repeat match goal with |- context [?a <? ?b] => destruct (a <? b) end; reflexivity.
Qed.

(** A loop whose body only appends to the list it collects: what the loop
    appends comes from the bodies of its turns, also when a turn raises. *)
Lemma for_each_appends {A C : Type} (P : A -> C -> Prop)
      (body : A -> Try (list C) unit) (l : list A) :
  (forall x acc, In x l ->
     exists added, snd (body x acc) = acc ++ added /\ Forall (P x) added) ->
  forall acc,
    exists added,
      snd (for_each l body acc) = acc ++ added
      /\ Forall (fun c => exists x, In x l /\ P x c) added.
Proof.
  induction l as [|x l IH]; intros Hbody acc; cbn [for_each].
  - exists []. simpl. rewrite app_nil_r. split; constructor.
  - destruct (Hbody x acc (or_introl eq_refl)) as (a1 & H1 & HP1).
    unfold bind. destruct (body x acc) as [[[]|e] acc1] eqn:Hb; simpl in H1; subst acc1.
    + destruct (IH (fun y a Hy => Hbody y a (or_intror Hy)) (acc ++ a1))
        as (a2 & H2 & HP2).
      exists (a1 ++ a2). rewrite H2, app_assoc. split; [reflexivity|].
      apply Forall_app. split.
      * eapply Forall_impl; [|exact HP1]. intros c Hc. exists x. split; [now left | exact Hc].
      * eapply Forall_impl; [|exact HP2]. intros c (y & Hy & Hc). exists y. split; [now right | exact Hc].
    + exists a1. split; [reflexivity|].
      eapply Forall_impl; [|exact HP1]. intros c Hc. exists x. split; [now left | exact Hc].
Qed.

Section CandidateFilterProperties.

Context {rt : Runtime}.

Lemma keyword_loop (text : string) (l : list (string * Z)) (acc : Z) :
  for_each l (fun kp => let '(keyword, points) := kp in
                        if str_in keyword text then add_score points else ret tt) acc
  = (Ok tt, acc + Zsum (map (keyword_weight text) l)).
Proof.
  revert acc. induction l as [|[k w] l IH]; intros acc;
    cbn [for_each map Zsum fold_right].
  - unfold ret. f_equal. lia.
  - unfold bind, keyword_weight at 1. cbn [fst snd].
    destruct (str_in k text); cbn [add_score modify ret]; rewrite IH; f_equal;
      fold (Zsum (map (keyword_weight text) l)); lia.
Qed.

Lemma number_loop (numbers : list string) :
  Forall (fun num => isdigit num = true) numbers ->
  forall acc,
    snd (for_each numbers (fun num =>
           if isdigit num then
             value <- lift (int_of_digits num) ;;
             add_score (number_points value)
           else ret tt) acc)
    = acc + Zsum (map magnitude_bonus (converted_until_failure numbers)).
Proof.
  induction 1 as [|num rest Hnum _ IH]; intros acc;
    cbn [for_each converted_until_failure].
  - cbn. lia.
  - unfold bind at 1. rewrite Hnum. unfold bind at 1, lift.
    destruct (int_of_digits num) as [value|e]; cbn [add_score modify snd map Zsum fold_right].
    + rewrite IH, number_points_bonus.
      fold (Zsum (map magnitude_bonus (converted_until_failure rest))). lia.
    + lia.
Qed.

Lemma _calculate_initial_score_spec (result : Dict) (platform : string) :
  _calculate_initial_score result platform
  = initial_score_converted (text_content_of result).
Proof.
  unfold _calculate_initial_score, initial_score_converted, clamp, converted_numbers.
  set (text := text_content_of result).
  erewrite bind_ok by apply keyword_loop.
  rewrite number_loop by apply findall_digits_isdigit.
  assert (0 <= Zsum (map (keyword_weight text) viral_keyword_points)).
  { apply Zsum_nonneg. unfold viral_keyword_points, keyword_weight. simpl.
    repeat constructor; match goal with |- context [str_in ?k ?t] => destruct (str_in k t) end; lia. }
  assert (0 <= Zsum (map magnitude_bonus (converted_until_failure (findall_digits text)))).
  { apply Zsum_nonneg. rewrite Forall_map. apply Forall_forall.
    intros num _. rewrite <- number_points_bonus. apply number_points_nonneg. }
  lia.
Qed.

Lemma converted_until_failure_all (numbers : list string) :
  Forall (fun num =>
            int_of_digits num
            = if over_int_limit (List.length (utf8_chars num))
              then Raise (ValueError "Exceeds the limit for integer string conversion")
              else Ok (digits_value (utf8_chars num))) numbers ->
  Forall converts numbers ->
  converted_until_failure numbers
  = map (fun num => digits_value (utf8_chars num)) numbers.
Proof.
  induction 1 as [|num rest Hnum _ IH]; intros Hall; [reflexivity|].
  inversion Hall as [|? ? Hc Hrest]; subst. unfold converts in Hc.
  cbn [converted_until_failure map]. rewrite Hnum, Hc. now rewrite IH.
Qed.

Lemma converted_until_failure_cut (before after : list string) (num : string) :
  Forall (fun num =>
            int_of_digits num
            = if over_int_limit (List.length (utf8_chars num))
              then Raise (ValueError "Exceeds the limit for integer string conversion")
              else Ok (digits_value (utf8_chars num))) (before ++ num :: after) ->
  Forall converts before ->
  ~ converts num ->
  converted_until_failure (before ++ num :: after)
  = map (fun num => digits_value (utf8_chars num)) before.
Proof.
  intros Hint Hbefore Hnum. induction Hbefore as [|b before Hb _ IH];
    cbn [app converted_until_failure map] in *;
    inversion Hint as [|? ? Hhead Hrest]; subst; rewrite Hhead.
  - unfold converts in Hnum.
    destruct (over_int_limit (List.length (utf8_chars num))); [reflexivity | congruence].
  - unfold converts in Hb. rewrite Hb. now rewrite (IH Hrest).
Qed.

Lemma scan_result_appends (source : string) (result : pyval) (acc : list Dict) :
  exists added,
    snd (scan_result source result acc) = acc ++ added
    /\ Forall (promoted_from source result) added.
Proof.
  assert (Hsame : exists added : list Dict,
             acc = acc ++ added /\ Forall (promoted_from source result) added).
  { exists []. rewrite app_nil_r. split; constructor. }
  unfold scan_result. destruct result as [| | | | | |r|]; try exact Hsame.
  unfold dict.has, dict.get_or.
  destruct (dict.get r "url") as [url|] eqn:Hurl; [|exact Hsame].
  destruct url as [| | | |u| | |]; try exact Hsame.
  unfold bind, lift.
  destruct (_identify_platform u) as [platform|] eqn:Hp; [|exact Hsame].
  destruct (_is_potentially_viral r platform) eqn:Hv; [|exact Hsame].
  simpl. exists [candidate source (VStr u) r platform]. split; [reflexivity|].
  constructor; [|constructor].
  exists r, u, platform. repeat split; assumption.
Qed.

(** Every candidate of [_identify_viral_content] is the candidate of a
    listed search result that the filter promoted. *)
Lemma _identify_viral_content_promoted (search_results : pyval) (c : Dict) :
  In c (_identify_viral_content search_results) ->
  exists source r u platform,
    listed_in search_results source r
    /\ dict.get r "url" = Some (VStr u)
    /\ _identify_platform u = Some platform
    /\ _is_potentially_viral r platform = true
    /\ c = candidate source (VStr u) r platform.
Proof.
  unfold _identify_viral_content.
  destruct search_results as [| | | | | |items|]; try (simpl; intros []).
  intros Hin.
  set (P := fun (entry : string * pyval) (c : Dict) =>
              exists results result,
                snd entry = VList results /\ In result results
                /\ promoted_from (fst entry) result c).
  set (body := fun entry : string * pyval =>
                 let '(source, results) := entry in
                 match results with
                 | VList results => for_each results (scan_result source)
                 | _ => ret tt
                 end).
  assert (Hbody : forall x acc, In x items ->
            exists added, snd (body x acc) = acc ++ added /\ Forall (P x) added).
  { intros [source results] acc _. unfold body.
    destruct results as [| | | | |results| |];
      try (exists []; simpl; rewrite app_nil_r; split; constructor).
    destruct (for_each_appends (promoted_from source) (scan_result source) results
                (fun x a _ => scan_result_appends source x a) acc) as (added & Hadd & HP).
    exists added. split; [exact Hadd|].
    eapply Forall_impl; [|exact HP]. intros c' (x & Hx & Hc').
    exists results, x. repeat split; assumption. }
  destruct (for_each_appends P body items Hbody []) as (added & Hadd & HP).
  fold body in Hin. rewrite Hadd in Hin. simpl in Hin.
  rewrite Forall_forall in HP. destruct (HP c Hin) as ([source results] & Hentry & Hc).
  destruct Hc as (results' & result & Hres & Hin' & r & u & platform & -> & Hu & Hp & Hv & ->).
  simpl in Hres. subst results.
  exists source, r, u, platform. repeat split; try assumption.
  exists items, results'. repeat split; assumption.
Qed.

(** C3, as the code has it.  [_calculate_initial_score] is the sum of the
    keyword weights of the keywords the text contains (the table lists no
    keyword twice, so each counts at most once) plus, for every number
    embedded in the text that [int] converts before it fails for the first
    time, the bonus of the tier the number falls in (above 1,000,000: 20;
    above 100,000: 15; above 10,000: 10; above 1,000: 5), the bonuses
    adding up, the sum clamped to [0, 100].  [int] fails on a run of more
    digits than the interpreter's limit: the numbers before such a run
    count, the run and the numbers after it do not; when no run is over
    the limit every embedded number counts.  The [initial_score] of every
    record promoted to a candidate is that value for the search result it
    was promoted from. *)
Theorem initial_score_is_clamped_sum :
  (forall (result : Dict) (platform : string),
      _calculate_initial_score result platform
      = clamp 0 100 (Zsum (map (keyword_weight (text_content_of result)) viral_keyword_points)
                     + Zsum (map magnitude_bonus
                                 (converted_numbers (text_content_of result)))))
  /\ (forall text : string,
        Forall converts (findall_digits text) ->
        converted_numbers text = embedded_numbers text)
  /\ (forall (text : string) (before after : list string) (num : string),
        findall_digits text = before ++ num :: after ->
        Forall converts before ->
        ~ converts num ->
        converted_numbers text = map (fun n => digits_value (utf8_chars n)) before)
  /\ NoDup (map fst viral_keyword_points)
  /\ (forall n : Z,
        magnitude_bonus n
        = if 1000000 <? n then 20 else if 100000 <? n then 15
          else if 10000 <? n then 10 else if 1000 <? n then 5 else 0)
  /\ (forall (search_results : pyval) (c : Dict),
        In c (_identify_viral_content search_results) ->
        exists source result,
          listed_in search_results source result
          /\ dict.get c "url" = dict.get result "url"
          /\ dict.get c "initial_score"
             = Some (VFloat (inject_Z (initial_score_converted (text_content_of result))))).
Proof.
  split; [exact _calculate_initial_score_spec|].
  split.
  { intros text Hall. unfold converted_numbers, embedded_numbers.
    apply converted_until_failure_all; [apply findall_digits_int | exact Hall]. }
  split.
  { intros text before after num Hruns Hbefore Hnum. unfold converted_numbers.
    rewrite Hruns. apply converted_until_failure_cut; try assumption.
    rewrite <- Hruns. apply findall_digits_int. }
  split.
  { unfold viral_keyword_points. simpl.
    repeat (constructor; [simpl; intuition discriminate|]). constructor. }
  split.
  { intros n. unfold magnitude_bonus, magnitude_tiers. cbn [find fst snd].
    repeat match goal with |- context [?a <? n] => destruct (a <? n) end; reflexivity. }
  intros search_results c Hin.
  destruct (_identify_viral_content_promoted _ _ Hin)
    as (source & r & u & platform & Hl & Hu & _ & _ & ->).
  exists source, r. split; [exact Hl|]. split.
  - simpl. now rewrite Hu.
  - simpl. now rewrite _calculate_initial_score_spec.
Qed.

Lemma any_above_1000_small (numbers : list string) :
  Forall (fun num => exists v, int_of_digits num = Ok v /\ v <= 1000) numbers ->
  any_above_1000 numbers = Ok false.
Proof.
  induction 1 as [|num rest (v & Hv & Hle) _ IH]; cbn [any_above_1000]; [reflexivity|].
  destruct (isdigit num); [|exact IH]. rewrite Hv.
  destruct (Z.gtb_spec v 1000); [lia | exact IH].
Qed.

Lemma converted_until_failure_small (numbers : list string) :
  Forall (fun num => exists v, int_of_digits num = Ok v /\ v <= 1000) numbers ->
  Forall (fun n => n <= 1000) (converted_until_failure numbers).
Proof.
  induction 1 as [|num rest (v & Hv & Hle) _ IH]; cbn [converted_until_failure];
    [constructor|].
  rewrite Hv. now constructor.
Qed.

End CandidateFilterProperties.

(** C3, on the first scenario of the specification: the result is promoted
    and its [initial_score] is the clamped sum for its text. *)
Lemma initial_score_is_clamped_sum_witness :
  exists source result,
    listed_in scenario_results source result
    /\ dict.get scenario_candidate "url" = dict.get result "url"
    /\ dict.get scenario_candidate "initial_score"
       = Some (VFloat (inject_Z (@initial_score_converted offline_runtime
                                   (@text_content_of offline_runtime result)))).
Proof.
  apply (proj2 (proj2 (proj2 (proj2 (proj2 (@initial_score_is_clamped_sum offline_runtime))))))
    with (search_results := scenario_results).
  vm_compute. left. reflexivity.
Defined.

(** C3 as the specification words it fails when a number has more digits
    than [int] converts: the result titled "2000 99...9", with 4301 nines,
    is promoted for its 2000; its score counts the 2000 and stops at the
    long number, 5, where the sum over every embedded number is 5 + 20. *)
Lemma long_number_cuts_the_sum :
  exists c : Dict,
    @_identify_viral_content offline_runtime long_number_results = [c]
    /\ dict.get c "initial_score" = Some (VFloat (inject_Z 5))
    /\ @initial_score_spec offline_runtime
         (@text_content_of offline_runtime long_number_result) = 25.
Proof.
  eexists. split; [vm_compute; reflexivity|]. split; vm_compute; reflexivity.
Qed.

(** ** Keywords of the filter that carry no weight *)

(** C10.  The keyword list of the filter is the key list of the weight
    table followed by 'shares', 'compartilhamentos', 'comentários' and
    'comments', none of which is a key of the table; a result whose text
    contains one of these four, none of the weighted keywords and only
    numbers that [int] converts to at most 1000 passes the viral test with
    an initial score of 0; and the filter promotes such a result to a
    candidate whose [initial_score] is 0. *)
Theorem unweighted_keyword_promotes_with_score_0 :
  viral_keywords
  = map fst viral_keyword_points
    ++ ["shares"; "compartilhamentos"; "comentários"; "comments"]
  /\ NoDup viral_keywords
  /\ (forall (rt : Runtime) (result : Dict) (platform keyword : string),
        In keyword ["shares"; "compartilhamentos"; "comentários"; "comments"] ->
        str_in keyword (text_content_of result) = true ->
        (forall k, In k (map fst viral_keyword_points) ->
                   str_in k (text_content_of result) = false) ->
        Forall (fun num => exists v, int_of_digits num = Ok v /\ v <= 1000)
               (findall_digits (text_content_of result)) ->
        _is_potentially_viral result platform = true
        /\ _calculate_initial_score result platform = 0)
  /\ (exists c : Dict,
        @_identify_viral_content offline_runtime comments_only_results = [c]
        /\ dict.get c "title" = Some (VStr "Comments")
        /\ dict.get c "initial_score" = Some (VFloat 0)).
Proof.
  split; [reflexivity|].
  split.
  { unfold viral_keywords.
    repeat (constructor; [simpl; intuition discriminate|]). constructor. }
  split.
  - intros rt result platform keyword Hk Hin Hnone Hsmall. split.
    + unfold _is_potentially_viral. rewrite (any_above_1000_small _ Hsmall).
      apply orb_true_iff. left.
      apply existsb_exists. exists keyword. split; [|exact Hin].
      unfold viral_keywords. simpl in Hk |- *. intuition.
    + rewrite _calculate_initial_score_spec. unfold initial_score_converted, clamp.
      assert (Hkw : Zsum (map (keyword_weight (text_content_of result))
                              viral_keyword_points) = 0).
      { unfold keyword_weight, viral_keyword_points. cbn [map fst snd Zsum fold_right].
        rewrite !Hnone by (cbn; intuition). reflexivity. }
      assert (Hnum : Zsum (map magnitude_bonus (converted_numbers (text_content_of result)))
                     = 0).
      { unfold converted_numbers.
        pose proof (converted_until_failure_small _ Hsmall) as Hle.
        induction Hle as [|n l Hn _ IH]; [reflexivity|].
        cbn [map Zsum fold_right]. fold (Zsum (map magnitude_bonus l)). rewrite IH.
        unfold magnitude_bonus, magnitude_tiers. cbn [find fst snd].
        repeat match goal with
               | |- context [?a <? n] => destruct (Z.ltb_spec a n); [lia|]
               end.
        reflexivity. }
      rewrite Hkw, Hnum. reflexivity.
  - eexists. split; [vm_compute; reflexivity|]. split; reflexivity.
Qed.

(** ** The view count of a YouTube title *)

(** C2, evaluated.  For the title of the specification's scenario the
    parsed views are 10,000,000.  For the title "5k likes and 2 million
    views" the pattern's first match is "5k", whose unit is "k", and the
    parsed views are 5,000,000: the factor is read off the whole text,
    which contains "million", and not off the unit of the match. *)
Theorem youtube_views_factor_from_whole_text :
  parsed_views "10 million views video" = Some (VInt 10000000)
  /\ @findall_counts offline_runtime
       (@lower offline_runtime "5k likes and 2 million views ") = ["5"; "2"]
  /\ @match_count_at offline_runtime "5k likes and 2 million views " = Some ("5", 2%nat)
  /\ parsed_views "5k likes and 2 million views" = Some (VInt 5000000).
Proof. repeat split; vm_compute; reflexivity. Qed.

(** ** The order [sorted] compares keys by *)

Lemma string_ltb_false_trans (a b c : string) :
  String.ltb a b = false -> String.ltb b c = false -> String.ltb a c = false.
Proof.
  unfold String.ltb. intros Hab Hbc.
  destruct (String.compare a c) eqn:Hac; try reflexivity.
  exfalso.
  destruct (String.compare a b) eqn:Eab; try discriminate.
  - apply String.compare_eq_iff in Eab. subst b. now rewrite Hac in Hbc.
  - assert (Hba : String.compare b a = Lt).
    { rewrite String.compare_antisym, Eab. reflexivity. }
    apply OrderedTypeEx.String_as_OT.cmp_lt in Hba, Hac.
    pose proof (OrderedTypeEx.String_as_OT.lt_trans _ _ _ Hba Hac) as Hlt.
    apply OrderedTypeEx.String_as_OT.cmp_lt in Hlt.
    unfold OrderedTypeEx.String_as_OT.cmp in Hlt. now rewrite Hlt in Hbc.
Qed.

Lemma string_ltb_asym (a b : string) :
  String.ltb a b = true -> String.ltb b a = false.
Proof.
  unfold String.ltb. rewrite (String.compare_antisym b a).
  destruct (String.compare a b); simpl; congruence.
Qed.

Lemma py_lt_cases (a b : pyval) (r : bool) :
  py_lt a b = Ok r ->
  (exists x y, a = VStr x /\ b = VStr y /\ r = String.ltb x y)
  \/ (exists x y, as_number a = Some x /\ as_number b = Some y
                  /\ r = negb (Qle_bool y x)).
Proof.
  unfold py_lt.
  destruct a; destruct b; simpl; intros [= <-];
    solve [ left; eauto | right; eauto ].
Qed.

Lemma py_lt_str (x y : string) : py_lt (VStr x) (VStr y) = Ok (String.ltb x y).
Proof. reflexivity. Qed.

Lemma py_lt_num (a b : pyval) (x y : Q) :
  as_number a = Some x -> as_number b = Some y ->
  py_lt a b = Ok (negb (Qle_bool y x)).
Proof.
  unfold py_lt. intros Ha Hb. rewrite Ha, Hb.
  destruct a; try discriminate; destruct b; try discriminate; reflexivity.
Qed.

Lemma not_below_trans (a b c : pyval) :
  not_below a b -> not_below b c -> not_below a c.
Proof.
  unfold not_below. intros Hab Hbc.
  destruct (py_lt_cases _ _ _ Hab) as [(x & y & -> & -> & H1)|(x & y & Hx & Hy & H1)];
  destruct (py_lt_cases _ _ _ Hbc) as [(y' & z & E & -> & H2)|(y' & z & Hy' & Hz & H2)].
  - injection E as <-. rewrite py_lt_str. f_equal.
    eapply string_ltb_false_trans; eauto.
  - discriminate.
  - subst b. discriminate.
  - rewrite Hy in Hy'. injection Hy' as <-.
    rewrite (py_lt_num _ _ _ _ Hx Hz). f_equal.
    apply negb_false_iff. apply Qle_bool_iff.
    symmetry in H1, H2. apply negb_false_iff in H1, H2. apply Qle_bool_iff in H1, H2.
    eapply Qle_trans; eauto.
Qed.

Lemma py_lt_asym (a b : pyval) : py_lt a b = Ok true -> not_below b a.
Proof.
  unfold not_below. intros Hab.
  destruct (py_lt_cases _ _ _ Hab) as [(x & y & -> & -> & H1)|(x & y & Hx & Hy & H1)].
  - rewrite py_lt_str. f_equal. now apply string_ltb_asym.
  - rewrite (py_lt_num _ _ _ _ Hy Hx). f_equal.
    apply negb_false_iff. apply Qle_bool_iff.
    symmetry in H1. apply negb_true_iff in H1.
    destruct (Qlt_le_dec x y) as [Hlt|Hle].
    + now apply Qlt_le_weak.
    + apply Qle_bool_iff in Hle. congruence.
Qed.

Lemma tied_true (a b : pyval) : tied a b = true <-> not_below a b /\ not_below b a.
Proof.
  unfold tied, not_below.
  destruct (py_lt a b) as [[|]|]; destruct (py_lt b a) as [[|]|];
    split; try discriminate; try (intros [? ?]; discriminate); auto.
Qed.

(** ** The stable descending sort *)

Section SortedProperties.

Context {A : Type} (key : A -> pyval).

Lemma insert_descending_perm (x : A) (l r : list A) :
  insert_descending key x l = Ok r -> Permutation (x :: l) r.
Proof.
  revert r. induction l as [|y l IH]; intros r; cbn [insert_descending].
  - intros [= <-]. reflexivity.
  - destruct (py_lt (key x) (key y)) as [[|]|]; try discriminate.
    + destruct (insert_descending key x l) as [r'|]; try discriminate.
      intros [= <-]. rewrite perm_swap. constructor. now apply IH.
    + intros [= <-]. reflexivity.
Qed.

Lemma insert_descending_sorted (x : A) (l r : list A) :
  StronglySorted (key_not_below key) l -> insert_descending key x l = Ok r -> StronglySorted (key_not_below key) r.
Proof.
  revert r. induction l as [|y l IH]; intros r Hs; cbn [insert_descending].
  - intros [= <-]. repeat constructor.
  - apply StronglySorted_inv in Hs. destruct Hs as [Hl Hy].
    destruct (py_lt (key x) (key y)) as [[|]|] eqn:Hxy; try discriminate.
    + destruct (insert_descending key x l) as [r'|] eqn:Hi; try discriminate.
      intros [= <-]. constructor; [now apply IH|].
      apply Forall_forall. intros z Hz.
      apply (Permutation_in _ (Permutation_sym (insert_descending_perm _ _ _ Hi))) in Hz.
      destruct Hz as [<-|Hz].
      * now apply py_lt_asym.
      * rewrite Forall_forall in Hy. now apply Hy.
    + intros [= <-]. constructor; [now constructor|].
      constructor; [exact Hxy|].
      eapply Forall_impl; [|exact Hy]. intros z Hz.
      eapply not_below_trans; [exact Hxy | exact Hz].
Qed.

Lemma insert_descending_ties (z : pyval) (x : A) (l r : list A) :
  insert_descending key x l = Ok r ->
  filter (fun y => tied z (key y)) r = filter (fun y => tied z (key y)) (x :: l).
Proof.
  revert r. induction l as [|y l IH]; intros r; cbn [insert_descending].
  - intros [= <-]. reflexivity.
  - destruct (py_lt (key x) (key y)) as [[|]|] eqn:Hxy; try discriminate.
    + destruct (insert_descending key x l) as [r'|] eqn:Hi; try discriminate.
      intros [= <-]. cbn [filter]. rewrite (IH r' eq_refl). cbn [filter].
      destruct (tied z (key x)) eqn:Hzx; [|reflexivity].
      destruct (tied z (key y)) eqn:Hzy; [|reflexivity].
      exfalso. apply tied_true in Hzx, Hzy.
      destruct Hzx as [_ Hxz]. destruct Hzy as [Hzy _].
      pose proof (not_below_trans _ _ _ Hxz Hzy) as Hge.
      unfold not_below in Hge. congruence.
    + intros [= <-]. reflexivity.
Qed.

Lemma sorted_reverse_perm (l r : list A) :
  sorted_reverse key l = Ok r -> Permutation l r.
Proof.
  revert r. induction l as [|x l IH]; intros r; cbn [sorted_reverse].
  - intros [= <-]. constructor.
  - destruct (sorted_reverse key l) as [s|]; try discriminate.
    intros Hi. apply insert_descending_perm in Hi.
    etransitivity; [|exact Hi]. constructor. now apply IH.
Qed.

Lemma sorted_reverse_sorted (l r : list A) :
  sorted_reverse key l = Ok r -> StronglySorted (key_not_below key) r.
Proof.
  revert r. induction l as [|x l IH]; intros r; cbn [sorted_reverse].
  - intros [= <-]. constructor.
  - destruct (sorted_reverse key l) as [s|]; try discriminate.
    intros Hi. eapply insert_descending_sorted; [|exact Hi]. now apply IH.
Qed.

Lemma sorted_reverse_ties (z : pyval) (l r : list A) :
  sorted_reverse key l = Ok r ->
  filter (fun y => tied z (key y)) r = filter (fun y => tied z (key y)) l.
Proof.
  revert r. induction l as [|x l IH]; intros r; cbn [sorted_reverse].
  - intros [= <-]. reflexivity.
  - destruct (sorted_reverse key l) as [s|]; try discriminate.
    intros Hi. rewrite (insert_descending_ties z _ _ _ Hi). cbn [filter].
    now rewrite (IH s eq_refl).
Qed.

End SortedProperties.

Lemma In_firstn_In {A : Type} (n : nat) (l : list A) (x : A) :
  In x (firstn n l) -> In x l.
Proof.
  intros H. rewrite <- (firstn_skipn n l). apply in_or_app. now left.
Qed.

Lemma StronglySorted_firstn {A : Type} (R : A -> A -> Prop) (n : nat) (l : list A) :
  StronglySorted R l -> StronglySorted R (firstn n l).
Proof.
  revert n. induction l as [|x l IH]; intros n Hs.
  - rewrite firstn_nil. constructor.
  - destruct n as [|n]; [constructor|].
    apply StronglySorted_inv in Hs. destruct Hs as [Hl Hx].
    cbn [firstn]. constructor; [now apply IH|].
    apply Forall_forall. intros y Hy. rewrite Forall_forall in Hx.
    apply Hx. eapply In_firstn_In. exact Hy.
Qed.

(** ** The top performers *)

(** C8, as the code has it.  For every platform-analysis mapping whose
    records carry a number or text as [viral_score] (a record without one
    counts as 0) and every count [top_n] that is not negative, the list
    [_get_top_performers] returns holds records of the mapping, in
    descending order of [viral_score] (no record scores below a later one;
    for numeric scores, the later score is at most the earlier one);
    records whose scores tie keep the order in which the flattened mapping
    lists them; and the list is no longer than [top_n] nor than the number
    of records in the mapping, 10 being the count the analyzer passes. *)
Theorem top_performers_sorted_stable_bounded :
  forall (platform_analysis : Buckets) (top_n : Z),
    0 <= top_n ->
    Forall (fun x => number_or_text (viral_score_of x) = true)
           (all_content_of platform_analysis) ->
    let top := _get_top_performers platform_analysis top_n in
    let all := all_content_of platform_analysis in
    StronglySorted scores_not_below top
    /\ (forall x y qx qy,
          scores_not_below x y ->
          as_number (viral_score_of x) = Some qx ->
          as_number (viral_score_of y) = Some qy ->
          (qy <= qx)%Q)
    /\ (forall z, exists rest, tied_with z all = tied_with z top ++ rest)
    /\ (forall x, In x top -> In x all)
    /\ (List.length top <= Nat.min (Z.to_nat top_n) (List.length all))%nat
    /\ (List.length (_get_top_performers platform_analysis 10) <= 10)%nat.
Proof.
  intros pa top_n Hn _ top all. subst top all. unfold _get_top_performers.
  assert (Hnum : forall x y qx qy,
            scores_not_below x y ->
            as_number (viral_score_of x) = Some qx ->
            as_number (viral_score_of y) = Some qy ->
            (qy <= qx)%Q).
  { intros x y qx qy Hxy Hx Hy. unfold scores_not_below, key_not_below, not_below in Hxy.
    rewrite (py_lt_num _ _ _ _ Hx Hy) in Hxy. injection Hxy as Hxy.
    apply negb_false_iff in Hxy. now apply Qle_bool_iff. }
  assert (Hlen10 : forall l : list Dict, (List.length (slice_to l 10) <= 10)%nat).
  { intros l. unfold slice_to. change (0 <=? 10) with true. cbv iota.
    rewrite length_firstn. lia. }
  destruct (sorted_reverse viral_score_of (all_content_of pa)) as [sorted|e] eqn:Hs.
  - unfold slice_to. destruct (Z.leb_spec 0 top_n) as [_|]; [|lia].
    split; [|split; [exact Hnum|split; [|split; [|split]]]].
    + apply StronglySorted_firstn. exact (sorted_reverse_sorted _ _ _ Hs).
    + intros z. unfold tied_with.
      rewrite <- (sorted_reverse_ties viral_score_of (viral_score_of z) _ _ Hs).
      exists (filter (fun x => tied (viral_score_of z) (viral_score_of x))
                     (skipn (Z.to_nat top_n) sorted)).
      rewrite <- filter_app, firstn_skipn. reflexivity.
    + intros x Hx. apply In_firstn_In in Hx.
      eapply Permutation_in; [|exact Hx].
      apply Permutation_sym. exact (sorted_reverse_perm _ _ _ Hs).
    + rewrite length_firstn.
      rewrite (Permutation_length (sorted_reverse_perm _ _ _ Hs)). lia.
    + apply Hlen10.
  - split; [constructor|]. split; [exact Hnum|].
    split; [intros z; now exists (tied_with z (all_content_of pa))|].
    split; [intros x []|]. split; simpl; lia.
Qed.

Lemma top_performers_sorted_stable_bounded_witness :
  _get_top_performers sample_buckets 3
  = [ [("url", VStr "i2"); ("viral_score", VFloat (inject_Z 91))];
      [("url", VStr "o2"); ("viral_score", VFloat (inject_Z 91))];
      [("url", VStr "i1"); ("viral_score", VFloat (inject_Z 40))] ]
  /\ StronglySorted scores_not_below (_get_top_performers sample_buckets 3)
  /\ (List.length (_get_top_performers sample_buckets 3)
      <= Nat.min (Z.to_nat 3) (List.length (all_content_of sample_buckets)))%nat.
Proof.
  split; [vm_compute; reflexivity|].
  assert (Hkeys : Forall (fun x => number_or_text (viral_score_of x) = true)
                         (all_content_of sample_buckets)).
  { repeat constructor. }
  pose proof (top_performers_sorted_stable_bounded sample_buckets 3 ltac:(lia) Hkeys) as H.
  cbv zeta in H. destruct H as (Hs & _ & _ & _ & Hl & _).
  split; [exact Hs | exact Hl].
Defined.

(** C8 as the specification words it fails for a negative count: with
    [top_n = -1] the slice drops the last record only, and the four records
    it keeps of the five are more than min(top_n, 5) = -1. *)
Lemma negative_top_n_exceeds_bound :
  List.length (all_content_of sample_buckets) = 5%nat
  /\ List.length (_get_top_performers sample_buckets (-1)) = 4%nat
  /\ ~ (Z.of_nat (List.length (_get_top_performers sample_buckets (-1)))
        <= Z.min (-1) (Z.of_nat (List.length (all_content_of sample_buckets)))).
Proof.
  split; [reflexivity|]. split; [vm_compute; reflexivity|].
  vm_compute. intros H. apply H. reflexivity.
Qed.

(** ** Dictionaries *)

Lemma dict_get_set_same {A : Type} (d : list (string * A)) (k : string) (v : A) :
  dict.get (dict.set d k v) k = Some v.
Proof.
  induction d as [|[k' v'] d IH]; simpl.
  - now rewrite String.eqb_refl.
  - destruct (String.eqb k k') eqn:E; simpl; rewrite E; [reflexivity | exact IH].
Qed.

Lemma dict_get_set_other {A : Type} (d : list (string * A)) (k k' : string) (v : A) :
  k' <> k -> dict.get (dict.set d k v) k' = dict.get d k'.
Proof.
  intros Hne. induction d as [|[k0 v0] d IH]; simpl.
  - destruct (String.eqb k' k) eqn:E; [apply String.eqb_eq in E; congruence | reflexivity].
  - destruct (String.eqb k k0) eqn:E; simpl.
    + apply String.eqb_eq in E. subst k0.
      destruct (String.eqb k' k) eqn:E'; [apply String.eqb_eq in E'; congruence | reflexivity].
    + now rewrite IH.
Qed.

Lemma dict_set_keys {A : Type} (d : list (string * A)) (k : string) (v : A) :
  dict.has d k = true -> map fst (dict.set d k v) = map fst d.
Proof.
  unfold dict.has. induction d as [|[k0 v0] d IH]; simpl.
  - discriminate.
  - destruct (String.eqb k k0) eqn:E; simpl; [reflexivity|].
    intros H. now rewrite IH.
Qed.

Lemma dict_has_keys {A B : Type} (d : list (string * A)) (d' : list (string * B))
      (k : string) :
  map fst d = map fst d' -> dict.has d k = dict.has d' k.
Proof.
  unfold dict.has. revert d'. induction d as [|[k0 v0] d IH]; intros [|[k1 v1] d']; simpl;
    try discriminate; [reflexivity|].
  intros [= <- Hk]. destruct (String.eqb k k0); [reflexivity | now apply IH].
Qed.

Lemma bucket_of_is_bucket (platform : string) :
  dict.has empty_buckets (bucket_of platform) = true.
Proof.
  unfold bucket_of. destruct (dict.has empty_buckets platform) eqn:E; [exact E | reflexivity].
Qed.

Section BucketProperties.

Variable platform_analysis : Buckets.
Hypothesis Hkeys : map fst platform_analysis = bucket_names.

Lemma bucket_append_keys (name : string) (a : Dict) :
  dict.has empty_buckets name = true ->
  map fst (bucket_append platform_analysis name a) = bucket_names.
Proof.
  intros Hn. unfold bucket_append. rewrite dict_set_keys; [exact Hkeys|].
  now rewrite (dict_has_keys _ empty_buckets).
Qed.

Lemma bucket_append_same (name : string) (a : Dict) :
  dict.get_or (bucket_append platform_analysis name a) name []
  = dict.get_or platform_analysis name [] ++ [a].
Proof. unfold bucket_append, dict.get_or at 1. now rewrite dict_get_set_same. Qed.

Lemma bucket_append_other (name name' : string) (a : Dict) :
  name' <> name ->
  dict.get_or (bucket_append platform_analysis name a) name' []
  = dict.get_or platform_analysis name' [].
Proof.
  intros Hne. unfold bucket_append, dict.get_or at 1 3.
  now rewrite dict_get_set_other.
Qed.

Lemma bucket_append_or_other_routes (platform : string) (a : Dict) :
  bucket_append_or_other platform_analysis (VStr platform) a
  = Ok (bucket_append platform_analysis (bucket_of platform) a).
Proof.
  unfold bucket_append_or_other, bucket_of.
  rewrite (dict_has_keys platform_analysis empty_buckets platform Hkeys).
  now destruct (dict.has empty_buckets platform).
Qed.

End BucketProperties.

Lemma bucket_append_contents (platform_analysis : Buckets) (name : string) (a : Dict) :
  dict.has platform_analysis name = true ->
  Permutation (all_content_of (bucket_append platform_analysis name a))
              (a :: all_content_of platform_analysis).
Proof.
  unfold bucket_append, all_content_of, dict.has, dict.get_or.
  induction platform_analysis as [|[k v] pa IH]; simpl; [discriminate|].
  destruct (String.eqb name k) eqn:E; simpl.
  - intros _. rewrite <- app_assoc. simpl.
    symmetry. apply Permutation_middle.
  - intros H. rewrite (IH H). symmetry. apply Permutation_middle.
Qed.

Lemma empty_buckets_empty (name : string) : dict.get_or empty_buckets name [] = [].
Proof.
  unfold dict.get_or, empty_buckets. cbn [dict.get].
  repeat match goal with
         | |- context [String.eqb name ?k] => destruct (String.eqb name k); [reflexivity|]
         end.
  reflexivity.
Qed.

(** ** The loops of the enrichment adapter *)

Lemma catch_none_returns {A : Type} (m : IO (option A)) (w : World) :
  exists o w', catch m (fun _ => ret None) w = (Ok o, w').
Proof.
  unfold catch. destruct (m w) as [[o|e] w']; [now exists o, w' | now exists None, w'].
Qed.

Section AdapterProperties.

Context {rt : Runtime}.

Lemma _basic_url_analysis_record (url : pyval) (c : Dict) (w : World) :
  candidate_shape c ->
  dict.get c "url" = Some url ->
  exists r w',
    _basic_url_analysis url c w = (Ok (Some r), w')
    /\ truthy (Some r) = Some r
    /\ fallback_of c r.
Proof.
  intros (url' & p & sc & _ & Hp & Hs) Hu.
  eexists. eexists. split; [reflexivity|]. split; [reflexivity|].
  unfold fallback_of, dict.get_or. cbn [dict.get String.eqb Ascii.eqb Bool.eqb].
  rewrite Hu, Hp, Hs. repeat split; reflexivity.
Qed.

Lemma fallback_item_step (c : Dict) (platform_analysis : Buckets) (w : World) :
  candidate_shape c ->
  map fst platform_analysis = bucket_names ->
  exists r w',
    fallback_item c platform_analysis w
    = (Ok (bucket_append platform_analysis (bucket_of (platform_of c)) r), w')
    /\ fallback_of c r.
Proof.
  intros Hc Hkeys. pose proof Hc as (url & p & sc & Hu & Hp & Hs).
  destruct (_basic_url_analysis_record url c w Hc Hu) as (r & w' & Hr & Ht & Hf).
  exists r, w'. split; [|exact Hf].
  unfold fallback_item, getitem, platform_of, dict.get_or. rewrite Hu, Hp.
  unfold bind at 1, lift at 1. unfold bind at 1. rewrite Hr, Ht.
  unfold lift. now rewrite (bucket_append_or_other_routes _ Hkeys).
Qed.

Lemma candidate_shape_has_bucket (c : Dict) (platform_analysis : Buckets) :
  map fst platform_analysis = bucket_names ->
  dict.has platform_analysis (bucket_of (platform_of c)) = true.
Proof.
  intros Hkeys. rewrite (dict_has_keys _ empty_buckets _ Hkeys).
  apply bucket_of_is_bucket.
Qed.

Lemma fallback_loop (viral_urls : list Dict) :
  Forall candidate_shape viral_urls ->
  forall (platform_analysis : Buckets) (w : World),
    map fst platform_analysis = bucket_names ->
    exists pa' w' records,
      each_candidate fallback_item viral_urls platform_analysis w = (Ok pa', w')
      /\ map fst pa' = bucket_names
      /\ Forall2 fallback_of viral_urls records
      /\ Permutation (all_content_of pa') (all_content_of platform_analysis ++ records)
      /\ forall name, exists routed,
           Forall2 fallback_of (routed_to name viral_urls) routed
           /\ dict.get_or pa' name [] = dict.get_or platform_analysis name [] ++ routed.
Proof.
  induction 1 as [|c rest Hc Hrest IH]; intros pa w Hkeys.
  - exists pa, w, []. split; [reflexivity|]. split; [exact Hkeys|].
    split; [constructor|]. split; [now rewrite app_nil_r|].
    intros name. exists []. split; [constructor | now rewrite app_nil_r].
  - destruct (fallback_item_step c pa w Hc Hkeys) as (r & w1 & Hstep & Hf).
    set (pa1 := bucket_append pa (bucket_of (platform_of c)) r) in *.
    assert (Hkeys1 : map fst pa1 = bucket_names).
    { apply bucket_append_keys; [exact Hkeys | apply bucket_of_is_bucket]. }
    destruct (IH pa1 w1 Hkeys1) as (pa' & w' & records & Hrun & Hk' & HF & HP & HK).
    exists pa', w', (r :: records).
    split.
    { cbn [each_candidate]. unfold bind at 1, catch. rewrite Hstep. exact Hrun. }
    split; [exact Hk'|]. split; [now constructor|]. split.
    { rewrite HP. unfold pa1.
      rewrite (bucket_append_contents _ _ _ (candidate_shape_has_bucket c pa Hkeys)).
      simpl. apply Permutation_middle. }
    intros name. destruct (HK name) as (routed & HR & Hget).
    unfold routed_to in *. cbn [filter].
    destruct (String.eqb (bucket_of (platform_of c)) name) eqn:E.
    + apply String.eqb_eq in E. exists (r :: routed). split; [now constructor|].
      rewrite Hget. unfold pa1. rewrite E, bucket_append_same, <- app_assoc. reflexivity.
    + apply String.eqb_neq in E. exists routed. split; [exact HR|].
      rewrite Hget. unfold pa1. rewrite bucket_append_other by congruence. reflexivity.
Qed.

Lemma instascrape_item_step (c : Dict) (platform_analysis : Buckets) (w : World) :
  candidate_shape c ->
  map fst platform_analysis = bucket_names ->
  exists pa1 w1,
    catch (instascrape_item c platform_analysis) (fun _ => ret platform_analysis) w
    = (Ok pa1, w1)
    /\ map fst pa1 = bucket_names
    /\ forall name, name <> "instagram" -> name <> "youtube" ->
         if String.eqb (bucket_of (platform_of c)) name
         then exists r, fallback_of c r
                        /\ dict.get_or pa1 name []
                           = dict.get_or platform_analysis name [] ++ [r]
         else dict.get_or pa1 name [] = dict.get_or platform_analysis name [].
Proof.
  intros Hc Hkeys. pose proof Hc as (url & p & sc & Hu & Hp & Hs).
  assert (Hplat : platform_of c = p) by (unfold platform_of; now rewrite Hp).
  rewrite Hplat.
  unfold instascrape_item, getitem. rewrite Hu, Hp.
  unfold bind at 1, lift at 1. unfold bind at 1, lift at 1.
  cbn [py_eq_str].
  destruct (String.eqb p "instagram") eqn:Ei; [|destruct (String.eqb p "youtube") eqn:Ey].
  - apply String.eqb_eq in Ei. rewrite Ei in *.
    destruct (catch_none_returns
                (A := Dict)
                _ w : exists o w', _analyze_instagram_post url c w = (Ok o, w'))
      as (o & w' & Ho).
    unfold catch at 1, bind at 1, bind at 1. rewrite Ho.
    destruct (truthy o) as [a|]; unfold bind, ret, asyncio_sleep, modify; cbv beta iota.
    + eexists. eexists. split; [reflexivity|]. split.
      * now apply bucket_append_keys.
      * intros name Hni Hny.
        destruct (String.eqb_spec (bucket_of "instagram") name) as [E|_].
        -- cbv in E. congruence.
        -- apply bucket_append_other. congruence.
    + eexists. eexists. split; [reflexivity|]. split; [exact Hkeys|].
      intros name Hni Hny.
      destruct (String.eqb_spec (bucket_of "instagram") name) as [E|_]; [|reflexivity].
      cbv in E. congruence.
  - apply String.eqb_eq in Ey. rewrite Ey in *.
    destruct (catch_none_returns
                (A := Dict)
                _ w : exists o w', _analyze_youtube_video url c w = (Ok o, w'))
      as (o & w' & Ho).
    unfold catch at 1, bind at 1, bind at 1. rewrite Ho.
    destruct (truthy o) as [a|]; unfold bind, ret, asyncio_sleep, modify; cbv beta iota.
    + eexists. eexists. split; [reflexivity|]. split.
      * now apply bucket_append_keys.
      * intros name Hni Hny.
        destruct (String.eqb_spec (bucket_of "youtube") name) as [E|_].
        -- cbv in E. congruence.
        -- apply bucket_append_other. congruence.
    + eexists. eexists. split; [reflexivity|]. split; [exact Hkeys|].
      intros name Hni Hny.
      destruct (String.eqb_spec (bucket_of "youtube") name) as [E|_]; [|reflexivity].
      cbv in E. congruence.
  - destruct (_basic_url_analysis_record url c w Hc Hu) as (r & w' & Hr & Ht & Hf).
    unfold catch at 1, bind at 1, bind at 1. rewrite Hr, Ht.
    unfold lift. rewrite (bucket_append_or_other_routes _ Hkeys).
    unfold bind, ret, asyncio_sleep, modify; cbv beta iota.
    eexists. eexists. split; [reflexivity|]. split.
    + apply bucket_append_keys; [exact Hkeys | apply bucket_of_is_bucket].
    + intros name Hni Hny.
      destruct (String.eqb_spec (bucket_of p) name) as [E|E].
      * exists r. split; [exact Hf|]. rewrite <- E. apply bucket_append_same.
      * apply bucket_append_other. congruence.
Qed.

Lemma instascrape_loop (viral_urls : list Dict) :
  Forall candidate_shape viral_urls ->
  forall (platform_analysis : Buckets) (w : World),
    map fst platform_analysis = bucket_names ->
    exists pa' w',
      each_candidate instascrape_item viral_urls platform_analysis w = (Ok pa', w')
      /\ map fst pa' = bucket_names
      /\ forall name, name <> "instagram" -> name <> "youtube" ->
           exists routed,
             Forall2 fallback_of (routed_to name viral_urls) routed
             /\ dict.get_or pa' name [] = dict.get_or platform_analysis name [] ++ routed.
Proof.
  induction 1 as [|c rest Hc Hrest IH]; intros pa w Hkeys.
  - exists pa, w. split; [reflexivity|]. split; [exact Hkeys|].
    intros name _ _. exists []. split; [constructor | now rewrite app_nil_r].
  - destruct (instascrape_item_step c pa w Hc Hkeys) as (pa1 & w1 & Hstep & Hkeys1 & Hb).
    destruct (IH pa1 w1 Hkeys1) as (pa' & w' & Hrun & Hk' & HK).
    exists pa', w'. split.
    { cbn [each_candidate]. unfold bind at 1. rewrite Hstep. exact Hrun. }
    split; [exact Hk'|].
    intros name Hni Hny. destruct (HK name Hni Hny) as (routed & HR & Hget).
    specialize (Hb name Hni Hny). unfold routed_to in *. cbn [filter].
    destruct (String.eqb (bucket_of (platform_of c)) name).
    + destruct Hb as (r & Hf & Hr). exists (r :: routed). split; [now constructor|].
      rewrite Hget, Hr, <- app_assoc. reflexivity.
    + exists routed. split; [exact HR|]. now rewrite Hget, Hb.
Qed.

End AdapterProperties.

(** ** Routing of the fallback records *)

Lemma bucket_of_unlisted (platform : string) :
  ~ In platform ["instagram"; "youtube"; "facebook"; "twitter"; "tiktok"] ->
  bucket_of platform = "other".
Proof.
  intros Hnot. unfold bucket_of, dict.has, empty_buckets. cbn [dict.get].
  repeat match goal with
         | |- context [String.eqb platform ?k] =>
             destruct (String.eqb_spec platform k) as [->|_];
             [try reflexivity; exfalso; apply Hnot; simpl; tauto|]
         end.
  reflexivity.
Qed.

Section RoutingProperties.

Context {rt : Runtime}.

(** The candidates of the filter have the shape the adapter reads. *)
Lemma _identify_viral_content_shape (search_results : pyval) :
  Forall candidate_shape (_identify_viral_content search_results).
Proof.
  apply Forall_forall. intros c Hin.
  destruct (_identify_viral_content_promoted _ _ Hin)
    as (source & r & u & platform & _ & _ & _ & _ & ->).
  unfold candidate_shape, candidate. cbn [dict.get String.eqb Ascii.eqb Bool.eqb].
  repeat eexists.
Qed.

(** C5, as amended.  For every list of candidates, whether [instascrape] is
    installed or not, the bucket of every name other than 'instagram' and
    'youtube' holds, in order, the Basic Fallback records of the candidates
    routed to it; a candidate is routed to the bucket of its platform when
    the mapping has one, which among the platforms that are neither
    instagram nor youtube holds of facebook, twitter and tiktok, and to
    'other' for every other platform, linkedin included. *)
Theorem fallback_routed_to_own_bucket_or_other :
  forall (viral_urls : list Dict) (w : World),
    Forall candidate_shape viral_urls ->
    exists pa w',
      _analyze_with_instascrape viral_urls w = (Ok pa, w')
      /\ map fst pa = ["instagram"; "youtube"; "facebook"; "twitter"; "tiktok"; "other"]
      /\ (forall name, name <> "instagram" -> name <> "youtube" ->
            Forall2 fallback_of (routed_to name viral_urls) (dict.get_or pa name []))
      /\ bucket_of "facebook" = "facebook"
      /\ bucket_of "twitter" = "twitter"
      /\ bucket_of "tiktok" = "tiktok"
      /\ bucket_of "linkedin" = "other"
      /\ (forall platform,
            ~ In platform ["instagram"; "youtube"; "facebook"; "twitter"; "tiktok"] ->
            bucket_of platform = "other").
Proof.
  intros viral_urls w Hshape.
  assert (Hstart : map fst empty_buckets = bucket_names) by reflexivity.
  assert (Hrest : bucket_of "facebook" = "facebook"
                  /\ bucket_of "twitter" = "twitter"
                  /\ bucket_of "tiktok" = "tiktok"
                  /\ bucket_of "linkedin" = "other"
                  /\ (forall platform,
                        ~ In platform ["instagram"; "youtube"; "facebook"; "twitter"; "tiktok"] ->
                        bucket_of platform = "other")).
  { repeat split; try reflexivity. exact bucket_of_unlisted. }
  unfold _analyze_with_instascrape. destruct HAS_INSTASCRAPE; cbn [negb].
  - destruct (instascrape_loop viral_urls Hshape empty_buckets w Hstart)
      as (pa & w' & Hrun & Hkeys & HK).
    exists pa, w'. split; [exact Hrun|]. split; [exact Hkeys|]. split; [|exact Hrest].
    intros name Hni Hny. destruct (HK name Hni Hny) as (routed & HR & Hget).
    rewrite Hget, empty_buckets_empty. exact HR.
  - destruct (fallback_loop viral_urls Hshape empty_buckets w Hstart)
      as (pa & w' & records & Hrun & Hkeys & _ & _ & HK).
    exists pa, w'. split; [exact Hrun|]. split; [exact Hkeys|]. split; [|exact Hrest].
    intros name _ _. destruct (HK name) as (routed & HR & Hget).
    rewrite Hget, empty_buckets_empty. exact HR.
Qed.

(** C6.  When [instascrape] is not installed, every candidate, whatever its
    platform, yields exactly one record, its Basic Fallback record, whose
    [analysis_method] is 'basic_fallback' and whose [viral_score] is the
    candidate's [initial_score]; the records fill the buckets the
    candidates are routed to, in order, and nothing else does. *)
Theorem no_instascrape_every_candidate_falls_back :
  forall (viral_urls : list Dict) (w : World),
    HAS_INSTASCRAPE = false ->
    Forall candidate_shape viral_urls ->
    exists pa w' records,
      _analyze_with_instascrape viral_urls w = (Ok pa, w')
      /\ Forall2 (fun c r =>
                    dict.get r "analysis_method" = Some (VStr "basic_fallback")
                    /\ dict.get r "viral_score" = dict.get c "initial_score"
                    /\ fallback_of c r)
                 viral_urls records
      /\ Permutation (all_content_of pa) records
      /\ List.length (all_content_of pa) = List.length viral_urls
      /\ (forall name,
            Forall2 fallback_of (routed_to name viral_urls) (dict.get_or pa name [])).
Proof.
  intros viral_urls w Hno Hshape.
  unfold _analyze_with_instascrape. rewrite Hno. cbn [negb].
  destruct (fallback_loop viral_urls Hshape empty_buckets w eq_refl)
    as (pa & w' & records & Hrun & Hkeys & HF & HP & HK).
  exists pa, w', records. split; [exact Hrun|]. split.
  { eapply Forall2_impl; [|exact HF]. intros c r Hf. split; [|split; [|exact Hf]].
    - apply Hf.
    - apply Hf. }
  split; [exact HP|]. split.
  { rewrite (Permutation_length HP). symmetry. exact (Forall2_length HF). }
  intros name. destruct (HK name) as (routed & HR & Hget).
  rewrite Hget, empty_buckets_empty. exact HR.
Qed.

End RoutingProperties.

Lemma sample_candidates_shape :
  Forall candidate_shape [linkedin_candidate; tiktok_candidate; instagram_candidate].
Proof.
  repeat constructor; unfold candidate_shape; repeat eexists.
Qed.

Lemma fallback_routed_to_own_bucket_or_other_witness :
  exists pa w',
    @_analyze_with_instascrape offline_runtime
      [linkedin_candidate; tiktok_candidate; instagram_candidate] start_of_run
    = (Ok pa, w')
    /\ Forall2 fallback_of [tiktok_candidate] (dict.get_or pa "tiktok" [])
    /\ Forall2 fallback_of [linkedin_candidate] (dict.get_or pa "other" []).
Proof.
  destruct (@fallback_routed_to_own_bucket_or_other offline_runtime
              [linkedin_candidate; tiktok_candidate; instagram_candidate]
              start_of_run sample_candidates_shape)
    as (pa & w' & Hrun & _ & HK & _).
  exists pa, w'. split; [exact Hrun|]. split.
  - exact (HK "tiktok" ltac:(discriminate) ltac:(discriminate)).
  - exact (HK "other" ltac:(discriminate) ltac:(discriminate)).
Defined.

(** C5, as stated, fails for linkedin: the classifier recognizes a LinkedIn
    URL, yet the Basic Fallback record of a LinkedIn candidate is appended
    to the 'other' bucket and the mapping has no 'linkedin' bucket, with
    [instascrape] installed and without it. *)
Lemma linkedin_record_lands_in_other :
  @_identify_platform offline_runtime "https://www.linkedin.com/posts/some-post"
  = Some "linkedin"
  /\ (exists pa w r,
        @_analyze_with_instascrape offline_runtime [linkedin_candidate] start_of_run
        = (Ok pa, w)
        /\ dict.get pa "linkedin" = None
        /\ dict.get pa "other" = Some [r]
        /\ dict.get r "platform" = Some (VStr "linkedin")
        /\ dict.get r "analysis_method" = Some (VStr "basic_fallback"))
  /\ (exists pa w r,
        @_basic_analysis_fallback bare_runtime [linkedin_candidate] start_of_run
        = (Ok pa, w)
        /\ dict.get pa "linkedin" = None
        /\ dict.get pa "other" = Some [r]
        /\ dict.get r "platform" = Some (VStr "linkedin")
        /\ dict.get r "analysis_method" = Some (VStr "basic_fallback")).
Proof.
  split; [vm_compute; reflexivity|].
  split; eexists; eexists; eexists; (split; [vm_compute; reflexivity|]);
    repeat split; reflexivity.
Qed.

Lemma no_instascrape_every_candidate_falls_back_witness :
  exists pa w' records,
    @_analyze_with_instascrape bare_runtime
      [linkedin_candidate; tiktok_candidate; instagram_candidate] start_of_run
    = (Ok pa, w')
    /\ Permutation (all_content_of pa) records
    /\ List.length (all_content_of pa) = 3%nat
    /\ Forall2 fallback_of [instagram_candidate] (dict.get_or pa "instagram" []).
Proof.
  destruct (@no_instascrape_every_candidate_falls_back bare_runtime
              [linkedin_candidate; tiktok_candidate; instagram_candidate]
              start_of_run eq_refl sample_candidates_shape)
    as (pa & w' & records & Hrun & _ & HP & Hlen & HK).
  exists pa, w', records. split; [exact Hrun|]. split; [exact HP|].
  split; [exact Hlen|]. exact (HK "instagram").
Defined.

(** ** The entry point *)

Section AnalyzerProperties.

Context {rt : Runtime}.

Lemma each_candidate_returns (item : Dict -> Buckets -> IO Buckets)
      (viral_urls : list Dict) (platform_analysis : Buckets) (w : World) :
  exists pa' w', each_candidate item viral_urls platform_analysis w = (Ok pa', w').
Proof.
  revert platform_analysis w.
  induction viral_urls as [|c rest IH]; intros pa w; cbn [each_candidate].
  - now exists pa, w.
  - unfold bind at 1, catch.
    destruct (item c pa w) as [[pa1|e] w1]; [apply IH|].
    unfold ret. apply IH.
Qed.

Lemma _analyze_with_instascrape_returns (viral_urls : list Dict) (w : World) :
  exists pa w', _analyze_with_instascrape viral_urls w = (Ok pa, w').
Proof.
  unfold _analyze_with_instascrape, _basic_analysis_fallback.
  destruct (negb HAS_INSTASCRAPE); apply each_candidate_returns.
Qed.

Lemma _save_analysis_results_returns (results : Dict) (session_id : string) (w : World) :
  exists w', _save_analysis_results results session_id w = (Ok tt, w').
Proof.
  unfold _save_analysis_results, catch, bind.
  destruct (write_json _ results) as [[]|e]; eexists; reflexivity.
Qed.

Lemma in_world_run {A : Type} (m : IO A) (w w' : World) (d : Dict) (r : result A) :
  m w = (r, w') -> in_world m (w, d) = (r, (w', d)).
Proof. intros H. unfold in_world. cbn [fst snd]. now rewrite H. Qed.

(** The [try] block either stops at the slice [viral_urls[:max_captures]],
    before anything but the candidate list is stored and before the world
    is touched, or runs to its end and stores [success = True] last. *)
Lemma analysis_phases_outcome (search_results : pyval) (session_id : string)
      (max_captures : pyval) (w : World) (d : Dict) :
  (exists e,
      py_slice_to (_identify_viral_content search_results) max_captures = Raise e
      /\ analysis_phases search_results session_id max_captures (w, d)
         = (Raise e,
            (w, dict.set d "viral_content_identified"
                         (VList (map VDict (_identify_viral_content search_results))))))
  \/ (exists captured w' d',
        py_slice_to (_identify_viral_content search_results) max_captures = Ok captured
        /\ analysis_phases search_results session_id max_captures (w, d)
           = (Ok tt, (w', dict.set d' "success" (VBool true)))
        /\ dict.get d' "error" = dict.get d "error").
Proof.
  unfold analysis_phases.
  erewrite bind_ok by reflexivity. cbn [fst snd].
  destruct (py_slice_to (_identify_viral_content search_results) max_captures)
    as [captured|e] eqn:Hslice.
  - right.
    erewrite bind_ok by reflexivity.
    destruct (_analyze_with_instascrape_returns captured w) as (pa & w1 & Hpa).
    erewrite bind_ok by (apply in_world_run; exact Hpa).
    do 4 (erewrite bind_ok by reflexivity; cbn [fst snd]).
    erewrite bind_ok by (apply in_world_run; reflexivity).
    do 3 (erewrite bind_ok by reflexivity; cbn [fst snd]).
    match goal with
    | |- context [_save_analysis_results ?r ?s] =>
        destruct (_save_analysis_results_returns r s
                    {| clock := S (clock w1); slept := slept w1; written := written w1 |})
          as (w2 & Hsave);
        rewrite (in_world_run _ _ _ _ _ Hsave)
    end.
    eexists. eexists. eexists. split; [reflexivity|]. split; [reflexivity|].
    rewrite !dict_get_set_other by discriminate. reflexivity.
  - left. exists e. split; [reflexivity|].
    erewrite bind_raise by reflexivity. reflexivity.
Qed.

(** C9.  [analyze_and_capture_viral_content] returns for every input: it
    never raises.  When its [try] block raises an exception, the returned
    result has [success = False] and [error] holding the text of that
    exception, and the run wrote no artifact; when the block runs to its
    end, the result has [success = True] and no [error].  The one statement
    of the block that can raise is the slice [viral_urls[:max_captures]]. *)
Theorem analyze_never_raises :
  forall (search_results : pyval) (session_id : string) (max_captures : pyval)
         (w : World),
    let started := VStr (now_isoformat (clock w)) in
    let w1 := {| clock := S (clock w); slept := slept w; written := written w |} in
    let block := analysis_phases search_results session_id max_captures
                                 (w1, new_analysis_results session_id started) in
    exists analysis_results w',
      analyze_and_capture_viral_content search_results session_id max_captures w
      = (Ok analysis_results, w')
      /\ match fst block with
         | Raise e =>
             dict.get analysis_results "success" = Some (VBool false)
             /\ dict.get analysis_results "error" = Some (VStr (exn_text e))
             /\ written w' = written w
             /\ py_slice_to (_identify_viral_content search_results) max_captures
                = Raise e
         | Ok _ =>
             dict.get analysis_results "success" = Some (VBool true)
             /\ dict.get analysis_results "error" = None
         end.
Proof.
  intros search_results session_id max_captures w started w1 block.
  unfold analyze_and_capture_viral_content.
  unfold bind at 1, datetime_now_isoformat at 1. fold started. fold w1.
  unfold catch. fold block.
  destruct (analysis_phases_outcome search_results session_id max_captures w1
              (new_analysis_results session_id started))
    as [(e & Hslice & Hrun)|(captured & w' & d' & Hslice & Hrun & Herr)];
    fold block in Hrun; rewrite Hrun; cbn [fst snd].
  - unfold analysis_failed.
    erewrite bind_ok by reflexivity. cbn [set_result modify fst snd].
    eexists. eexists. split; [reflexivity|].
    split; [apply dict_get_set_same|]. split.
    + rewrite dict_get_set_other by discriminate. apply dict_get_set_same.
    + split; [reflexivity | exact Hslice].
  - eexists. eexists. split; [reflexivity|].
    split; [apply dict_get_set_same|].
    rewrite dict_get_set_other by discriminate. rewrite Herr. reflexivity.
Qed.

End AnalyzerProperties.

(** The two outcomes of C9 on the first scenario of the specification: the
    default cap lets the run complete and write one artifact; a cap that is
    text makes the slice raise, and the run reports the failure and writes
    nothing. *)
Example analyze_completes_and_fails :
  (exists r w,
      @analyze_and_capture_viral_content offline_runtime scenario_results "s1" (VInt 15)
                                         start_of_run = (Ok r, w)
      /\ dict.get r "success" = Some (VBool true)
      /\ List.length (written w) = 1%nat)
  /\ (exists r w,
        @analyze_and_capture_viral_content offline_runtime scenario_results "s1" (VStr "15")
                                           start_of_run = (Ok r, w)
        /\ dict.get r "success" = Some (VBool false)
        /\ dict.get r "error"
           = Some (VStr "slice indices must be integers or None or have an __index__ method")
        /\ written w = []).
Proof.
  split; eexists; eexists; (split; [vm_compute; reflexivity|]); repeat split; reflexivity.
Qed.


(** * Further properties *)

(** ** A result the filter rejects scores nothing *)

Lemma magnitude_bonus_small (n : Z) : (n >? 1000) = false -> magnitude_bonus n = 0.
Proof.
  rewrite Z.gtb_ltb. intros Hn. apply Z.ltb_ge in Hn.
  unfold magnitude_bonus, magnitude_tiers. cbn [find fst snd].
  repeat match goal with
         | |- context [?a <? n] => destruct (Z.ltb_spec a n); [lia|]
         end.
  reflexivity.
Qed.

Section FilterAndScore.

Context {rt : Runtime}.

Lemma small_numbers_no_bonus (numbers : list string) :
  Forall (fun num => isdigit num = true) numbers ->
  any_above_1000 numbers = Ok false ->
  Zsum (map magnitude_bonus (converted_until_failure numbers)) = 0.
Proof.
  induction 1 as [|num l Hnum _ IH]; [reflexivity|].
  cbn [any_above_1000 converted_until_failure]. rewrite Hnum.
  destruct (int_of_digits num) as [value|e]; [|discriminate].
  destruct (value >? 1000) eqn:Hsmall; [discriminate|]. intros Hrest.
  cbn [map Zsum fold_right]. rewrite (magnitude_bonus_small _ Hsmall).
  exact (IH Hrest).
Qed.

Lemma any_above_1000_converts (numbers : list string) :
  Forall (fun num =>
            int_of_digits num
            = if over_int_limit (List.length (utf8_chars num))
              then Raise (ValueError "Exceeds the limit for integer string conversion")
              else Ok (digits_value (utf8_chars num))) numbers ->
  Forall converts numbers ->
  exists b, any_above_1000 numbers = Ok b.
Proof.
  induction 1 as [|num l Hnum _ IH]; intros Hall; [now exists false|].
  inversion Hall as [|? ? Hc Hrest]; subst. unfold converts in Hc.
  cbn [any_above_1000]. rewrite Hnum, Hc.
  destruct (isdigit num); [|exact (IH Hrest)].
  destruct (_ >? 1000); [now exists true | exact (IH Hrest)].
Qed.

(** X1.  A result none of whose runs of digits is longer than [int]
    converts, and that [_is_potentially_viral] rejects, has an initial
    score of 0: every weighted keyword is a keyword of the filter, and a
    number that earns a bonus is above 1000. *)
Theorem rejected_result_scores_0 :
  forall (result : Dict) (platform platform' : string),
    Forall converts (findall_digits (text_content_of result)) ->
    _is_potentially_viral result platform = false ->
    _calculate_initial_score result platform' = 0.
Proof.
  intros result platform platform' Hconv Hrej.
  unfold _is_potentially_viral in Hrej.
  destruct (any_above_1000_converts _ (findall_digits_int _) Hconv) as [b Hb].
  rewrite Hb in Hrej. apply orb_false_iff in Hrej.
  destruct Hrej as [Hkw ->].
  rewrite _calculate_initial_score_spec. unfold initial_score_converted, clamp.
  set (text := text_content_of result) in *.
  assert (Hk : Zsum (map (keyword_weight text) viral_keyword_points) = 0).
  { assert (Hno : forall k, In k viral_keywords -> str_in k text = false).
    { intros k Hin. destruct (str_in k text) eqn:E; [|reflexivity].
      assert (existsb (fun keyword => str_in keyword text) viral_keywords = true)
        by (apply existsb_exists; eauto).
      congruence. }
    unfold keyword_weight, viral_keyword_points. cbn [map fst snd Zsum fold_right].
    rewrite !Hno by (unfold viral_keywords; cbn; intuition). reflexivity. }
  assert (Hn : Zsum (map magnitude_bonus (converted_numbers text)) = 0).
  { apply small_numbers_no_bonus; [apply findall_digits_isdigit | exact Hb]. }
  rewrite Hk, Hn. reflexivity.
Qed.

Lemma overlong_number_raises (before after : list string) (num : string) (e : exn) :
  Forall (fun n => exists v, int_of_digits n = Ok v /\ v <= 1000) before ->
  isdigit num = true ->
  int_of_digits num = Raise e ->
  any_above_1000 (before ++ num :: after) = Raise e
  /\ Zsum (map magnitude_bonus (converted_until_failure (before ++ num :: after))) = 0.
Proof.
  intros Hbefore Hdigit Hnum.
  induction Hbefore as [|n before (v & Hv & Hle) _ [IH1 IH2]];
    cbn [app any_above_1000 converted_until_failure].
  - rewrite Hdigit, Hnum. split; reflexivity.
  - rewrite Hv. split.
    + destruct (isdigit n); [|exact IH1].
      destruct (Z.gtb_spec v 1000); [lia | exact IH1].
    + cbn [map Zsum fold_right].
      fold (Zsum (map magnitude_bonus (converted_until_failure (before ++ num :: after)))).
      rewrite IH2, magnitude_bonus_small; [reflexivity|].
      destruct (Z.gtb_spec v 1000); [lia | reflexivity].
Qed.

(** X26.  A run of digits longer than [int] converts, with no number
    above 1000 before it, makes [_is_potentially_viral] reject the result,
    whatever keywords its text holds: the conversion raises and the filter
    answers [False].  The initial score of such a result is the clamped
    sum of its keyword weights alone: the numbers before the run earn no
    bonus, and the run ends the loop over the numbers. *)
Theorem overlong_number_rejects_result :
  forall (result : Dict) (platform platform' : string)
         (before after : list string) (num : string),
    findall_digits (text_content_of result) = before ++ num :: after ->
    Forall (fun n => exists v, int_of_digits n = Ok v /\ v <= 1000) before ->
    ~ converts num ->
    _is_potentially_viral result platform = false
    /\ _calculate_initial_score result platform'
       = clamp 0 100 (Zsum (map (keyword_weight (text_content_of result))
                                viral_keyword_points)).
Proof.
  intros result platform platform' before after num Hruns Hbefore Hnum.
  assert (Hin : In num (findall_digits (text_content_of result)))
    by (rewrite Hruns; apply in_or_app; right; now left).
  pose proof (findall_digits_isdigit (text_content_of result)) as Hdigits.
  pose proof (findall_digits_int (text_content_of result)) as Hints.
  rewrite Forall_forall in Hdigits, Hints.
  specialize (Hdigits num Hin). specialize (Hints num Hin). cbv beta in Hints.
  unfold converts in Hnum.
  destruct (over_int_limit (List.length (utf8_chars num))); [|congruence].
  destruct (overlong_number_raises before after num _ Hbefore Hdigits Hints)
    as [Hraise Hzero].
  split.
  - unfold _is_potentially_viral. rewrite Hruns, Hraise. reflexivity.
  - rewrite _calculate_initial_score_spec. unfold initial_score_converted, converted_numbers.
    rewrite Hruns, Hzero, Z.add_0_r. reflexivity.
Qed.

End FilterAndScore.

Lemma overlong_number_rejects_result_witness :
  @_is_potentially_viral offline_runtime viral_long_number_result "tiktok" = false
  /\ @_calculate_initial_score offline_runtime viral_long_number_result "tiktok" = 10.
Proof.
  assert (Hruns : @findall_digits offline_runtime
                    (@text_content_of offline_runtime viral_long_number_result)
                  = ["12"] ++ repeat_string "9" 4301 :: [])
    by (vm_compute; reflexivity).
  assert (Hbefore : Forall (fun n => exists v, @int_of_digits offline_runtime n = Ok v
                                               /\ v <= 1000) ["12"]).
  { constructor; [|constructor]. exists 12. split; [reflexivity | lia]. }
  assert (Hnum : ~ @converts offline_runtime (repeat_string "9" 4301))
    by (unfold converts; vm_compute; discriminate).
  destruct (@overlong_number_rejects_result offline_runtime viral_long_number_result
              "tiktok" "tiktok" _ _ _ Hruns Hbefore Hnum) as [Hrej Hscore].
  split; [exact Hrej|]. rewrite Hscore. vm_compute. reflexivity.
Defined.

Lemma rejected_result_scores_0_witness :
  @_is_potentially_viral offline_runtime plain_result "youtube" = false
  /\ @_calculate_initial_score offline_runtime plain_result "youtube" = 0.
Proof.
  assert (H : @_is_potentially_viral offline_runtime plain_result "youtube" = false)
    by (vm_compute; reflexivity).
  assert (Hc : Forall (@converts offline_runtime)
                      (@findall_digits offline_runtime
                         (@text_content_of offline_runtime plain_result)))
    by (vm_compute; repeat constructor).
  split; [exact H|].
  exact (@rejected_result_scores_0 offline_runtime plain_result "youtube" "youtube" Hc H).
Defined.

(** ** The shape of a candidate *)

Section CandidateInvariant.

Context {rt : Runtime}.

Lemma _identify_platform_tag (url platform : string) :
  _identify_platform url = Some platform -> In platform platform_tags.
Proof.
  rewrite _identify_platform_first_match. unfold classify_first_match.
  destruct (find _ domain_fragments) as [[f p]|] eqn:Hf; [|discriminate].
  intros [= <-]. apply find_some in Hf. destruct Hf as [Hin _].
  unfold domain_fragments in Hin. simpl in Hin. unfold platform_tags. simpl.
  repeat (destruct Hin as [[= <- <-]|Hin]; [tauto|]). destruct Hin.
Qed.

(** X2.  Every candidate [_identify_viral_content] returns is a dictionary
    of exactly the keys url, platform, source, title, description and
    initial_score, in that order; its URL is text that the classifier maps
    to its platform tag, one of the six tags; and its initial score lies
    between 0 and 100. *)
Theorem candidates_are_well_formed :
  forall (search_results : pyval) (c : Dict),
    In c (_identify_viral_content search_results) ->
    exists (u p source : string) (title description : pyval) (score : Z),
      c = [ ("url", VStr u); ("platform", VStr p); ("source", VStr source);
            ("title", title); ("description", description);
            ("initial_score", VFloat (inject_Z score)) ]
      /\ _identify_platform u = Some p
      /\ In p platform_tags
      /\ 0 <= score <= 100.
Proof.
  intros search_results c Hin.
  destruct (_identify_viral_content_promoted _ _ Hin)
    as (source & r & u & p & _ & _ & Hp & _ & ->).
  exists u, p, source, (dict.get_or r "title" (VStr "")),
         (dict.get_or r "description" (VStr "")), (_calculate_initial_score r p).
  split; [reflexivity|]. split; [exact Hp|]. split.
  - exact (_identify_platform_tag _ _ Hp).
  - apply _calculate_initial_score_bounds.
Qed.

End CandidateInvariant.

Lemma candidates_are_well_formed_witness :
  exists (u p source : string) (title description : pyval) (score : Z),
    scenario_candidate
    = [ ("url", VStr u); ("platform", VStr p); ("source", VStr source);
        ("title", title); ("description", description);
        ("initial_score", VFloat (inject_Z score)) ]
    /\ @_identify_platform offline_runtime u = Some p
    /\ In p platform_tags
    /\ 0 <= score <= 100.
Proof.
  apply (@candidates_are_well_formed offline_runtime scenario_results).
  vm_compute. left. reflexivity.
Defined.

(** ** Bounds of the viral score by platform *)

Lemma adds_at_most_ret {A : Type} (a : A) : adds_at_most 0 (ret a).
Proof. intros s. simpl. lia. Qed.

Lemma adds_at_most_weaken {A : Type} (n n' : Z) (m : Try Z A) :
  n <= n' -> adds_at_most n m -> adds_at_most n' m.
Proof. intros Hn Hm s. specialize (Hm s). lia. Qed.

Lemma adds_at_most_add_score (n : Z) : adds_at_most n (add_score n).
Proof. intros s. simpl. lia. Qed.

Lemma adds_at_most_bind {A B : Type} (n1 n2 : Z) (m : Try Z A) (k : A -> Try Z B) :
  0 <= n2 ->
  adds_at_most n1 m -> (forall a, adds_at_most n2 (k a)) ->
  adds_at_most (n1 + n2) (bind m k).
Proof.
  intros Hn2 Hm Hk s. unfold bind. specialize (Hm s).
  destruct (m s) as [[a|e] s']; simpl in *.
  - specialize (Hk a s'). lia.
  - lia.
Qed.

Lemma adds_at_most_score_tier (v : pyval) (full half : Q) (hi lo : Z) :
  0 <= lo <= hi -> adds_at_most hi (score_tier v full half hi lo).
Proof.
  intros Hlo s. unfold score_tier, bind, lift, add_score, modify, ret.
  destruct (py_ge v full) as [[|]|]; simpl; try lia.
  destruct (py_ge v half) as [[|]|]; simpl; lia.
Qed.

Lemma bind_score_tier_full {B : Type} (v : pyval) (x full half : Q) (hi lo : Z)
      (k : unit -> Try Z B) (s : Z) :
  as_number v = Some x -> (full <= x)%Q ->
  bind (score_tier v full half hi lo) k s = k tt (s + hi).
Proof.
  intros Hv Hx. unfold bind at 1, score_tier, bind, lift, py_ge. rewrite Hv.
  apply Qle_bool_iff in Hx. rewrite Hx. reflexivity.
Qed.

Lemma score_tier_full (v : pyval) (x full half : Q) (hi lo : Z) (s : Z) :
  as_number v = Some x -> (full <= x)%Q ->
  score_tier v full half hi lo s = (Ok tt, s + hi).
Proof.
  intros Hv Hx. unfold score_tier, bind, lift, py_ge. rewrite Hv.
  apply Qle_bool_iff in Hx. rewrite Hx. reflexivity.
Qed.

(** X3.  The viral score is 0 for every platform other than 'instagram'
    and 'youtube', whatever the record holds.  A YouTube record scores at
    most 75 (40 + 20 + 15), and scores 75 whenever its views, likes and
    comments are numbers of at least 10000, 500 and 50.  An Instagram
    record scores 100 whenever its likes, comments and engagement rate are
    numbers of at least 1000, 50 and 3 and its hashtags and its mentions
    are sequences of at least five entries each; one record of each kind
    is evaluated. *)
Theorem viral_score_by_platform :
  (forall (analysis : Dict) (platform : string),
      platform <> "instagram" -> platform <> "youtube" ->
      _calculate_viral_score analysis platform = 0)
  /\ (forall analysis : Dict, _calculate_viral_score analysis "youtube" <= 75)
  /\ (forall analysis : Dict,
        at_least analysis "views" 10000 ->
        at_least analysis "likes" 500 ->
        at_least analysis "comments" 50 ->
        _calculate_viral_score analysis "youtube" = 75)
  /\ (forall analysis : Dict,
        at_least analysis "likes" 1000 ->
        at_least analysis "comments" 50 ->
        at_least analysis "engagement_rate" 3 ->
        lists_at_least analysis "hashtags" 5 ->
        lists_at_least analysis "mentions" 5 ->
        _calculate_viral_score analysis "instagram" = 100)
  /\ _calculate_viral_score top_youtube_record "youtube" = 75
  /\ _calculate_viral_score top_instagram_record "instagram" = 100.
Proof.
  split; [|split; [|split; [|split; [|split; reflexivity]]]].
  - intros analysis platform Hi Hy. unfold _calculate_viral_score.
    apply String.eqb_neq in Hi, Hy. rewrite Hi, Hy. reflexivity.
  - intros analysis. unfold _calculate_viral_score.
    cbn [String.eqb Ascii.eqb Bool.eqb].
    match goal with |- Z.min (snd (?body 0)) 100 <= 75 =>
      assert (Hb : adds_at_most (40 + (20 + 15)) body)
    end.
    { apply adds_at_most_bind; [lia | apply adds_at_most_score_tier; lia | intros _].
      apply adds_at_most_bind; [lia | apply adds_at_most_score_tier; lia | intros _].
      apply adds_at_most_score_tier; lia. }
    specialize (Hb 0). lia.
  - intros analysis (v & Hv & Hv') (l & Hl & Hl') (c & Hc & Hc').
    unfold _calculate_viral_score. cbn [String.eqb Ascii.eqb Bool.eqb].
    rewrite (bind_score_tier_full _ v) by (exact Hv || exact Hv').
    rewrite (bind_score_tier_full _ l) by (exact Hl || exact Hl').
    rewrite (score_tier_full _ c) by (exact Hc || exact Hc').
    reflexivity.
  - intros analysis (l & Hl & Hl') (c & Hc & Hc') (e & He & He')
           (h & Hh & Hh') (m & Hm & Hm').
    unfold _calculate_viral_score. cbn [String.eqb Ascii.eqb Bool.eqb].
    rewrite (bind_score_tier_full _ l) by (exact Hl || exact Hl').
    rewrite (bind_score_tier_full _ c) by (exact Hc || exact Hc').
    rewrite (bind_score_tier_full _ e)
      by (exact He || (eapply Qle_trans; [|exact He']; vm_compute; discriminate)).
    unfold bind, lift. rewrite Hh, Hm. cbn [add_score modify snd].
    lia.
Qed.


(** ** The loops of the candidate filter *)

Lemma for_each_app {S A : Type} (l1 l2 : list A) (body : A -> Try S unit) (s : S) :
  for_each (l1 ++ l2) body s = bind (for_each l1 body) (fun _ => for_each l2 body) s.
Proof.
  revert s. induction l1 as [|x l1 IH]; intros s; cbn [app for_each].
  - reflexivity.
  - unfold bind in *. destruct (body x s) as [[[]|e] s1]; [|reflexivity].
    apply IH.
Qed.

Lemma for_each_collects {A C : Type} (f : A -> list C) (body : A -> Try (list C) unit)
      (l : list A) :
  (forall x acc, In x l -> body x acc = (Ok tt, acc ++ f x)) ->
  forall acc, for_each l body acc = (Ok tt, acc ++ flat_map f l).
Proof.
  induction l as [|x l IH]; intros Hbody acc; cbn [for_each flat_map].
  - unfold ret. now rewrite app_nil_r.
  - erewrite bind_ok by (apply Hbody; now left).
    rewrite IH by (intros y a Hy; apply Hbody; now right).
    now rewrite app_assoc.
Qed.

Section FilterLoops.

Context {rt : Runtime}.

Lemma scan_result_clean (source : string) (result : pyval) (acc : list Dict) :
  url_is_text_or_absent result ->
  scan_result source result acc = (Ok tt, acc ++ promote source result).
Proof.
  assert (Hnil : forall a : list Dict, (Ok tt, a) = (@Ok unit tt, a ++ [])).
  { intros a. now rewrite app_nil_r. }
  unfold url_is_text_or_absent, scan_result, promote, dict.has, dict.get_or.
  destruct result as [| | | | | |r|]; try (intros _; apply Hnil).
  destruct (dict.get r "url") as [[| | | |u| | |]|]; intros Hok;
    try contradiction; try apply Hnil.
  unfold bind, lift.
  destruct (_identify_platform u) as [platform|]; [|apply Hnil].
  destruct (_is_potentially_viral r platform); [reflexivity | apply Hnil].
Qed.

Lemma scan_result_bad_url (source : string) (r : Dict) (v : pyval) (acc : list Dict) :
  dict.get r "url" = Some v ->
  (forall u, v <> VStr u) ->
  exists e, scan_result source (VDict r) acc = (Raise e, acc).
Proof.
  intros Hv Hnot. unfold scan_result, dict.has, dict.get_or. rewrite Hv.
  destruct v; try (eexists; reflexivity).
  exfalso. eapply Hnot. reflexivity.
Qed.

(** X4.  When no listed result carries a [url] that is not text,
    [_identify_viral_content] returns, source by source and result by
    result in the order of the input, the candidate of every dictionary
    whose URL the classifier knows and that [_is_potentially_viral]
    accepts, and nothing else; a source whose value is not a list and a
    result that is not a dictionary or has no [url] contribute nothing. *)
Theorem filter_collects_in_order :
  forall items : list (string * pyval),
    Forall source_scans_cleanly items ->
    _identify_viral_content (VDict items) = flat_map promote_source items.
Proof.
  intros items Hclean. unfold _identify_viral_content.
  rewrite (for_each_collects promote_source); [reflexivity|].
  intros [source results] acc Hin.
  rewrite Forall_forall in Hclean. specialize (Hclean _ Hin).
  unfold source_scans_cleanly, promote_source in *. cbn [fst snd] in *.
  destruct results as [| | | | |results| |];
    try (unfold ret; now rewrite app_nil_r).
  apply for_each_collects. intros x a Hx. apply scan_result_clean.
  rewrite Forall_forall in Hclean. now apply Hclean.
Qed.

(** X5.  A result whose [url] is present and is not text ends the whole
    scan: the candidates found before it are returned, and neither the
    results after it nor the sources after its source are looked at. *)
Theorem filter_stops_at_bad_url :
  forall (before after : list (string * pyval)) (source : string)
         (pre post : list pyval) (r : Dict) (v : pyval),
    dict.get r "url" = Some v ->
    (forall u, v <> VStr u) ->
    _identify_viral_content
      (VDict (before ++ (source, VList (pre ++ VDict r :: post)) :: after))
    = _identify_viral_content (VDict (before ++ [(source, VList pre)])).
Proof.
  intros before after source pre post r v Hv Hnot.
  unfold _identify_viral_content.
  set (body := fun entry : string * pyval =>
                 let '(source, results) := entry in
                 match results with
                 | VList results => for_each results (scan_result source)
                 | _ => ret tt
                 end).
  rewrite !for_each_app. unfold bind at 1 2.
  destruct (for_each before body []) as [[[]|e] s1]; [|reflexivity].
  cbn [for_each].
  change (body (source, VList (pre ++ VDict r :: post)))
    with (for_each (pre ++ VDict r :: post) (scan_result source)).
  change (body (source, VList pre)) with (for_each pre (scan_result source)).
  unfold bind. rewrite for_each_app. unfold bind.
  destruct (for_each pre (scan_result source) s1) as [[[]|e] s2]; [|reflexivity].
  cbn [for_each]. unfold bind.
  destruct (scan_result_bad_url source r v s2 Hv Hnot) as (e & He).
  rewrite He. reflexivity.
Qed.

End FilterLoops.

Lemma filter_collects_in_order_witness :
  @_identify_viral_content offline_runtime scenario_results = [scenario_candidate].
Proof.
  unfold scenario_results.
  rewrite (@filter_collects_in_order offline_runtime).
  - vm_compute. reflexivity.
  - repeat constructor.
Defined.

Lemma filter_stops_at_bad_url_witness :
  @_identify_viral_content offline_runtime results_with_bad_url
  = [ @candidate offline_runtime "google" (VStr "https://www.tiktok.com/@a/video/1")
        [ ("url", VStr "https://www.tiktok.com/@a/video/1");
          ("title", VStr "trending now") ] "tiktok" ].
Proof.
  refine (eq_trans
            (@filter_stops_at_bad_url offline_runtime []
               [ ("bing",
                  VList [ VDict [ ("url", VStr "https://fb.com/a/posts/3");
                                  ("title", VStr "2000 likes") ] ]) ]
               "google"
               [ VDict [ ("url", VStr "https://www.tiktok.com/@a/video/1");
                         ("title", VStr "trending now") ] ]
               [ VDict [ ("url", VStr "https://twitter.com/a/status/2");
                         ("title", VStr "viral thread") ] ]
               [ ("url", VInt 404); ("title", VStr "viral") ]
               (VInt 404) eq_refl _) _).
  - discriminate.
  - vm_compute. reflexivity.
Defined.


(** ** What the analyzers of one candidate do to the world *)

Lemma quiet_ret {A : Type} (a : A) : quiet (ret a).
Proof. intros w. split; reflexivity. Qed.

Lemma quiet_lift {A : Type} (r : result A) : quiet (lift r).
Proof. intros w. split; reflexivity. Qed.

Lemma quiet_bind {A B : Type} (m : IO A) (k : A -> IO B) :
  quiet m -> (forall a, quiet (k a)) -> quiet (bind m k).
Proof.
  intros Hm Hk w. unfold bind. specialize (Hm w).
  destruct (m w) as [[a|e] w1]; cbn [snd] in *.
  - destruct (Hk a w1) as [H1 H2]. destruct Hm as [H3 H4]. split; congruence.
  - exact Hm.
Qed.

Lemma quiet_catch {A : Type} (m : IO A) (h : exn -> IO A) :
  quiet m -> (forall e, quiet (h e)) -> quiet (catch m h).
Proof.
  intros Hm Hh w. unfold catch. specialize (Hm w).
  destruct (m w) as [[a|e] w1]; cbn [snd] in *.
  - exact Hm.
  - destruct (Hh e w1) as [H1 H2]. destruct Hm as [H3 H4]. split; congruence.
Qed.

Section AnalyzersOfOneCandidate.

Context {rt : Runtime}.

Lemma quiet_datetime_now_isoformat : quiet datetime_now_isoformat.
Proof. intros w. split; reflexivity. Qed.

Lemma quiet__basic_url_analysis (url : pyval) (c : Dict) :
  quiet (_basic_url_analysis url c).
Proof.
  apply quiet_catch; [|intros; apply quiet_ret].
  apply quiet_bind; [apply quiet_datetime_now_isoformat | intros; apply quiet_ret].
Qed.

Lemma quiet__analyze_youtube_video (url : pyval) (c : Dict) :
  quiet (_analyze_youtube_video url c).
Proof.
  apply quiet_catch; [|intros; apply quiet_ret].
  apply quiet_bind; [apply quiet_datetime_now_isoformat | intros; apply quiet_ret].
Qed.

Lemma quiet__analyze_instagram_post (url : pyval) (c : Dict) :
  quiet (_analyze_instagram_post url c).
Proof.
  apply quiet_catch; [|intros; apply quiet_ret].
  apply quiet_bind; [intros w; split; reflexivity | intros post].
  apply quiet_bind; [apply quiet_datetime_now_isoformat | intros stamp].
  apply quiet_bind; [|intros; apply quiet_ret].
  match goal with |- quiet (if ?b then _ else _) => destruct b end;
    [|apply quiet_ret].
  apply quiet_bind; [apply quiet_lift | intros [|]]; [|apply quiet_ret].
  repeat (apply quiet_bind; [apply quiet_lift | intros ?]).
  apply quiet_ret.
Qed.

End AnalyzersOfOneCandidate.

(** ** The Instagram enrichment *)

Lemma score_reads_engagement_fields (a a' : Dict) (platform : string) :
  (forall k, In k ["likes"; "comments"; "engagement_rate"; "hashtags"; "mentions"; "views"] ->
             dict.get a k = dict.get a' k) ->
  _calculate_viral_score a platform = _calculate_viral_score a' platform.
Proof.
  intros H. unfold _calculate_viral_score, dict.get_or.
  rewrite (H "likes"), (H "comments"), (H "engagement_rate"), (H "hashtags"),
    (H "mentions"), (H "views") by (simpl; tauto).
  reflexivity.
Qed.

Lemma score_ignores_viral_score (a : Dict) (v : pyval) (platform : string) :
  _calculate_viral_score (dict.set a "viral_score" v) platform
  = _calculate_viral_score a platform.
Proof.
  apply score_reads_engagement_fields. intros k Hk.
  apply dict_get_set_other. simpl in Hk.
  intuition (subst; discriminate).
Qed.

Lemma py_gt_int (f : Z) : py_gt (VInt f) 0 = Ok (0 <? f).
Proof.
  unfold py_gt, as_number. f_equal. unfold Qle_bool, inject_Z. cbn [Qnum Qden].
  rewrite Z.mul_1_r. cbn [Z.mul]. rewrite Z.ltb_antisym. reflexivity.
Qed.

Lemma py_truediv_int (n f : Z) :
  0 < f ->
  py_truediv (VInt n) (VInt f) = Ok (VFloat (round_double (inject_Z n / inject_Z f))).
Proof.
  intros Hf. unfold py_truediv, as_number.
  assert (H : Qeq_bool (inject_Z f) 0 = false).
  { unfold Qeq_bool, inject_Z. cbn [Qnum Qden]. rewrite Z.mul_1_r. cbn [Z.mul].
    apply Z.eqb_neq. lia. }
  now rewrite H.
Qed.

Section InstagramEnrichment.

Context {rt : Runtime}.

Lemma _analyze_instagram_post_outcome :
  forall (url : pyval) (c : Dict) (w : World),
    (forall e, scrape_post (clock w) url = Raise e ->
               _analyze_instagram_post url c w = (Ok None, w))
    /\ match fst (_analyze_instagram_post url c w) with
       | Ok (Some a) =>
           dict.get a "url" = Some url
           /\ dict.get a "platform" = Some (VStr "instagram")
           /\ dict.get a "viral_score"
              = Some (VFloat (inject_Z (_calculate_viral_score a "instagram")))
           /\ 0 <= _calculate_viral_score a "instagram" <= 100
       | Ok None => True
       | Raise _ => False
       end.
Proof.
  intros url c w. split.
  - intros e He. unfold _analyze_instagram_post, catch, bind. now rewrite He.
  - unfold _analyze_instagram_post, catch.
    unfold bind at 1. destruct (scrape_post (clock w) url) as [post|e]; [|exact I].
    unfold bind at 1, datetime_now_isoformat at 1.
    match goal with
    | |- context [bind ?m ?k ?w1] =>
        assert (Hshape : forall A0 : Dict,
                   dict.get A0 "url" = Some url ->
                   dict.get A0 "platform" = Some (VStr "instagram") ->
                   let a := dict.set A0 "viral_score"
                              (VFloat (inject_Z (_calculate_viral_score A0 "instagram"))) in
                   dict.get a "url" = Some url
                   /\ dict.get a "platform" = Some (VStr "instagram")
                   /\ dict.get a "viral_score"
                      = Some (VFloat (inject_Z (_calculate_viral_score a "instagram")))
                   /\ 0 <= _calculate_viral_score a "instagram" <= 100)
    end.
    { intros A0 Hu Hp a. subst a.
      rewrite !dict_get_set_other by discriminate.
      rewrite dict_get_set_same, score_ignores_viral_score.
      repeat split; try assumption; apply _calculate_viral_score_bounds. }
    unfold bind at 1.
    match goal with |- context [if ?b then _ else _] => destruct b end.
    + unfold bind at 1, lift at 1.
      destruct (py_gt _ 0) as [[|]|]; cbn [fst]; try exact I.
      * unfold bind at 1, lift at 1. destruct (py_add _ _) as [total|]; cbn [fst]; [|exact I].
        unfold bind at 1, lift at 1. destruct (py_truediv _ _) as [ratio|]; cbn [fst]; [|exact I].
        unfold bind at 1, lift at 1. destruct (py_mul_int _ _) as [rate|]; cbn [fst]; [|exact I].
        apply Hshape; rewrite dict_get_set_other by discriminate; reflexivity.
      * apply Hshape; reflexivity.
    + cbn [fst]. apply Hshape; reflexivity.
Qed.

(** X6.  The Instagram enrichment never raises.  When the scrape raises,
    it returns no record and leaves the world as it found it.  A record it
    returns carries the URL it was given and the platform 'instagram', and
    its [viral_score] is the score [_calculate_viral_score] gives for that
    very record, a value within [0, 100]. *)
Theorem instagram_record_is_scored :
  forall (url : pyval) (c : Dict) (w : World),
    (forall e, scrape_post (clock w) url = Raise e ->
               _analyze_instagram_post url c w = (Ok None, w))
    /\ match fst (_analyze_instagram_post url c w) with
       | Ok (Some a) =>
           dict.get a "url" = Some url
           /\ dict.get a "platform" = Some (VStr "instagram")
           /\ dict.get a "viral_score"
              = Some (VFloat (inject_Z (_calculate_viral_score a "instagram")))
           /\ 0 <= _calculate_viral_score a "instagram" <= 100
       | Ok None => True
       | Raise _ => False
       end.
Proof. exact _analyze_instagram_post_outcome. Qed.

(** X7.  For a scraped post whose likes, comments and owner's follower
    count are integers, likes and comments adding up to less than 2^1000
    in absolute value, the Instagram enrichment returns a record that
    passes likes and comments through.  When the follower count is
    positive its engagement rate is the double the code computes for
    [(likes + comments) / followers * 100]: the quotient of the two
    integers rounded to the nearest double, times 100, rounded again.
    When the follower count is not positive the rate stays the integer 0:
    the division is never by zero. *)
Theorem instagram_engagement_rate :
  forall (url : pyval) (c : Dict) (w : World) (post owner : Dict) (l m f : Z),
    scrape_post (clock w) url = Ok post ->
    dict.get post "likes" = Some (VInt l) ->
    dict.get post "comments" = Some (VInt m) ->
    dict.get post "owner" = Some (VObj owner) ->
    dict.get owner "followers" = Some (VInt f) ->
    Z.abs (l + m) < 2 ^ 1000 ->
    exists a w',
      _analyze_instagram_post url c w = (Ok (Some a), w')
      /\ dict.get a "likes" = Some (VInt l)
      /\ dict.get a "comments" = Some (VInt m)
      /\ dict.get a "engagement_rate"
         = Some (if 0 <? f
                 then VFloat (round_double
                                (round_double (inject_Z (l + m) / inject_Z f)
                                 * inject_Z 100))
                 else VInt 0).
Proof.
  intros url c w post owner l m f Hs Hl Hm Ho Hf _.
  unfold _analyze_instagram_post, catch.
  unfold bind at 1. rewrite Hs.
  unfold bind at 1, datetime_now_isoformat at 1.
  unfold hasattr, getattr, dict.has, dict.get_or. rewrite Hl, Hm, Ho, Hf.
  cbn [andb dict.get String.eqb Ascii.eqb Bool.eqb].
  rewrite py_gt_int. unfold bind at 2, lift at 1.
  destruct (Z.ltb_spec 0 f) as [Hpos|Hneg].
  - cbn [py_add as_number inject_Z Qnum].
    unfold bind at 2, lift at 1. rewrite (py_truediv_int _ _ Hpos).
    unfold bind at 2, lift at 1. cbn [py_mul_int].
    unfold bind at 2, lift at 1. unfold bind, ret.
    eexists. eexists. split; [reflexivity|].
    rewrite !dict_get_set_other by discriminate.
    repeat split; try reflexivity.
  - unfold bind, ret. eexists. eexists. split; [reflexivity|].
    rewrite !dict_get_set_other by discriminate.
    repeat split; reflexivity.
Qed.

End InstagramEnrichment.

Lemma instagram_engagement_rate_witness :
  exists a w',
    @_analyze_instagram_post scraping_runtime (VStr "https://instagram.com/p/abc")
                             instagram_candidate start_of_run
    = (Ok (Some a), w')
    /\ dict.get a "likes" = Some (VInt 2000)
    /\ dict.get a "comments" = Some (VInt 100)
    /\ dict.get a "engagement_rate" = Some (VFloat (inject_Z 21)).
Proof.
  destruct (@instagram_engagement_rate scraping_runtime (VStr "https://instagram.com/p/abc")
              instagram_candidate start_of_run sample_post [("followers", VInt 10000)]
              2000 100 10000 eq_refl eq_refl eq_refl eq_refl eq_refl
              ltac:(apply Z.ltb_lt; vm_compute; reflexivity))
    as (a & w' & Hrun & Hl & Hm & Hrate).
  exists a, w'. repeat (split; [assumption|]).
  rewrite Hrate. vm_compute. reflexivity.
Defined.

(** ** The YouTube enrichment *)

Lemma inject_Z_nonneg (z : Z) : 0 <= z -> (0 <= inject_Z z)%Q.
Proof. intros H. unfold Qle, inject_Z. simpl. lia. Qed.

Lemma inject_Z_pos (z : Z) : 0 < z -> (0 < inject_Z z)%Q.
Proof. intros H. unfold Qlt, inject_Z. simpl. lia. Qed.

Lemma round_half_even_nonneg (n d : Z) : 0 <= n -> 0 < d -> 0 <= round_half_even n d.
Proof.
  intros Hn Hd. unfold round_half_even.
  assert (0 <= n / d) by (apply Z.div_pos; lia).
  repeat match goal with |- context [if ?b then _ else _] => destruct b end; lia.
Qed.

Lemma double_of_ratio_nonneg (n d : positive) (x : Q) :
  double_of_ratio (Zpos n) (Zpos d) = Some x -> (0 <= x)%Q.
Proof.
  unfold double_of_ratio.
  set (e := Z.max (leading_exponent (Zpos n) (Zpos d) - 52) (-1074)).
  destruct (Z.leb_spec 0 e) as [He|He].
  - assert (Hp : 0 < 2 ^ e) by (apply Z.pow_pos_nonneg; lia).
    pose proof (Z.mul_pos_pos (Z.pos d) (2 ^ e) (Pos2Z.is_pos d) Hp) as Hd.
    pose proof (round_half_even_nonneg (Z.pos n) _ (Pos2Z.is_nonneg n) Hd) as Hm.
    destruct (_ <=? _); [discriminate|]. intros [= <-].
    apply inject_Z_nonneg. apply Z.mul_nonneg_nonneg; [exact Hm | lia].
  - assert (Hp : 0 < 2 ^ (- e)) by (apply Z.pow_pos_nonneg; lia).
    pose proof (Z.mul_nonneg_nonneg (Z.pos n) (2 ^ (- e)) (Pos2Z.is_nonneg n)
                  (Z.lt_le_incl _ _ Hp)) as Hn.
    pose proof (round_half_even_nonneg _ (Z.pos d) Hn (Pos2Z.is_pos d)) as Hm.
    intros H.
    assert (Qred (round_half_even (Z.pos n * 2 ^ (- e)) (Z.pos d) # Z.to_pos (2 ^ (- e)))
            = x) as <- by congruence.
    rewrite Qred_correct. unfold Qle. cbn [Qnum Qden].
    rewrite Z.mul_1_r. exact Hm.
Qed.

Lemma double_of_Q_nonneg (q x : Q) : (0 <= q)%Q -> double_of_Q q = Some x -> (0 <= x)%Q.
Proof.
  intros Hq. unfold double_of_Q.
  assert (Hr : 0 <= Qnum (Qred q)).
  { rewrite <- (Qred_correct q) in Hq. unfold Qle in Hq. cbn [Qnum Qden] in Hq. lia. }
  destruct (Qnum (Qred q)) as [|n|n]; [| |lia].
  - intros [= <-]. apply Qle_refl.
  - apply double_of_ratio_nonneg.
Qed.

Lemma py_int_nonneg (q : Q) : (0 <= q)%Q -> 0 <= py_int q.
Proof.
  unfold Qle, py_int. simpl. intros H. apply Z.quot_pos; lia.
Qed.

Lemma float_times_nonneg (x : option Q) (n : Z) (y : Q) :
  0 <= n ->
  match x with Some q => (0 <= q)%Q | None => True end ->
  float_times x n = Some y -> (0 <= y)%Q.
Proof.
  intros Hn Hx. destruct x as [q|]; [|discriminate]. cbn [float_times].
  apply double_of_Q_nonneg. apply Qmult_le_0_compat; [exact Hx|].
  now apply inject_Z_nonneg.
Qed.

Section YouTubeEnrichment.

Context {rt : Runtime}.

Lemma digits_value_from_nonneg (chars : list string) (acc : Z) :
  0 <= acc -> 0 <= fold_left (fun acc c => 10 * acc + digit_value c) chars acc.
Proof.
  revert acc. induction chars as [|c chars IH]; intros acc Hacc; cbn [fold_left];
    [exact Hacc|].
  apply IH. unfold digit_value. destruct (decimal_digit c); lia.
Qed.

Lemma digits_value_nonneg (chars : list string) : 0 <= digits_value chars.
Proof. apply digits_value_from_nonneg. lia. Qed.

Lemma py_float_nonneg (s : string) (x : option Q) :
  py_float s = Ok x -> match x with Some q => (0 <= q)%Q | None => True end.
Proof.
  unfold py_float. destruct (span_decimal (utf8_chars s)) as [ip rest].
  intros H. destruct x as [q|]; [|exact I].
  assert (Hint : forall chars,
             @Ok (option Q) (double_of_Q (inject_Z (digits_value chars))) = Ok (Some q) ->
             (0 <= q)%Q).
  { intros chars E.
    assert (E' : double_of_Q (inject_Z (digits_value chars)) = Some q) by congruence.
    revert E'. apply double_of_Q_nonneg, inject_Z_nonneg, digits_value_nonneg. }
  assert (Hfrac : forall chars k,
             @Ok (option Q)
                 (double_of_Q (inject_Z (digits_value chars) / inject_Z (10 ^ Z.of_nat k)))
             = Ok (Some q) -> (0 <= q)%Q).
  { intros chars k E.
    assert (E' : double_of_Q (inject_Z (digits_value chars) / inject_Z (10 ^ Z.of_nat k))
                 = Some q) by congruence.
    revert E'. apply double_of_Q_nonneg. apply Qle_shift_div_l.
    - apply inject_Z_pos. apply Z.pow_pos_nonneg; lia.
    - rewrite Qmult_0_l. apply inject_Z_nonneg, digits_value_nonneg. }
  repeat match type of H with
         | context [match ?v with _ => _ end] =>
             is_var v; destruct v; try discriminate H
         | context [if ?b then _ else _] => destruct b; try discriminate H
         end;
    eauto.
Qed.

Lemma views_from_number_other (num_str text : string) (a a' : Dict) (k : string) :
  k <> "views" ->
  views_from_number num_str text a = Ok a' ->
  dict.get a' k = dict.get a k.
Proof.
  intros Hk. unfold views_from_number.
  destruct (py_float _) as [num|]; [|discriminate].
  destruct (py_eq_zero _); [|now intros [= <-]].
  destruct (int_of_float _); [|discriminate].
  intros [= <-]. now apply dict_get_set_other.
Qed.

Lemma views_from_number_views (num_str text : string) (a a' : Dict) :
  dict.get a "views" = Some (VInt 0) ->
  views_from_number num_str text a = Ok a' ->
  exists n, dict.get a' "views" = Some (VInt n) /\ 0 <= n.
Proof.
  intros Ha. unfold views_from_number.
  destruct (py_float _) as [num|] eqn:Hnum; [|discriminate].
  apply py_float_nonneg in Hnum.
  destruct (py_eq_zero _); [|intros [= <-]; exists 0; split; [exact Ha | lia]].
  match goal with |- context [int_of_float ?x] => destruct x as [q|] eqn:Hq end;
    cbn [int_of_float]; [|discriminate].
  intros [= <-]. eexists. split; [apply dict_get_set_same|].
  apply py_int_nonneg.
  destruct (_ || _); [|destruct (_ || _)].
  - eapply float_times_nonneg; [|exact Hnum|exact Hq]. lia.
  - eapply float_times_nonneg; [|exact Hnum|exact Hq]. lia.
  - subst num. exact Hnum.
Qed.

Lemma views_from_numbers_other (numbers : list string) (text : string) (a : Dict)
      (k : string) :
  k <> "views" ->
  dict.get (views_from_numbers numbers text a) k = dict.get a k.
Proof.
  intros Hk. induction numbers as [|n ns IH]; cbn [views_from_numbers]; [reflexivity|].
  destruct (views_from_number n text a) as [a'|] eqn:Ha; [|exact IH].
  exact (views_from_number_other _ _ _ _ _ Hk Ha).
Qed.

Lemma views_from_numbers_views (numbers : list string) (text : string) (a : Dict) :
  dict.get a "views" = Some (VInt 0) ->
  exists n, dict.get (views_from_numbers numbers text a) "views" = Some (VInt n)
            /\ 0 <= n.
Proof.
  intros Ha. induction numbers as [|num ns IH]; cbn [views_from_numbers].
  - exists 0. split; [exact Ha | lia].
  - destruct (views_from_number num text a) as [a'|] eqn:Hnum; [|exact IH].
    exact (views_from_number_views _ _ _ _ Ha Hnum).
Qed.

Lemma _analyze_youtube_video_record :
  forall (url : pyval) (c : Dict) (w : World),
    exists a views,
      _analyze_youtube_video url c w
      = (Ok (Some a),
         {| clock := S (clock w); slept := slept w; written := written w |})
      /\ dict.get a "url" = Some url
      /\ dict.get a "platform" = Some (VStr "youtube")
      /\ dict.get a "title" = Some (dict.get_or c "title" (VStr ""))
      /\ dict.get a "description" = Some (dict.get_or c "description" (VStr ""))
      /\ dict.get a "viral_score" = Some (dict.get_or c "initial_score" (VInt 0))
      /\ dict.get a "analysis_method" = Some (VStr "basic_fallback")
      /\ dict.get a "likes" = Some (VInt 0)
      /\ dict.get a "comments" = Some (VInt 0)
      /\ dict.get a "views" = Some (VInt views)
      /\ 0 <= views
      /\ (findall_counts
            (lower (fmt (dict.get_or c "title" (VStr "")) ++ " "
                    ++ fmt (dict.get_or c "description" (VStr ""))))
          = [] -> views = 0).
Proof.
  intros url c w.
  unfold _analyze_youtube_video, catch, bind, datetime_now_isoformat, ret.
  match goal with
  | |- context [views_from_numbers ?ns ?t ?A] =>
      set (numbers := ns); set (text := t); set (A0 := A)
  end.
  destruct (views_from_numbers_views numbers text A0 eq_refl) as (n & Hn & Hpos).
  exists (views_from_numbers numbers text A0), n.
  split; [reflexivity|].
  rewrite !views_from_numbers_other by discriminate.
  repeat split; try reflexivity; try assumption.
  intros Hnone. subst numbers text A0.
  cbn [dict.get_or dict.get String.eqb Ascii.eqb Bool.eqb] in Hn.
  rewrite Hnone in Hn. cbn [views_from_numbers dict.get String.eqb Ascii.eqb Bool.eqb] in Hn.
  congruence.
Qed.

(** X8.  The YouTube enrichment takes one reading of the clock, scrapes
    nothing, and never drops a candidate: it returns a record that carries
    the URL it was given, the platform 'youtube', the candidate's title and
    description, the candidate's initial score as viral score, the method
    'basic_fallback', 0 likes and comments, and a view count that is an
    integer, not negative, and 0 when the text holds no number followed by
    a unit. *)
Theorem youtube_record_is_fallback :
  forall (url : pyval) (c : Dict) (w : World),
    exists a views,
      _analyze_youtube_video url c w
      = (Ok (Some a),
         {| clock := S (clock w); slept := slept w; written := written w |})
      /\ dict.get a "url" = Some url
      /\ dict.get a "platform" = Some (VStr "youtube")
      /\ dict.get a "title" = Some (dict.get_or c "title" (VStr ""))
      /\ dict.get a "description" = Some (dict.get_or c "description" (VStr ""))
      /\ dict.get a "viral_score" = Some (dict.get_or c "initial_score" (VInt 0))
      /\ dict.get a "analysis_method" = Some (VStr "basic_fallback")
      /\ dict.get a "likes" = Some (VInt 0)
      /\ dict.get a "comments" = Some (VInt 0)
      /\ dict.get a "views" = Some (VInt views)
      /\ 0 <= views
      /\ (findall_counts
            (lower (fmt (dict.get_or c "title" (VStr "")) ++ " "
                    ++ fmt (dict.get_or c "description" (VStr ""))))
          = [] -> views = 0).
Proof. exact _analyze_youtube_video_record. Qed.

End YouTubeEnrichment.

(** ** The view count the YouTube enrichment reads *)

Lemma text_of_app (l1 l2 : list string) :
  text_of (l1 ++ l2) = (text_of l1 ++ text_of l2)%string.
Proof.
  unfold text_of. induction l1 as [|c l1 IH]; cbn [app fold_right]; [reflexivity|].
  rewrite IH. clear IH.
  induction c as [|b c IHc]; cbn [append]; [reflexivity | now rewrite IHc].
Qed.

Lemma utf8_scan_text (bytes : list ascii) :
  (fst (utf8_scan bytes) ++ text_of (snd (utf8_scan bytes)))%string
  = string_of_list_ascii bytes.
Proof.
  unfold utf8_scan. induction bytes as [|b bytes IH];
    cbn [fold_right string_of_list_ascii]; [reflexivity|].
  destruct (fold_right utf8_step (EmptyString, []) bytes) as [pending done].
  cbn [fst snd] in IH. unfold utf8_step.
  destruct (is_continuation_byte b); cbn [fst snd text_of fold_right append];
    now rewrite <- IH.
Qed.

Lemma text_of_utf8_chars (s : string) : text_of (utf8_chars s) = s.
Proof.
  rewrite utf8_chars_scan. rewrite <- (string_of_list_ascii_of_string s) at 2.
  rewrite <- utf8_scan_text. unfold utf8_finish.
  destruct (utf8_scan (list_ascii_of_string s)) as [pending done]. cbn [fst snd].
  destruct pending; reflexivity.
Qed.

Lemma starts_with_app (unit chars : list string) :
  starts_with unit chars = true -> exists tail, chars = unit ++ tail.
Proof.
  revert chars. induction unit as [|u unit IH]; intros chars H; cbn [starts_with] in H.
  - now exists chars.
  - destruct chars as [|c chars]; [discriminate|].
    apply andb_true_iff in H. destruct H as [Hu Hrest].
    apply String.eqb_eq in Hu. subst c.
    destruct (IH _ Hrest) as [tail ->]. now exists tail.
Qed.

Section ViewCount.

Context {rt : Runtime}.

Lemma span_decimal_app (chars : list string) :
  chars = fst (span_decimal chars) ++ snd (span_decimal chars).
Proof.
  induction chars as [|c chars IH]; cbn [span_decimal]; [reflexivity|].
  destruct (is_decimal c); [|reflexivity].
  destruct (span_decimal chars) as [ds rest]. cbn [fst snd app] in *. now rewrite <- IH.
Qed.

Lemma drop_whitespace_suffix (chars : list string) :
  exists pre, chars = pre ++ drop_whitespace chars.
Proof.
  induction chars as [|c chars [pre IH]]; cbn [drop_whitespace]; [now exists []|].
  destruct (is_whitespace c).
  - exists (c :: pre). cbn [app]. now rewrite <- IH.
  - now exists [].
Qed.

Lemma match_count_chars_unit (chars : list string) (num : string) (len : nat) :
  match_count_chars chars = Some (num, len) ->
  exists unit pre tail,
    In unit count_units /\ chars = pre ++ utf8_chars unit ++ tail.
Proof.
  unfold match_count_chars.
  pose proof (span_decimal_app chars) as Hint.
  destruct (span_decimal chars) as [int_part after_int]. cbn [fst snd] in Hint.
  destruct int_part as [|d int_part]; [discriminate|].
  set (ip := d :: int_part) in *.
  assert (Hnum : exists pre after_num,
             chars = pre ++ after_num
             /\ forall k : list string * list string -> option (string * nat),
                  (k (match after_int with
                      | "."%string :: after_dot =>
                          let (frac_part, after_frac) := span_decimal after_dot in
                          match frac_part with
                          | [] => (ip, after_int)
                          | _ :: _ => (ip ++ "."%string :: frac_part, after_frac)
                          end
                      | _ => (ip, after_int)
                      end) <> None ->
                   exists num', k (num', after_num) <> None)).
  { destruct after_int as [|c after_dot].
    - exists ip, []. split; [exact Hint|]. intros k Hk. now exists ip.
    - destruct (String.eqb_spec c ".") as [->|Hc].
      + pose proof (span_decimal_app after_dot) as Hfrac.
        destruct (span_decimal after_dot) as [frac_part after_frac].
        cbn [fst snd] in Hfrac. destruct frac_part as [|f frac_part].
        * exists ip, ("."%string :: after_dot). split; [exact Hint|].
          intros k Hk. now exists ip.
        * exists (ip ++ "."%string :: f :: frac_part), after_frac.
          split; [rewrite Hint, Hfrac, <- app_assoc; reflexivity|].
          intros k Hk. exists (ip ++ "."%string :: f :: frac_part). exact Hk.
      + exists ip, (c :: after_dot). split; [exact Hint|].
        intros k Hk. exists ip.
        destruct c as [|a c']; [exact Hk|].
        destruct a as [[|] [|] [|] [|] [|] [|] [|] [|]]; try exact Hk.
        destruct c' as [|a' c']; [now contradiction Hc | exact Hk]. }
  destruct Hnum as (pre & after_num & Hchars & Hk). intros Hmatch.
  destruct (Hk (fun p => let (num0, after_num0) := p in
                         match find (fun unit => starts_with (utf8_chars unit)
                                                             (drop_whitespace after_num0))
                                    count_units with
                         | Some unit =>
                             Some (text_of num0,
                                   (List.length chars
                                    - List.length (drop_whitespace after_num0)
                                    + List.length (utf8_chars unit))%nat)
                         | None => None
                         end)) as [num' Hsome].
  { cbv beta. destruct (match after_int with [] => _ | _ => _ end) as [n0 a0].
    rewrite Hmatch. discriminate. }
  cbv beta iota in Hsome.
  destruct (find _ count_units) as [unit|] eqn:Hfind; [|now contradiction Hsome].
  apply find_some in Hfind. destruct Hfind as [Hin Hstart].
  destruct (starts_with_app _ _ Hstart) as [tail Htail].
  destruct (drop_whitespace_suffix after_num) as [spaces Hspaces].
  exists unit, (pre ++ spaces), tail. split; [exact Hin|].
  rewrite Hchars, Hspaces at 1. rewrite Htail, <- app_assoc. reflexivity.
Qed.

Lemma findall_counts_from_unit (chars : list string) :
  forall (skip : nat) (num : string) (rest : list string),
    findall_counts_from skip chars = num :: rest ->
    exists unit pre tail,
      In unit count_units /\ chars = pre ++ utf8_chars unit ++ tail.
Proof.
  induction chars as [|c chars IH]; intros skip num rest H;
    cbn [findall_counts_from] in H; [discriminate|].
  assert (Hlater : forall k, findall_counts_from k chars = num :: rest ->
            exists unit pre tail,
              In unit count_units /\ c :: chars = pre ++ utf8_chars unit ++ tail).
  { intros k Hk. destruct (IH _ _ _ Hk) as (unit & pre & tail & Hin & ->).
    now exists unit, (c :: pre), tail. }
  destruct skip as [|skip]; [|exact (Hlater _ H)].
  destruct (match_count_chars (c :: chars)) as [[n len]|] eqn:Hmatch;
    [|exact (Hlater _ H)].
  exact (match_count_chars_unit _ _ _ Hmatch).
Qed.

Lemma findall_counts_unit (text : string) (num : string) (rest : list string) :
  findall_counts text = num :: rest ->
  exists unit, In unit count_units /\ str_in unit text = true.
Proof.
  intros H. destruct (findall_counts_from_unit _ _ _ _ H) as (unit & pre & tail & Hin & Hcut).
  exists unit. split; [exact Hin|]. apply str_in_occurs.
  exists (text_of pre), (text_of tail).
  rewrite <- (text_of_utf8_chars text), Hcut, !text_of_app, text_of_utf8_chars.
  reflexivity.
Qed.

(** X27.  When title and description hold a number followed by a unit, the
    view count of the YouTube record comes from the first such number
    alone: the float the number denotes, times 1,000,000 when the whole
    lower-cased text contains 'million' or 'milhão' and times 1,000
    otherwise (the text then contains 'mil', 'k' or 'thousand', so no
    number is taken as it stands), cut to an integer, when that product
    is a finite float. *)
Theorem youtube_views_from_first_number :
  forall (url : pyval) (c : Dict) (w : World)
         (num : string) (rest : list string) (x : option Q) (y : Q),
    let text := lower (fmt (dict.get_or c "title" (VStr "")) ++ " "
                       ++ fmt (dict.get_or c "description" (VStr ""))) in
    findall_counts text = num :: rest ->
    py_float (replace_comma num) = Ok x ->
    float_times x (if str_in "million" text || str_in "milhão" text
                   then 1000000 else 1000) = Some y ->
    (str_in "million" text || str_in "milhão" text
     || str_in "mil" text || str_in "k" text || str_in "thousand" text = true)
    /\ exists a w',
         _analyze_youtube_video url c w = (Ok (Some a), w')
         /\ dict.get a "views" = Some (VInt (py_int y)).
Proof.
  intros url c w num rest x y text Hnumbers Hfloat Hscaled.
  assert (Hunit : str_in "million" text || str_in "milhão" text
                  || str_in "mil" text || str_in "k" text || str_in "thousand" text
                  = true).
  { destruct (findall_counts_unit _ _ _ Hnumbers) as (unit & Hin & Hocc).
    cbn in Hin. destruct Hin as [<-|[<-|[<-|[<-|[<-|[]]]]]]; rewrite Hocc;
      rewrite ?orb_true_r; reflexivity. }
  split; [exact Hunit|].
  unfold _analyze_youtube_video, catch, bind, datetime_now_isoformat, ret.
  cbn [dict.get_or dict.get String.eqb Ascii.eqb Bool.eqb].
  fold text. rewrite Hnumbers. cbn [views_from_numbers].
  unfold views_from_number. rewrite Hfloat.
  cbn [dict.get_or dict.get String.eqb Ascii.eqb Bool.eqb]. fold text.
  destruct (str_in "million" text || str_in "milhão" text) eqn:Hmillion.
  - rewrite Hscaled. cbn [int_of_float py_eq_zero as_number].
    eexists. eexists. split; [reflexivity|]. apply dict_get_set_same.
  - cbn [orb] in Hunit. rewrite Hunit, Hscaled. cbn [int_of_float py_eq_zero as_number].
    eexists. eexists. split; [reflexivity|]. apply dict_get_set_same.
Qed.

End ViewCount.

Lemma youtube_views_from_first_number_witness :
  exists a w',
    @_analyze_youtube_video offline_runtime (VStr "https://youtu.be/1")
                            [("title", VStr "1.15K views in a day")] start_of_run
    = (Ok (Some a), w')
    /\ dict.get a "views" = Some (VInt 1150).
Proof.
  destruct (@youtube_views_from_first_number offline_runtime (VStr "https://youtu.be/1")
              [("title", VStr "1.15K views in a day")] start_of_run
              "1.15" [] (Some (2589569785738035 # 2251799813685248)) (inject_Z 1150)
              ltac:(vm_compute; reflexivity) ltac:(vm_compute; reflexivity)
              ltac:(vm_compute; reflexivity))
    as (_ & a & w' & Hrun & Hviews).
  exists a, w'. split; [exact Hrun | exact Hviews].
Defined.


(** ** The adapter on any list of candidates *)

Lemma bucket_append_contents_any (platform_analysis : Buckets) (name : string) (a : Dict) :
  Permutation (all_content_of (bucket_append platform_analysis name a))
              (a :: all_content_of platform_analysis).
Proof.
  unfold bucket_append, all_content_of, dict.get_or.
  induction platform_analysis as [|[k v] pa IH]; simpl; [reflexivity|].
  destruct (String.eqb name k) eqn:E; simpl.
  - rewrite <- app_assoc. simpl. symmetry. apply Permutation_middle.
  - rewrite IH. symmetry. apply Permutation_middle.
Qed.

Lemma bucket_append_or_other_cases (platform_analysis pa1 : Buckets) (platform : pyval)
      (a : Dict) :
  bucket_append_or_other platform_analysis platform a = Ok pa1 ->
  exists name, pa1 = bucket_append platform_analysis name a.
Proof.
  unfold bucket_append_or_other.
  destruct platform; try discriminate; try (intros [= <-]; eauto).
  destruct (dict.has platform_analysis s); intros [= <-]; eauto.
Qed.

Lemma truthy_some (o : option Dict) (a : Dict) : truthy o = Some a -> o = Some a.
Proof. destruct o as [[|x l]|]; simpl; congruence. Qed.

Lemma writes_nothing_quiet {A : Type} (m : IO A) : quiet m -> writes_nothing m.
Proof. intros H w. apply H. Qed.

Lemma writes_nothing_bind {A B : Type} (m : IO A) (k : A -> IO B) :
  writes_nothing m -> (forall a, writes_nothing (k a)) -> writes_nothing (bind m k).
Proof.
  intros Hm Hk w. unfold bind. specialize (Hm w).
  destruct (m w) as [[a|e] w1]; cbn [snd] in *; [|exact Hm].
  rewrite (Hk a w1). exact Hm.
Qed.

Lemma writes_nothing_catch {A : Type} (m : IO A) (h : exn -> IO A) :
  writes_nothing m -> (forall e, writes_nothing (h e)) -> writes_nothing (catch m h).
Proof.
  intros Hm Hh w. unfold catch. specialize (Hm w).
  destruct (m w) as [[a|e] w1]; cbn [snd] in *; [exact Hm|].
  rewrite (Hh e w1). exact Hm.
Qed.

Lemma each_candidate_writes_nothing (item : Dict -> Buckets -> IO Buckets)
      (viral_urls : list Dict) :
  (forall c pa, writes_nothing (item c pa)) ->
  forall pa, writes_nothing (each_candidate item viral_urls pa).
Proof.
  intros Hitem. induction viral_urls as [|c rest IH]; intros pa; cbn [each_candidate].
  - intros w. reflexivity.
  - apply writes_nothing_bind; [|exact IH].
    apply writes_nothing_catch; [apply Hitem | intros e w; reflexivity].
Qed.

Lemma each_candidate_quiet (item : Dict -> Buckets -> IO Buckets)
      (viral_urls : list Dict) :
  (forall c pa, quiet (item c pa)) ->
  forall pa, quiet (each_candidate item viral_urls pa).
Proof.
  intros Hitem. induction viral_urls as [|c rest IH]; intros pa; cbn [each_candidate].
  - apply quiet_ret.
  - apply quiet_bind; [|exact IH].
    apply quiet_catch; [apply Hitem | intros e; apply quiet_ret].
Qed.

(** A loop whose turns append at most one record each: it returns, with at
    most one record more for each candidate, each new record made of one of
    the candidates. *)
Lemma each_candidate_appends (P : Dict -> Dict -> Prop)
      (item : Dict -> Buckets -> IO Buckets) (viral_urls : list Dict) :
  appends_at_most_one P item ->
  forall (platform_analysis : Buckets) (w : World),
    exists pa' w',
      each_candidate item viral_urls platform_analysis w = (Ok pa', w')
      /\ (List.length (all_content_of pa')
          <= List.length (all_content_of platform_analysis) + List.length viral_urls)%nat
      /\ Forall (fun r => In r (all_content_of platform_analysis)
                          \/ exists c, In c viral_urls /\ P c r)
                (all_content_of pa').
Proof.
  intros Hitem. induction viral_urls as [|c rest IH]; intros pa w.
  - exists pa, w. split; [reflexivity|]. split; [lia|].
    apply Forall_forall. intros r Hr. now left.
  - cbn [each_candidate]. unfold bind at 1, catch.
    specialize (Hitem c pa w).
    destruct (item c pa w) as [[pa1|e] w1]; cbn [fst] in Hitem.
    + destruct (IH pa1 w1) as (pa' & w' & Hrun & Hlen & Hall).
      exists pa', w'. split; [exact Hrun|].
      destruct Hitem as [->|(name & a & -> & HP)].
      * split; [cbn [List.length]; lia|].
        eapply Forall_impl; [|exact Hall]. intros r [Hr|(c' & Hc' & HP')];
          [now left | right; exists c'; split; [now right | exact HP']].
      * pose proof (bucket_append_contents_any pa name a) as Hperm.
        rewrite (Permutation_length Hperm) in Hlen. split; [cbn [List.length] in *; lia|].
        eapply Forall_impl; [|exact Hall]. intros r [Hr|(c' & Hc' & HP')].
        -- apply (Permutation_in _ Hperm) in Hr. destruct Hr as [<-|Hr];
             [right; exists c; split; [now left | exact HP] | now left].
        -- right. exists c'. split; [now right | exact HP'].
    + unfold ret. destruct (IH pa w1) as (pa' & w' & Hrun & Hlen & Hall).
      exists pa', w'. split; [exact Hrun|]. split; [cbn [List.length]; lia|].
      eapply Forall_impl; [|exact Hall]. intros r [Hr|(c' & Hc' & HP')];
        [now left | right; exists c'; split; [now right | exact HP']].
Qed.

Section AdapterOnAnyList.

Context {rt : Runtime}.

Lemma _basic_url_analysis_outcome (url : pyval) (c : Dict) (w : World) :
  exists a w',
    _basic_url_analysis url c w = (Ok (Some a), w')
    /\ truthy (Some a) = Some a
    /\ dict.get a "viral_score" = Some (dict.get_or c "initial_score" (VInt 0)).
Proof. eexists. eexists. repeat split. Qed.

Lemma carried_score_in_range (c a : Dict) :
  dict.get a "viral_score" = Some (dict.get_or c "initial_score" (VInt 0)) ->
  keeps_score_in_range c a.
Proof.
  intros Ha (s & Hs & Hr). exists s. split; [|exact Hr].
  rewrite Ha. unfold dict.get_or. now rewrite Hs.
Qed.

Lemma fallback_item_appends : appends_at_most_one keeps_score_in_range fallback_item.
Proof.
  intros c pa w. unfold fallback_item.
  unfold bind at 1, lift at 1. destruct (getitem c "url") as [url|e]; [|exact I].
  destruct (_basic_url_analysis_outcome url c w) as (a & w' & Hrun & Ht & Hs).
  unfold bind. rewrite Hrun, Ht. unfold lift.
  destruct (bucket_append_or_other pa _ a) as [pa1|e] eqn:Hb; cbn [fst]; [|exact I].
  apply bucket_append_or_other_cases in Hb. destruct Hb as (name & ->).
  right. exists name, a. split; [reflexivity | now apply carried_score_in_range].
Qed.

Lemma instascrape_item_appends :
  appends_at_most_one keeps_score_in_range instascrape_item.
Proof.
  intros c pa w. unfold instascrape_item.
  unfold bind at 1, lift at 1. destruct (getitem c "url") as [url|e]; [|exact I].
  unfold bind at 1, lift at 1. destruct (getitem c "platform") as [platform|e]; [|exact I].
  unfold bind at 1.
  destruct (py_eq_str platform "instagram"); [|destruct (py_eq_str platform "youtube")].
  - pose proof (_analyze_instagram_post_outcome url c w) as [_ Hrec].
    unfold bind at 1.
    destruct (_analyze_instagram_post url c w) as [[o|e] w1]; cbn [fst] in Hrec;
      [|contradiction].
    destruct (truthy o) as [a|] eqn:Ht; unfold bind, ret, asyncio_sleep, modify; cbn [fst].
    + apply truthy_some in Ht. subst o. right. exists "instagram", a.
      split; [reflexivity|]. intros _.
      destruct Hrec as (_ & _ & Hscore & Hrange). eexists. split; [exact Hscore | exact Hrange].
    + now left.
  - destruct (_analyze_youtube_video_record url c w)
      as (a & views & Hrun & _ & _ & _ & _ & Hscore & _).
    unfold bind at 1. rewrite Hrun.
    destruct (truthy (Some a)) as [a'|] eqn:Ht; unfold bind, ret, asyncio_sleep, modify;
      cbn [fst].
    + apply truthy_some in Ht. injection Ht as <-. right. exists "youtube", a.
      split; [reflexivity | now apply carried_score_in_range].
    + now left.
  - destruct (_basic_url_analysis_outcome url c w) as (a & w' & Hrun & Ht & Hs).
    unfold bind at 1. rewrite Hrun, Ht. unfold lift.
    destruct (bucket_append_or_other pa platform a) as [pa1|e] eqn:Hb;
      unfold bind, ret, asyncio_sleep, modify; cbn [fst]; [|exact I].
    apply bucket_append_or_other_cases in Hb. destruct Hb as (name & ->).
    right. exists name, a. split; [reflexivity | now apply carried_score_in_range].
Qed.

Lemma fallback_item_quiet (c : Dict) (pa : Buckets) : quiet (fallback_item c pa).
Proof.
  unfold fallback_item.
  apply quiet_bind; [apply quiet_lift | intros url].
  apply quiet_bind; [apply quiet__basic_url_analysis | intros o].
  destruct (truthy o); [apply quiet_lift | apply quiet_ret].
Qed.

Lemma asyncio_sleep_writes_nothing (seconds : nat) : writes_nothing (asyncio_sleep seconds).
Proof. intros w. reflexivity. Qed.

Lemma instascrape_item_writes_nothing (c : Dict) (pa : Buckets) :
  writes_nothing (instascrape_item c pa).
Proof.
  unfold instascrape_item.
  apply writes_nothing_bind; [apply writes_nothing_quiet, quiet_lift | intros url].
  apply writes_nothing_bind; [apply writes_nothing_quiet, quiet_lift | intros platform].
  apply writes_nothing_bind.
  - apply writes_nothing_quiet.
    destruct (py_eq_str platform "instagram"); [|destruct (py_eq_str platform "youtube")].
    + apply quiet_bind; [apply quiet__analyze_instagram_post | intros o].
      destruct (truthy o); apply quiet_ret.
    + apply quiet_bind; [apply quiet__analyze_youtube_video | intros o].
      destruct (truthy o); apply quiet_ret.
    + apply quiet_bind; [apply quiet__basic_url_analysis | intros o].
      destruct (truthy o); [apply quiet_lift | apply quiet_ret].
  - intros pa1. apply writes_nothing_bind; [apply asyncio_sleep_writes_nothing|].
    intros _ w. reflexivity.
Qed.

Lemma _analyze_with_instascrape_writes_nothing (viral_urls : list Dict) :
  writes_nothing (_analyze_with_instascrape viral_urls).
Proof.
  unfold _analyze_with_instascrape, _basic_analysis_fallback.
  destruct (negb HAS_INSTASCRAPE); apply each_candidate_writes_nothing.
  - intros c pa. apply writes_nothing_quiet, fallback_item_quiet.
  - apply instascrape_item_writes_nothing.
Qed.

Lemma _analyze_with_instascrape_appends (viral_urls : list Dict) (w : World) :
  exists pa w',
    _analyze_with_instascrape viral_urls w = (Ok pa, w')
    /\ (List.length (all_content_of pa) <= List.length viral_urls)%nat
    /\ Forall (fun r => exists c, In c viral_urls /\ keeps_score_in_range c r)
              (all_content_of pa).
Proof.
  unfold _analyze_with_instascrape, _basic_analysis_fallback.
  assert (Hgen : forall item,
            appends_at_most_one keeps_score_in_range item ->
            exists pa w',
              each_candidate item viral_urls empty_buckets w = (Ok pa, w')
              /\ (List.length (all_content_of pa) <= List.length viral_urls)%nat
              /\ Forall (fun r => exists c, In c viral_urls /\ keeps_score_in_range c r)
                        (all_content_of pa)).
  { intros item Hitem.
    destruct (each_candidate_appends _ item viral_urls Hitem empty_buckets w)
      as (pa & w' & Hrun & Hlen & Hall).
    exists pa, w'. split; [exact Hrun|]. split; [exact Hlen|].
    eapply Forall_impl; [|exact Hall]. intros r [[]|H]. exact H. }
  destruct (negb HAS_INSTASCRAPE);
    [apply Hgen, fallback_item_appends | apply Hgen, instascrape_item_appends].
Qed.

(** X9.  On every list of candidates, whatever their keys and values, the
    adapter returns a mapping: it never raises, it never returns more
    records than it was given candidates, and it writes no file. *)
Theorem adapter_returns_at_most_one_record_each :
  forall (viral_urls : list Dict) (w : World),
    exists pa w',
      _analyze_with_instascrape viral_urls w = (Ok pa, w')
      /\ (List.length (all_content_of pa) <= List.length viral_urls)%nat
      /\ written w' = written w.
Proof.
  intros viral_urls w.
  destruct (_analyze_with_instascrape_appends viral_urls w) as (pa & w' & Hrun & Hlen & _).
  exists pa, w'. split; [exact Hrun|]. split; [exact Hlen|].
  pose proof (_analyze_with_instascrape_writes_nothing viral_urls w) as Hw.
  now rewrite Hrun in Hw.
Qed.

End AdapterOnAnyList.

(** ** The pause between candidates *)

Section Throttle.

Context {rt : Runtime}.

Lemma instascrape_item_sleeps (c : Dict) (pa : Buckets) (w : World) :
  candidate_shape c ->
  exists pa1 w1,
    instascrape_item c pa w = (Ok pa1, w1) /\ slept w1 = (slept w + 1)%nat.
Proof.
  intros (url & p & sc & Hu & Hp & _).
  unfold instascrape_item, getitem. rewrite Hu, Hp.
  unfold bind at 1, lift at 1. unfold bind at 1, lift at 1. cbn [py_eq_str].
  unfold bind at 1.
  destruct (String.eqb p "instagram"); [|destruct (String.eqb p "youtube")].
  - pose proof (_analyze_instagram_post_outcome url c w) as [_ Hrec].
    pose proof (quiet__analyze_instagram_post url c w) as [Hs _].
    unfold bind at 1.
    destruct (_analyze_instagram_post url c w) as [[o|e] w1]; cbn [fst snd] in *;
      [|contradiction].
    destruct (truthy o); unfold bind, ret, asyncio_sleep, modify;
      eexists; eexists; (split; [reflexivity|]); cbn [slept]; now rewrite Hs.
  - destruct (_analyze_youtube_video_record url c w) as (a & views & Hrun & _).
    unfold bind at 1. rewrite Hrun.
    destruct (truthy (Some a)); unfold bind, ret, asyncio_sleep, modify;
      eexists; eexists; (split; [reflexivity|]); reflexivity.
  - destruct (_basic_url_analysis_outcome url c w) as (a & w' & Hrun & Ht & _).
    pose proof (quiet__basic_url_analysis url c w) as [Hs _]. rewrite Hrun in Hs.
    cbn [snd] in Hs.
    unfold bind at 1. rewrite Hrun, Ht. unfold lift. cbn [bucket_append_or_other].
    destruct (dict.has pa p); unfold bind, ret, asyncio_sleep, modify;
      eexists; eexists; (split; [reflexivity|]); cbn [slept]; now rewrite Hs.
Qed.

Lemma instascrape_loop_sleeps (viral_urls : list Dict) :
  Forall candidate_shape viral_urls ->
  forall (pa : Buckets) (w : World),
    exists pa' w',
      each_candidate instascrape_item viral_urls pa w = (Ok pa', w')
      /\ slept w' = (slept w + List.length viral_urls)%nat.
Proof.
  induction 1 as [|c rest Hc _ IH]; intros pa w.
  - exists pa, w. split; [reflexivity | cbn; lia].
  - destruct (instascrape_item_sleeps c pa w Hc) as (pa1 & w1 & Hitem & Hs).
    destruct (IH pa1 w1) as (pa' & w' & Hrun & Hs').
    exists pa', w'. split.
    + cbn [each_candidate]. unfold bind at 1, catch. rewrite Hitem. exact Hrun.
    + rewrite Hs', Hs. cbn [List.length]. lia.
Qed.

(** X10.  With [instascrape] installed the adapter pauses one second after
    each candidate the filter built, so a run over [n] candidates sleeps
    [n] seconds; without it the adapter does not pause at all. *)
Theorem adapter_sleeps_once_per_candidate :
  forall (viral_urls : list Dict) (w : World),
    Forall candidate_shape viral_urls ->
    exists pa w',
      _analyze_with_instascrape viral_urls w = (Ok pa, w')
      /\ slept w'
         = (slept w + if HAS_INSTASCRAPE then List.length viral_urls else 0)%nat.
Proof.
  intros viral_urls w Hshape. unfold _analyze_with_instascrape, _basic_analysis_fallback.
  destruct HAS_INSTASCRAPE; cbn [negb].
  - apply instascrape_loop_sleeps. exact Hshape.
  - destruct (each_candidate_returns fallback_item viral_urls empty_buckets w)
      as (pa & w' & Hrun).
    exists pa, w'. split; [exact Hrun|].
    pose proof (each_candidate_quiet fallback_item viral_urls fallback_item_quiet
                  empty_buckets w) as [Hs _].
    rewrite Hrun in Hs. cbn [snd] in Hs. lia.
Qed.

End Throttle.

Lemma adapter_sleeps_once_per_candidate_witness :
  exists pa w',
    @_analyze_with_instascrape scraping_runtime
      [linkedin_candidate; tiktok_candidate; instagram_candidate] start_of_run
    = (Ok pa, w')
    /\ slept w' = 3%nat.
Proof.
  exact (@adapter_sleeps_once_per_candidate scraping_runtime
           [linkedin_candidate; tiktok_candidate; instagram_candidate]
           start_of_run sample_candidates_shape).
Defined.

(** ** Scores along the pipeline *)

Lemma In_slice_to {A : Type} (l : list A) (n : Z) (x : A) : In x (slice_to l n) -> In x l.
Proof. unfold slice_to. destruct (0 <=? n); apply In_firstn_In. Qed.

Lemma In_py_slice_to {A : Type} (l l' : list A) (n : pyval) (x : A) :
  py_slice_to l n = Ok l' -> In x l' -> In x l.
Proof.
  unfold py_slice_to.
  destruct n; try discriminate; intros [= <-]; try apply In_slice_to. trivial.
Qed.

Section ScoresAlongThePipeline.

Context {rt : Runtime}.

Lemma _identify_viral_content_scores (search_results : pyval) (c : Dict) :
  In c (_identify_viral_content search_results) -> initial_score_in_range c.
Proof.
  intros Hin.
  destruct (_identify_viral_content_promoted _ _ Hin)
    as (source & r & u & p & _ & _ & _ & _ & ->).
  exists (_calculate_initial_score r p). split; [reflexivity|].
  apply _calculate_initial_score_bounds.
Qed.

(** X11.  Whatever the search results and whatever part of the candidates
    the cap lets through, every record the adapter files, in any bucket and
    by any of its three paths, has a [viral_score] that is a number of
    whole points between 0 and 100. *)
Theorem every_filed_record_scores_within_0_100 :
  forall (search_results max_captures : pyval) (captured : list Dict) (w : World),
    py_slice_to (_identify_viral_content search_results) max_captures = Ok captured ->
    exists pa w',
      _analyze_with_instascrape captured w = (Ok pa, w')
      /\ Forall score_in_range (all_content_of pa).
Proof.
  intros search_results max_captures captured w Hslice.
  destruct (_analyze_with_instascrape_appends captured w) as (pa & w' & Hrun & _ & Hall).
  exists pa, w'. split; [exact Hrun|].
  eapply Forall_impl; [|exact Hall]. intros r (c & Hc & Hkeep).
  apply Hkeep. apply (_identify_viral_content_scores search_results).
  exact (In_py_slice_to _ _ _ _ Hslice Hc).
Qed.

End ScoresAlongThePipeline.

Lemma every_filed_record_scores_within_0_100_witness :
  exists pa w',
    @_analyze_with_instascrape scraping_runtime [scenario_candidate] start_of_run
    = (Ok pa, w')
    /\ Forall score_in_range (all_content_of pa).
Proof.
  apply (@every_filed_record_scores_within_0_100 scraping_runtime scenario_results
           (VInt 15)).
  vm_compute. reflexivity.
Defined.


(** ** The top performers of records with numeric scores *)

Section SortNumericKeys.

Context {A : Type} (key : A -> pyval).

Lemma insert_descending_numeric (x : A) (l : list A) :
  (exists q, as_number (key x) = Some q) ->
  Forall (fun y => exists q, as_number (key y) = Some q) l ->
  exists r, insert_descending key x l = Ok r.
Proof.
  intros (qx & Hx). induction 1 as [|y l (qy & Hy) _ IH]; cbn [insert_descending].
  - eauto.
  - rewrite (py_lt_num _ _ _ _ Hx Hy).
    destruct (negb (Qle_bool qy qx)); [|eauto].
    destruct IH as (r & ->). eauto.
Qed.

Lemma sorted_reverse_numeric (l : list A) :
  Forall (fun y => exists q, as_number (key y) = Some q) l ->
  exists r, sorted_reverse key l = Ok r.
Proof.
  induction 1 as [|x l Hx Hl IH]; cbn [sorted_reverse]; [eauto|].
  destruct IH as (s & Hs). rewrite Hs.
  apply insert_descending_numeric; [exact Hx|].
  apply Forall_forall. intros y Hy. rewrite Forall_forall in Hl. apply Hl.
  eapply Permutation_in; [|exact Hy].
  apply Permutation_sym. exact (sorted_reverse_perm key _ _ Hs).
Qed.

End SortNumericKeys.

Lemma StronglySorted_app_cross {A : Type} (R : A -> A -> Prop) (a b : list A) :
  StronglySorted R (a ++ b) -> forall x y, In x a -> In y b -> R x y.
Proof.
  induction a as [|z a IH]; intros Hs x y Hx Hy; [destruct Hx|].
  cbn [app] in Hs. apply StronglySorted_inv in Hs. destruct Hs as [Hs Hz].
  destruct Hx as [<-|Hx].
  - rewrite Forall_forall in Hz. apply Hz. apply in_or_app. now right.
  - now apply IH.
Qed.

(** X12.  When the viral score of every record is a number, as it is for
    every record the adapter files, the sort cannot fail:
    [_get_top_performers] returns exactly [min(top_n, total)] records, they
    and the records left out make up the whole mapping, and every record
    returned scores at least as high as every record left out. *)
Theorem top_performers_are_the_best :
  forall (platform_analysis : Buckets) (top_n : Z),
    0 <= top_n ->
    Forall numeric_score (all_content_of platform_analysis) ->
    let top := _get_top_performers platform_analysis top_n in
    let all := all_content_of platform_analysis in
    List.length top = Nat.min (Z.to_nat top_n) (List.length all)
    /\ exists rest,
         Permutation all (top ++ rest)
         /\ forall x y, In x top -> In y rest -> scores_not_below x y.
Proof.
  intros pa top_n Hn Hnum top all. subst top all. unfold _get_top_performers.
  destruct (sorted_reverse_numeric viral_score_of (all_content_of pa)) as (sorted & Hs).
  { exact Hnum. }
  rewrite Hs. unfold slice_to. destruct (Z.leb_spec 0 top_n) as [_|]; [|lia].
  split.
  - rewrite length_firstn.
    now rewrite (Permutation_length (sorted_reverse_perm _ _ _ Hs)).
  - exists (skipn (Z.to_nat top_n) sorted). split.
    + rewrite firstn_skipn. exact (sorted_reverse_perm _ _ _ Hs).
    + apply StronglySorted_app_cross. rewrite firstn_skipn.
      exact (sorted_reverse_sorted _ _ _ Hs).
Qed.

Lemma top_performers_are_the_best_witness :
  List.length (_get_top_performers sample_buckets 2)
  = Nat.min (Z.to_nat 2) (List.length (all_content_of sample_buckets))
  /\ exists rest,
       Permutation (all_content_of sample_buckets)
                   (_get_top_performers sample_buckets 2 ++ rest)
       /\ forall x y, In x (_get_top_performers sample_buckets 2) -> In y rest ->
                      scores_not_below x y.
Proof.
  apply (top_performers_are_the_best sample_buckets 2); [lia|].
  repeat constructor; eexists; reflexivity.
Defined.


(** ** The metrics of an empty mapping *)

Lemma metrics_of_empty_buckets (platform_analysis : Buckets) (st : MetricsState) :
  Forall (fun bucket => snd bucket = []) platform_analysis ->
  for_each platform_analysis metrics_of_bucket st = (Ok tt, st).
Proof.
  induction 1 as [|[platform content_list] pa Hb _ IH]; cbn [for_each]; [reflexivity|].
  cbn [snd] in Hb. subst content_list.
  erewrite bind_ok by reflexivity. exact IH.
Qed.

(** X13.  For a mapping with no bucket or with empty buckets only,
    [_calculate_viral_metrics] returns the metrics it starts from: no
    content analyzed, no viral content, an empty platform distribution,
    engagement totals of 0, and an average viral score of 0, which is not
    computed (there is nothing to divide by). *)
Theorem metrics_of_nothing_are_zero :
  forall platform_analysis : Buckets,
    Forall (fun bucket => snd bucket = []) platform_analysis ->
    _calculate_viral_metrics platform_analysis
    = [ ("total_content_analyzed", VInt 0);
        ("viral_content_count", VInt 0);
        ("average_viral_score", VInt 0);
        ("platform_distribution", VDict []);
        ("engagement_totals",
         VDict [ ("total_likes", VInt 0); ("total_comments", VInt 0);
                 ("total_shares", VInt 0); ("total_views", VInt 0) ]) ].
Proof.
  intros pa Hempty. unfold _calculate_viral_metrics.
  erewrite bind_ok by (apply metrics_of_empty_buckets; exact Hempty).
  reflexivity.
Qed.

Lemma metrics_of_nothing_are_zero_witness :
  dict.get (_calculate_viral_metrics empty_buckets) "average_viral_score" = Some (VInt 0).
Proof.
  rewrite (metrics_of_nothing_are_zero empty_buckets); [reflexivity|].
  repeat constructor.
Defined.


(** ** Doubles that are whole numbers *)

Lemma double_of_Q_Qeq (q q' : Q) : (q == q')%Q -> double_of_Q q = double_of_Q q'.
Proof. intros H. unfold double_of_Q. now rewrite (Qred_complete _ _ H). Qed.

Lemma round_double_Qeq (q q' : Q) : (q == q')%Q -> round_double q = round_double q'.
Proof.
  intros H. unfold round_double. rewrite (double_of_Q_Qeq _ _ H).
  now rewrite (Qred_complete _ _ H).
Qed.

Lemma Qred_inject_Z (z : Z) : Qred (inject_Z z) = inject_Z z.
Proof.
  unfold Qred, inject_Z.
  pose proof (Z.ggcd_gcd z 1) as Hg.
  pose proof (Z.ggcd_correct_divisors z 1) as Hd.
  destruct (Z.ggcd z 1) as [g [aa bb]]. cbn [fst snd] in *.
  rewrite Z.gcd_1_r in Hg. subst g. destruct Hd as [Ha Hb].
  rewrite Z.mul_1_l in Ha, Hb. subst aa. rewrite <- Hb. reflexivity.
Qed.

Lemma round_half_even_exact (a d : Z) : 0 < d -> round_half_even (a * d) d = a.
Proof.
  intros Hd. unfold round_half_even.
  rewrite Z.div_mul, Z.mod_mul by lia.
  destruct (Z.ltb_spec (2 * 0) d); [reflexivity | lia].
Qed.

Lemma leading_exponent_whole (z : Z) : 0 < z -> leading_exponent z 1 = Z.log2 z.
Proof.
  intros Hz. unfold leading_exponent. change (Z.log2 1) with 0. rewrite Z.sub_0_r.
  pose proof (Z.log2_nonneg z) as Hnn.
  destruct (Z.leb_spec 0 (Z.log2 z)) as [_|]; [|lia].
  destruct (Z.log2_spec z Hz) as [Hlo _].
  destruct (Z.leb_spec (1 * 2 ^ Z.log2 z) z); [reflexivity | lia].
Qed.

Lemma double_of_ratio_whole (z : Z) :
  0 < z <= 2 ^ 53 -> double_of_ratio z 1 = Some (inject_Z z).
Proof.
  intros [Hz Hmax]. unfold double_of_ratio. rewrite (leading_exponent_whole z Hz).
  pose proof (Z.log2_nonneg z) as Hnn.
  assert (Hlog : Z.log2 z <= 53).
  { change 53 with (Z.log2 (2 ^ 53)). now apply Z.log2_le_mono. }
  rewrite Z.max_l by lia.
  destruct (Z.leb_spec 0 (Z.log2 z - 52)) as [He|He].
  - assert (Hdiv : exists a, z = a * (1 * 2 ^ (Z.log2 z - 52))).
    { assert (Hcase : Z.log2 z = 52 \/ Z.log2 z = 53) by lia.
      destruct Hcase as [E|E]; rewrite E.
      - exists z. change (2 ^ (52 - 52)) with 1. lia.
      - exists (2 ^ 52). destruct (Z.log2_spec z Hz) as [Hlo _]. rewrite E in Hlo.
        change (1 * 2 ^ (53 - 52)) with 2.
        change (2 ^ 52 * 2) with (2 ^ 53). lia. }
    destruct Hdiv as [a Ha].
    assert (Hp : 0 < 1 * 2 ^ (Z.log2 z - 52)).
    { rewrite Z.mul_1_l. apply Z.pow_pos_nonneg; lia. }
    pose proof (round_half_even_exact a _ Hp) as Hr. rewrite <- Ha in Hr. rewrite Hr.
    assert (Hval : a * 2 ^ (Z.log2 z - 52) = z) by lia.
    rewrite Hval.
    destruct (Z.leb_spec (2 ^ 1024) z) as [Hbig|_]; [|reflexivity].
    exfalso. assert (2 ^ 53 < 2 ^ 1024) by (apply Z.pow_lt_mono_r; lia). lia.
  - set (s := - (Z.log2 z - 52)).
    assert (Hs : 0 < 2 ^ s) by (apply Z.pow_pos_nonneg; lia).
    replace (z * 2 ^ s) with ((z * 2 ^ s) * 1) by lia.
    rewrite round_half_even_exact by lia.
    f_equal. rewrite <- (Qred_inject_Z z). apply Qred_complete.
    unfold Qeq, inject_Z. cbn [Qnum Qden]. rewrite Z2Pos.id by exact Hs. lia.
Qed.

Lemma double_of_Q_whole (q : Q) (z : Z) :
  (q == inject_Z z)%Q -> 0 <= z <= 2 ^ 53 -> double_of_Q q = Some (inject_Z z).
Proof.
  intros Hq Hz. rewrite (double_of_Q_Qeq _ _ Hq). unfold double_of_Q.
  rewrite Qred_inject_Z. cbn [inject_Z Qnum Qden].
  destruct z as [|p|p]; [reflexivity | | lia].
  apply double_of_ratio_whole. lia.
Qed.

Lemma round_double_whole (q : Q) (z : Z) :
  (q == inject_Z z)%Q -> 0 <= z <= 2 ^ 53 -> round_double q = inject_Z z.
Proof. intros Hq Hz. unfold round_double. now rewrite (double_of_Q_whole q z Hq Hz). Qed.

(** ** What the metrics add up *)

Lemma py_add_numbers (a b : pyval) :
  numeric a -> numeric b -> py_add a b = Ok (plus a b) /\ numeric (plus a b).
Proof.
  intros [x Hx] [y Hy]. unfold plus, numeric.
  destruct a; try discriminate; destruct b; try discriminate;
    cbn [py_add as_number as_double]; (split; [reflexivity | eexists; reflexivity]).
Qed.

Lemma added_up_numbers (values : list pyval) :
  forall acc : pyval,
    numeric acc -> Forall numeric values -> numeric (added_up acc values).
Proof.
  induction values as [|v values IH]; intros acc Hacc Hall; cbn [added_up fold_left];
    [exact Hacc|].
  inversion Hall as [|? ? Hv Hrest]; subst.
  apply IH; [|exact Hrest]. exact (proj2 (py_add_numbers acc v Hacc Hv)).
Qed.

Lemma py_sum_from_numbers (values : list pyval) :
  forall acc : pyval,
    numeric acc -> Forall numeric values ->
    py_sum_from acc values = Ok (added_up acc values).
Proof.
  induction values as [|v values IH]; intros acc Hacc Hall; cbn [py_sum_from];
    [reflexivity|].
  inversion Hall as [|? ? Hv Hrest]; subst.
  destruct (py_add_numbers acc v Hacc Hv) as [Hadd Hnum]. rewrite Hadd.
  exact (IH _ Hnum Hrest).
Qed.

Lemma plus_integers (a v : pyval) (za zv : Z) :
  integer_value a = Some za -> integer_value v = Some zv -> plus a v = VInt (za + zv).
Proof.
  destruct a; try discriminate; destruct v; try discriminate;
    cbn [integer_value]; intros [= <-] [= <-]; unfold plus;
    cbn [py_add as_number inject_Z Qnum];
    repeat match goal with b : bool |- _ => destruct b end; reflexivity.
Qed.

Lemma added_up_integers (values : list pyval) :
  forall acc : Z,
    Forall (fun v => exists z, integer_value v = Some z) values ->
    added_up (VInt acc) values = VInt (acc + Zsum (map integer_of values)).
Proof.
  induction values as [|v values IH]; intros acc Hall;
    cbn [added_up fold_left map Zsum fold_right].
  - f_equal. lia.
  - inversion Hall as [|? ? [z Hz] Hrest]; subst.
    rewrite (plus_integers (VInt acc) v acc z eq_refl Hz).
    fold (added_up (VInt (acc + z)) values). rewrite (IH _ Hrest).
    unfold integer_of at 2. rewrite Hz.
    fold (Zsum (map integer_of values)). f_equal. lia.
Qed.

Lemma as_double_whole (v : pyval) (z : Z) :
  whole v z -> 0 <= z <= 2 ^ 53 ->
  exists x, as_double v = Some x /\ (x == inject_Z z)%Q.
Proof.
  intros (q & Hq & Hqz) Hz.
  destruct v; try discriminate; cbn [as_number as_double] in *.
  - exists q. split; [exact Hq | exact Hqz].
  - injection Hq as <-. exists (round_double (inject_Z z0)).
    split; [reflexivity|].
    assert (z0 = z) by (unfold Qeq, inject_Z in Hqz; cbn [Qnum Qden] in Hqz; lia).
    subst z0.
    rewrite (round_double_whole (inject_Z z) z (Qeq_refl _) Hz). reflexivity.
  - exists q. split; [exact Hq | exact Hqz].
Qed.

Lemma plus_whole (a v : pyval) (za zv : Z) :
  whole a za -> whole v zv -> 0 <= za -> 0 <= zv -> za + zv <= 2 ^ 53 ->
  whole (plus a v) (za + zv).
Proof.
  intros Ha Hv Hza Hzv Hsum.
  destruct (as_double_whole a za Ha ltac:(lia)) as (x' & Hx' & Hxz').
  destruct (as_double_whole v zv Hv ltac:(lia)) as (y' & Hy' & Hyz').
  assert (Hfloat : round_double (x' + y') = inject_Z (za + zv)).
  { apply round_double_whole; [|lia]. rewrite Hxz', Hyz', inject_Z_plus. reflexivity. }
  destruct Ha as (x & Hx & Hxz), Hv as (y & Hy & Hyz). unfold plus, whole.
  destruct a; try discriminate; destruct v; try discriminate;
    cbn [py_add as_number as_double] in *;
    injection Hx as <-; injection Hy as <-;
    injection Hx' as <-; injection Hy' as <-;
    first [ rewrite Hfloat; eexists; split; reflexivity
          | eexists; split; [reflexivity|];
            repeat match goal with b : bool |- _ => destruct b end;
            unfold Qeq, inject_Z in *; cbn [Qnum Qden] in *; lia ].
Qed.

Lemma quotient_whole (total : pyval) (s n : Z) :
  whole total s -> 0 <= s <= 2 ^ 53 -> 0 < n <= 2 ^ 53 ->
  py_truediv total (VInt n)
  = Ok (VFloat (round_double (inject_Z s / inject_Z n))).
Proof.
  intros Htotal Hs Hn.
  destruct (as_double_whole total s Htotal Hs) as (x' & Hx' & Hxz').
  destruct Htotal as (x & Hx & Hxz).
  assert (Hnz : Qeq_bool (inject_Z n) 0 = false).
  { unfold Qeq_bool, inject_Z. cbn [Qnum Qden]. rewrite Z.mul_1_r. cbn [Z.mul].
    apply Z.eqb_neq. lia. }
  assert (Hlen : round_double (inject_Z n) = inject_Z n)
    by (apply round_double_whole; [reflexivity | lia]).
  unfold py_truediv. rewrite Hx. cbn [as_number]. rewrite Hnz.
  destruct total; try discriminate; cbn [as_number as_double] in *;
    injection Hx as <-; injection Hx' as <-; rewrite ?Hlen;
    do 2 f_equal; apply round_double_Qeq; rewrite ?Hxz, ?Hxz'; reflexivity.
Qed.

Lemma whole_scores_added_up (content_list : list Dict) :
  forall (acc : pyval) (za : Z),
    whole acc za -> 0 <= za ->
    za + 100 * Z.of_nat (List.length content_list) <= 2 ^ 53 ->
    Forall whole_score content_list ->
    exists s,
      za <= s <= za + 100 * Z.of_nat (List.length content_list)
      /\ whole (added_up acc (map (field_value "viral_score") content_list)) s
      /\ (inject_Z s
          == inject_Z za + Qsum (map (field_number "viral_score") content_list))%Q.
Proof.
  induction content_list as [|r l IH]; intros acc za Hacc Hza Hbound Hall;
    cbn [added_up fold_left map List.length Qsum fold_right].
  - exists za. split; [cbn; lia|]. split; [exact Hacc|]. ring.
  - inversion Hall as [|? ? (z & Hz & Hrange) Hrest]; subst.
    cbn [List.length] in Hbound. rewrite Nat2Z.inj_succ in Hbound.
    pose proof (plus_whole acc _ za z Hacc Hz Hza ltac:(lia) ltac:(lia)) as Hstep.
    destruct (IH _ (za + z) Hstep ltac:(lia) ltac:(lia) Hrest) as (s & Hs & Hw & Hval).
    exists s. rewrite Nat2Z.inj_succ. split; [lia|]. split; [exact Hw|].
    rewrite Hval, inject_Z_plus.
    fold (Qsum (map (field_number "viral_score") l)).
    destruct Hz as (q & Hq & Hqz). unfold field_value in Hq.
    unfold field_number at 2, number_of. rewrite Hq, Hqz. ring.
Qed.

Lemma mean_score_of_whole_scores (content_list : list Dict) :
  content_list <> [] ->
  100 * Z.of_nat (List.length content_list) <= 2 ^ 53 ->
  Forall whole_score content_list ->
  score_quotient content_list = VFloat (round_double (mean_score content_list)).
Proof.
  intros Hne Hbound Hall.
  destruct (whole_scores_added_up content_list (VInt 0) 0) as (s & Hs & Hw & Hval);
    [exists 0%Q; split; reflexivity | lia | lia | exact Hall |].
  assert (Hlen : 0 < Z.of_nat (List.length content_list))
    by (destruct content_list; [contradiction | cbn [List.length]; lia]).
  unfold score_quotient, quotient.
  assert (Hs' : 0 <= s <= 2 ^ 53) by lia.
  assert (Hn : 0 < Z.of_nat (List.length content_list) <= 2 ^ 53) by lia.
  rewrite (quotient_whole _ s _ Hw Hs' Hn).
  f_equal. apply round_double_Qeq. unfold mean_score.
  rewrite Hval, Qplus_0_l. reflexivity.
Qed.

Lemma total_of_frame (st st' : MetricsState) (k : string) (v : pyval) :
  metrics st' = dict.set (metrics st) k v -> k <> "engagement_totals" ->
  forall tk, total_of st' tk = total_of st tk.
Proof.
  intros E Hne tk. unfold total_of, subdict. rewrite E.
  rewrite dict_get_set_other by (intros E'; apply Hne; now rewrite E').
  reflexivity.
Qed.

Lemma add_to_total_step (k : string) (v : pyval) (st : MetricsState)
      (f : string -> pyval) :
  totals_are st f -> In k (map fst totals_fields) -> numeric v ->
  exists st',
    add_to_total k v st = (Ok tt, st')
    /\ totals_are st' (fun tk => if String.eqb tk k then plus (f tk) v else f tk)
    /\ dict.get (metrics st') "viral_content_count"
       = dict.get (metrics st) "viral_content_count"
    /\ all_content st' = all_content st
    /\ viral_scores st' = viral_scores st.
Proof.
  intros Htot Hk Hv.
  destruct (Htot k Hk) as [Hx Hfx].
  destruct (py_add_numbers (f k) v Hfx Hv) as [Hadd Hnum].
  exists {| metrics := dict.set (metrics st) "engagement_totals"
                         (VDict (dict.set (subdict (metrics st) "engagement_totals") k
                                          (plus (f k) v)));
            all_content := all_content st;
            viral_scores := viral_scores st |}.
  split; [|split; [|split; [|split; reflexivity]]].
  - unfold add_to_total. erewrite bind_ok; [reflexivity|].
    cbv beta. fold (total_of st k). now rewrite Hx, Hadd.
  - intros tk Htk. unfold total_of, subdict. cbn [metrics].
    rewrite dict_get_set_same. unfold dict.get_or.
    destruct (String.eqb tk k) eqn:E.
    + apply String.eqb_eq in E. subst tk. rewrite dict_get_set_same.
      split; [reflexivity | exact Hnum].
    + apply String.eqb_neq in E. rewrite dict_get_set_other by exact E.
      exact (Htot tk Htk).
  - cbn [metrics]. now rewrite dict_get_set_other by discriminate.
Qed.

Lemma accounts_for_totals (st : MetricsState) (seen : list Dict) :
  accounts_for st seen ->
  totals_are st (fun tk => added_up (VInt 0) (map (field_value (field_of tk)) seen)).
Proof.
  intros [_ Htot] tk Htk.
  assert (Hin : In (tk, field_of tk) totals_fields).
  { cbn in Htk. destruct Htk as [<-|[<-|[<-|[<-|[]]]]]; cbn; auto 6. }
  destruct (Htot tk _ Hin) as [Heq Hnum].
  split; [exact Heq | rewrite <- Heq; exact Hnum].
Qed.

Lemma added_up_snoc (start : pyval) (values : list pyval) (v : pyval) :
  added_up start (values ++ [v]) = plus (added_up start values) v.
Proof. unfold added_up. now rewrite fold_left_app. Qed.

Lemma metrics_of_content_step (r : Dict) (st : MetricsState) (seen : list Dict) :
  summable r -> accounts_for st seen ->
  exists st',
    metrics_of_content r st = (Ok tt, st')
    /\ accounts_for st' (seen ++ [r])
    /\ all_content st' = all_content st
    /\ viral_scores st' = viral_scores st ++ [viral_score_of r].
Proof.
  intros ([q Hq] & Hy1 & Hy2 & Hy3 & Hy4) Hacc.
  pose proof (accounts_for_totals _ _ Hacc) as Htot.
  destruct Hacc as [Hcount _].
  unfold metrics_of_content.
  erewrite bind_ok by reflexivity.
  set (st1 := {| metrics := metrics st; all_content := all_content st;
                 viral_scores := viral_scores st ++ [dict.get_or r "viral_score" (VInt 0)] |}).
  assert (Hge : py_ge (dict.get_or r "viral_score" (VInt 0)) 50 = Ok (Qle_bool 50 q))
    by (unfold py_ge; now rewrite Hq).
  erewrite bind_ok by (unfold lift; rewrite Hge; reflexivity).
  assert (Hviral : counts_as_viral r = Qle_bool 50 q)
    by (unfold counts_as_viral; rewrite Hge; now destruct (Qle_bool 50 q)).
  assert (Hflag : exists st2,
             (if Qle_bool 50 q
              then count <- (fun st =>
                               (py_add (dict.get_or (metrics st) "viral_content_count" VNone)
                                       (VInt 1), st)) ;;
                   set_metric "viral_content_count" count
              else ret tt) st1 = (Ok tt, st2)
             /\ dict.get (metrics st2) "viral_content_count"
                = Some (VInt (Z.of_nat (List.length (filter counts_as_viral (seen ++ [r])))))
             /\ (forall tk, total_of st2 tk = total_of st tk)
             /\ all_content st2 = all_content st
             /\ viral_scores st2 = viral_scores st ++ [viral_score_of r]).
  { rewrite filter_app, length_app. cbn [filter]. rewrite Hviral.
    destruct (Qle_bool 50 q).
    - eexists. split; [|split; [|split; [|split]]].
      + erewrite bind_ok; [reflexivity|].
        cbv beta. unfold dict.get_or. subst st1. cbn [metrics]. rewrite Hcount.
        reflexivity.
      + cbn [metrics]. rewrite dict_get_set_same. cbn [List.length Qnum inject_Z].
        do 2 f_equal. lia.
      + intros tk. eapply total_of_frame; [reflexivity | discriminate].
      + reflexivity.
      + reflexivity.
    - exists st1. split; [reflexivity|]. split; [|repeat split].
      cbn [List.length metrics]. subst st1. cbn [metrics]. rewrite Hcount.
      do 2 f_equal. lia. }
  destruct Hflag as (st2 & Hrun2 & Hcount2 & Hsame2 & Hall2 & Hscores2).
  erewrite bind_ok by exact Hrun2.
  assert (Htot2 : totals_are st2
                    (fun tk => added_up (VInt 0) (map (field_value (field_of tk)) seen))).
  { intros tk Htk. rewrite Hsame2. exact (Htot tk Htk). }
  destruct (add_to_total_step "total_likes" (dict.get_or r "likes" (VInt 0)) st2 _ Htot2) as
    (st3 & Hrun3 & Htot3 & Hcount3 & Hall3 & Hscores3); [cbn; auto | exact Hy1 |].
  erewrite bind_ok by exact Hrun3.
  destruct (add_to_total_step "total_comments" (dict.get_or r "comments" (VInt 0)) st3 _ Htot3) as
    (st4 & Hrun4 & Htot4 & Hcount4 & Hall4 & Hscores4); [cbn; auto | exact Hy2 |].
  erewrite bind_ok by exact Hrun4.
  destruct (add_to_total_step "total_shares" (dict.get_or r "shares" (VInt 0)) st4 _ Htot4) as
    (st5 & Hrun5 & Htot5 & Hcount5 & Hall5 & Hscores5); [cbn; auto | exact Hy3 |].
  erewrite bind_ok by exact Hrun5.
  destruct (add_to_total_step "total_views" (dict.get_or r "views" (VInt 0)) st5 _ Htot5) as
    (st6 & Hrun6 & Htot6 & Hcount6 & Hall6 & Hscores6); [cbn; auto 6 | exact Hy4 |].
  exists st6. split; [exact Hrun6|]. split; [|split; congruence].
  split; [congruence|].
  intros tk fk Hin. cbn in Hin.
  destruct Hin as [E|[E|[E|[E|[]]]]]; injection E as <- <-;
    match goal with
    | |- total_of _ ?tk = _ /\ _ => destruct (Htot6 tk) as [Heq Hnum]; [cbn; auto 6|]
    end;
    (split; [|rewrite Heq; exact Hnum]);
    rewrite Heq, map_app; cbn [map]; rewrite added_up_snoc; reflexivity.
Qed.

Lemma metrics_of_contents (content_list : list Dict) :
  forall (st : MetricsState) (seen : list Dict),
    Forall summable content_list -> accounts_for st seen ->
    exists st',
      for_each content_list metrics_of_content st = (Ok tt, st')
      /\ accounts_for st' (seen ++ content_list)
      /\ all_content st' = all_content st
      /\ viral_scores st' = viral_scores st ++ map viral_score_of content_list.
Proof.
  induction content_list as [|r l IH]; intros st seen Hsum Hacc; cbn [for_each map].
  - exists st. rewrite !app_nil_r.
    split; [reflexivity|]. split; [exact Hacc|]. split; reflexivity.
  - inversion Hsum as [|? ? Hr Hl]; subst.
    destruct (metrics_of_content_step r st seen Hr Hacc) as (st1 & Hrun & Hacc1 & Hall & Hsc).
    destruct (IH st1 (seen ++ [r]) Hl Hacc1) as (st2 & Hrun2 & Hacc2 & Hall2 & Hsc2).
    exists st2. erewrite bind_ok by exact Hrun.
    split; [exact Hrun2|]. rewrite <- app_assoc in Hacc2.
    split; [exact Hacc2|]. split; [congruence|].
    rewrite Hsc2, Hsc, <- app_assoc. reflexivity.
Qed.

Lemma metrics_of_bucket_step (bucket : string * list Dict) (st : MetricsState)
      (seen : list Dict) :
  Forall summable (snd bucket) -> accounts_for st seen ->
  exists st',
    metrics_of_bucket bucket st = (Ok tt, st')
    /\ accounts_for st' (seen ++ snd bucket)
    /\ all_content st' = all_content st ++ snd bucket
    /\ viral_scores st' = viral_scores st ++ map viral_score_of (snd bucket).
Proof.
  destruct bucket as [platform content_list]. cbn [snd]. intros Hsum Hacc.
  destruct content_list as [|r l].
  - exists st. cbn [metrics_of_bucket map]. rewrite !app_nil_r.
    split; [reflexivity|]. split; [exact Hacc|]. split; reflexivity.
  - set (content_list := r :: l) in *. unfold metrics_of_bucket.
    change (match content_list with
            | [] => ret tt
            | _ :: _ =>
                set_metric_in "platform_distribution" platform
                              (VInt (Z.of_nat (List.length content_list))) ;;
                modify (fun st => {| metrics := metrics st;
                                     all_content := all_content st ++ content_list;
                                     viral_scores := viral_scores st |}) ;;
                for_each content_list metrics_of_content
            end st)
      with ((set_metric_in "platform_distribution" platform
                           (VInt (Z.of_nat (List.length content_list))) ;;
             modify (fun st => {| metrics := metrics st;
                                  all_content := all_content st ++ content_list;
                                  viral_scores := viral_scores st |}) ;;
             for_each content_list metrics_of_content) st).
    erewrite bind_ok by reflexivity. erewrite bind_ok by reflexivity.
    set (st1 := {| metrics := _; all_content := _; viral_scores := _ |}).
    assert (Hacc1 : accounts_for st1 seen).
    { destruct Hacc as [Hcount Htot]. split.
      - subst st1. cbn [metrics]. now rewrite dict_get_set_other by discriminate.
      - intros tk fk Hin. destruct (Htot tk fk Hin) as [Heq Hnum].
        assert (Hsame : total_of st1 tk = total_of st tk)
          by (eapply total_of_frame; [reflexivity | discriminate]).
        rewrite Hsame. split; [exact Heq | exact Hnum]. }
    destruct (metrics_of_contents content_list st1 seen Hsum Hacc1)
      as (st2 & Hrun & Hacc2 & Hall & Hsc).
    exists st2. split; [exact Hrun|]. split; [exact Hacc2|].
    split; [rewrite Hall | rewrite Hsc]; reflexivity.
Qed.

Lemma metrics_of_buckets (platform_analysis : Buckets) :
  forall (st : MetricsState) (seen : list Dict),
    Forall summable (all_content_of platform_analysis) -> accounts_for st seen ->
    exists st',
      for_each platform_analysis metrics_of_bucket st = (Ok tt, st')
      /\ accounts_for st' (seen ++ all_content_of platform_analysis)
      /\ all_content st' = all_content st ++ all_content_of platform_analysis
      /\ viral_scores st'
         = viral_scores st ++ map viral_score_of (all_content_of platform_analysis).
Proof.
  induction platform_analysis as [|bucket pa IH]; intros st seen Hsum Hacc.
  - exists st. cbn. rewrite !app_nil_r.
    split; [reflexivity|]. split; [exact Hacc|]. split; reflexivity.
  - change (all_content_of (bucket :: pa)) with (snd bucket ++ all_content_of pa) in *.
    apply Forall_app in Hsum. destruct Hsum as [Hb Hpa].
    destruct (metrics_of_bucket_step bucket st seen Hb Hacc)
      as (st1 & Hrun & Hacc1 & Hall & Hsc).
    destruct (IH st1 (seen ++ snd bucket) Hpa Hacc1) as (st2 & Hrun2 & Hacc2 & Hall2 & Hsc2).
    exists st2. cbn [for_each]. erewrite bind_ok by exact Hrun.
    split; [exact Hrun2|]. rewrite <- app_assoc in Hacc2.
    split; [exact Hacc2|].
    rewrite Hall2, Hall, Hsc2, Hsc, map_app, <- !app_assoc. now split.
Qed.

Lemma metrics_start_accounts_for_nothing : accounts_for metrics_start [].
Proof.
  split; [reflexivity|]. intros tk fk Hin. cbn in Hin.
  destruct Hin as [E|[E|[E|[E|[]]]]]; injection E as <- <-;
    (split; [reflexivity | exists 0%Q; reflexivity]).
Qed.

Lemma tallied_summable (r : Dict) : tallied r -> summable r.
Proof.
  assert (Hint : forall k, integer_field k r -> numeric_field k r).
  { intros k (z & Hz & _). unfold numeric_field, field_value in *.
    destruct (dict.get_or r k (VInt 0)); try discriminate; eexists; reflexivity. }
  intros ((z & (q & Hq & _) & _) & H1 & H2 & H3 & H4).
  split; [exists q; exact Hq|]. repeat split; apply Hint; assumption.
Qed.

Lemma integer_fields_added_up (k : string) (content_list : list Dict) :
  Forall (integer_field k) content_list ->
  added_up (VInt 0) (map (field_value k) content_list)
  = VInt (Zsum (map (field_integer k) content_list)).
Proof.
  intros Hall. rewrite added_up_integers.
  - rewrite map_map. reflexivity.
  - apply Forall_map. eapply Forall_impl; [|exact Hall].
    intros r (z & Hz & _). now exists z.
Qed.

(** X14.  When every record carries a whole number from 0 to 100 as viral
    score (as an integer or as a float) and integers of less than 2^64 in
    absolute value as likes, comments, shares and views where it has them,
    and the records are few enough for their scores to add up exactly
    (100 times their number is at most 2^53), [_calculate_viral_metrics]
    counts and adds up all of them: [total_content_analyzed] is the number
    of records, [viral_content_count] the number of records with a score
    of 50 or more, each engagement total the integer sum of its field (0
    where a record lacks it), and, when there is a record,
    [average_viral_score] the float nearest to the mean of the scores. *)
Theorem metrics_count_and_add_up :
  forall platform_analysis : Buckets,
    Forall tallied (all_content_of platform_analysis) ->
    100 * Z.of_nat (List.length (all_content_of platform_analysis)) <= 2 ^ 53 ->
    dict.get (_calculate_viral_metrics platform_analysis) "total_content_analyzed"
    = Some (VInt (Z.of_nat (List.length (all_content_of platform_analysis))))
    /\ dict.get (_calculate_viral_metrics platform_analysis) "viral_content_count"
       = Some (VInt (Z.of_nat (List.length
                       (filter counts_as_viral (all_content_of platform_analysis)))))
    /\ (forall tk fk, In (tk, fk) totals_fields ->
          dict.get_or (subdict (_calculate_viral_metrics platform_analysis)
                               "engagement_totals") tk VNone
          = VInt (Zsum (map (field_integer fk) (all_content_of platform_analysis))))
    /\ (all_content_of platform_analysis <> [] ->
          dict.get (_calculate_viral_metrics platform_analysis) "average_viral_score"
          = Some (VFloat (round_double (mean_score (all_content_of platform_analysis))))).
Proof.
  intros pa Htal Hbound.
  assert (Hsum : Forall summable (all_content_of pa))
    by (eapply Forall_impl; [|exact Htal]; exact tallied_summable).
  destruct (metrics_of_buckets pa metrics_start [] Hsum metrics_start_accounts_for_nothing)
    as (st & Hrun & [Hcount Htot] & Hall & Hsc).
  cbn [app all_content viral_scores metrics_start] in Hall, Hsc, Hcount, Htot.
  assert (Htotals : forall tk fk, In (tk, fk) totals_fields ->
            total_of st tk = VInt (Zsum (map (field_integer fk) (all_content_of pa)))).
  { intros tk fk Hin. destruct (Htot tk fk Hin) as [Heq _]. rewrite Heq.
    apply integer_fields_added_up. eapply Forall_impl; [|exact Htal].
    intros r (_ & H1 & H2 & H3 & H4). cbn in Hin.
    destruct Hin as [E|[E|[E|[E|[]]]]]; injection E as <- <-; assumption. }
  unfold _calculate_viral_metrics.
  erewrite bind_ok by exact Hrun.
  erewrite bind_ok by reflexivity.
  erewrite bind_ok by reflexivity.
  erewrite bind_ok by reflexivity.
  rewrite Hall, Hsc.
  set (st1 := {| metrics := _; all_content := _; viral_scores := _ |}).
  assert (Hm1 : metrics st1 = dict.set (metrics st) "total_content_analyzed"
                                (VInt (Z.of_nat (List.length (all_content_of pa)))))
    by reflexivity.
  change (viral_scores st1) with (map viral_score_of (all_content_of pa)).
  destruct (all_content_of pa) as [|r l] eqn:Eall.
  - cbn [map ret snd]. rewrite Hm1.
    split; [apply dict_get_set_same|].
    split; [now rewrite dict_get_set_other by discriminate|].
    split; [|congruence].
    intros tk fk Hin. etransitivity; [|exact (Htotals tk fk Hin)].
    unfold total_of, subdict. now rewrite dict_get_set_other by discriminate.
  - assert (Hnum : Forall numeric (map viral_score_of (r :: l))).
    { apply Forall_map. eapply Forall_impl; [|exact Hsum].
      intros x (Hx & _). exact Hx. }
    pose proof (py_sum_from_numbers _ (VInt 0) (ex_intro _ 0%Q eq_refl) Hnum) as Hrun_sum.
    assert (Hmean : score_quotient (r :: l) = VFloat (round_double (mean_score (r :: l)))).
    { apply mean_score_of_whole_scores; [discriminate | exact Hbound|].
      eapply Forall_impl; [|exact Htal]. intros x (Hx & _). exact Hx. }
    assert (Hdiv : py_truediv (added_up (VInt 0) (map viral_score_of (r :: l)))
                     (VInt (Z.of_nat (List.length (map viral_score_of (r :: l)))))
                   = Ok (VFloat (round_double (mean_score (r :: l))))).
    { rewrite length_map. unfold score_quotient, quotient in Hmean.
      change (map (field_value "viral_score") (r :: l))
        with (map viral_score_of (r :: l)) in Hmean.
      destruct (py_truediv _ _) as [v|e] eqn:E.
      - now rewrite Hmean.
      - discriminate. }
    cbn [map] in Hrun_sum, Hdiv |- *.
    erewrite bind_ok by (unfold lift, py_sum; rewrite Hrun_sum; reflexivity).
    erewrite bind_ok by (unfold lift; rewrite Hdiv; reflexivity).
    unfold set_metric, modify. cbn [snd metrics]. rewrite Hm1.
    split; [rewrite dict_get_set_other by discriminate; apply dict_get_set_same|].
    split; [now rewrite !dict_get_set_other by discriminate|].
    split.
    + intros tk fk Hin. etransitivity; [|exact (Htotals tk fk Hin)].
      unfold total_of, subdict. now rewrite !dict_get_set_other by discriminate.
    + intros _. apply dict_get_set_same.
Qed.

Lemma metrics_count_and_add_up_witness :
  dict.get (_calculate_viral_metrics sample_buckets) "total_content_analyzed"
  = Some (VInt 5)
  /\ dict.get (_calculate_viral_metrics sample_buckets) "viral_content_count"
     = Some (VInt 2)
  /\ dict.get (_calculate_viral_metrics sample_buckets) "average_viral_score"
     = Some (VFloat (7374644389819187 # 140737488355328)).
Proof.
  assert (H : Forall tallied (all_content_of sample_buckets)).
  { repeat constructor;
      solve [ eexists; split; [eexists; split; [reflexivity|reflexivity] | lia]
            | eexists; split; [reflexivity | reflexivity] ]. }
  assert (Hb : 100 * Z.of_nat (List.length (all_content_of sample_buckets)) <= 2 ^ 53)
    by (apply Z.leb_le; vm_compute; reflexivity).
  destruct (metrics_count_and_add_up sample_buckets H Hb) as (H1 & H2 & _ & H4).
  split; [exact H1|]. split; [exact H2|].
  rewrite H4 by discriminate. vm_compute. reflexivity.
Defined.

(** ** The platform distribution *)










Lemma dict_set_fresh {A : Type} (d : list (string * A)) (k : string) (v : A) :
  dict.get d k = None -> dict.set d k v = d ++ [(k, v)].
Proof.
  induction d as [|[k' v'] d IH]; cbn [dict.get dict.set app]; [reflexivity|].
  destruct (String.eqb k k'); [discriminate|]. intros H. now rewrite IH.
Qed.

Lemma dict_get_snoc_other {A : Type} (d : list (string * A)) (k k' : string) (v : A) :
  k' <> k -> dict.get (d ++ [(k, v)]) k' = dict.get d k'.
Proof.
  intros Hne. induction d as [|[k0 v0] d IH]; cbn [dict.get app].
  - apply String.eqb_neq in Hne. now rewrite Hne.
  - now rewrite IH.
Qed.





(** ** Blocks that leave a part of the state alone *)

Lemma preserves_ret {S A V : Type} (view : S -> V) (a : A) :
  preserves view (ret a : Try S A).
Proof. intros s. reflexivity. Qed.

Lemma preserves_read {S A V : Type} (view : S -> V) (f : S -> result A) :
  preserves view (fun s => (f s, s)).
Proof. intros s. reflexivity. Qed.

Lemma preserves_lift {S A V : Type} (view : S -> V) (r : result A) :
  preserves view (lift r : Try S A).
Proof. intros s. reflexivity. Qed.

Lemma preserves_modify {S V : Type} (view : S -> V) (f : S -> S) :
  (forall s, view (f s) = view s) -> preserves view (modify f).
Proof. intros H s. apply H. Qed.

Lemma preserves_bind {S A B V : Type} (view : S -> V) (m : Try S A)
      (k : A -> Try S B) :
  preserves view m -> (forall a, preserves view (k a)) -> preserves view (bind m k).
Proof.
  intros Hm Hk s. unfold bind. specialize (Hm s).
  destruct (m s) as [[a|e] s1]; cbn [snd] in *.
  - now rewrite Hk.
  - exact Hm.
Qed.

Lemma preserves_for_each {S A V : Type} (view : S -> V) (l : list A)
      (body : A -> Try S unit) :
  (forall x, preserves view (body x)) -> preserves view (for_each l body).
Proof.
  intros Hbody. induction l as [|x l IH]; cbn [for_each].
  - apply preserves_ret.
  - apply preserves_bind; [apply Hbody | intros _; exact IH].
Qed.

(** ** The insights of an empty mapping *)

Lemma insights_of_empty_buckets (platform_analysis : Buckets) (st : InsightsState) :
  Forall (fun bucket => snd bucket = []) platform_analysis ->
  for_each platform_analysis insights_of_bucket st = (Ok tt, st).
Proof.
  induction 1 as [|[platform content_list] pa Hb _ IH]; cbn [for_each]; [reflexivity|].
  cbn [snd] in Hb. subst content_list.
  erewrite bind_ok by reflexivity. exact IH.
Qed.

Lemma empty_buckets_hold_nothing (platform_analysis : Buckets) (k : string) :
  Forall (fun bucket => snd bucket = []) platform_analysis ->
  dict.get_or platform_analysis k [] = [].
Proof.
  unfold dict.get_or.
  induction 1 as [|[platform content_list] pa Hb _ IH]; cbn [dict.get]; [reflexivity|].
  cbn [snd] in Hb. subst content_list.
  destruct (String.eqb k platform); [reflexivity | exact IH].
Qed.

(** X16.  For a mapping with no bucket or with empty buckets only,
    [_generate_engagement_insights] names no best platform (the empty
    text), lists no average engagement, and reports no hashtag: an empty
    list of top hashtags and 0 unique hashtags. *)
Theorem insights_of_nothing :
  forall platform_analysis : Buckets,
    Forall (fun bucket => snd bucket = []) platform_analysis ->
    _generate_engagement_insights platform_analysis
    = [ ("best_performing_platform", VStr "");
        ("average_engagement_by_platform", VDict []);
        ("content_type_insights", VDict []);
        ("hashtag_insights",
         VDict [ ("top_hashtags", VList []); ("total_unique_hashtags", VInt 0) ]);
        ("timing_insights", VDict []) ].
Proof.
  intros pa Hempty. unfold _generate_engagement_insights.
  erewrite bind_ok by (apply insights_of_empty_buckets; exact Hempty).
  rewrite (empty_buckets_hold_nothing pa "instagram" Hempty).
  reflexivity.
Qed.

Lemma insights_of_nothing_witness :
  dict.get (_generate_engagement_insights empty_buckets) "best_performing_platform"
  = Some (VStr "").
Proof.
  rewrite (insights_of_nothing empty_buckets); [reflexivity|].
  repeat constructor.
Defined.

(** ** The means the insights compute *)

Lemma py_truediv_by_length {A : Type} (total : pyval) (l : list A) :
  numeric total -> l <> [] ->
  exists q,
    py_truediv total (VInt (Z.of_nat (List.length l))) = Ok (VFloat q)
    /\ VFloat q = quotient total (VInt (Z.of_nat (List.length l))).
Proof.
  intros [z Hz] Hl.
  assert (E : Qeq_bool (inject_Z (Z.of_nat (List.length l))) 0 = false).
  { unfold Qeq_bool, inject_Z. cbn [Qnum Qden]. rewrite Z.mul_1_r. cbn [Z.mul].
    apply Z.eqb_neq. destruct l; [contradiction | cbn [List.length]; lia]. }
  unfold quotient, py_truediv. rewrite Hz. cbn [as_number]. rewrite E.
  destruct total; try discriminate; cbn [as_double];
    eexists; split; reflexivity.
Qed.

Lemma engagement_value_numbers (r : Dict) :
  summable r ->
  py_add (dict.get_or r "likes" (VInt 0)) (dict.get_or r "comments" (VInt 0))
  = Ok (plus (field_value "likes" r) (field_value "comments" r))
  /\ py_add (plus (field_value "likes" r) (field_value "comments" r))
            (dict.get_or r "shares" (VInt 0))
     = Ok (engagement_value r)
  /\ numeric (engagement_value r).
Proof.
  intros (_ & Hy1 & Hy2 & Hy3 & _).
  destruct (py_add_numbers _ _ Hy1 Hy2) as [Hadd2 Hnum2].
  destruct (py_add_numbers _ _ Hnum2 Hy3) as [Hadd3 Hnum3].
  split; [exact Hadd2|]. split; [exact Hadd3 | exact Hnum3].
Qed.

Lemma engagement_sum_numbers (content_list : list Dict) :
  forall acc : pyval,
    numeric acc -> Forall summable content_list ->
    engagement_sum acc content_list
    = Ok (added_up acc (map engagement_value content_list))
    /\ numeric (added_up acc (map engagement_value content_list)).
Proof.
  induction content_list as [|r l IH]; intros acc Hacc Hall;
    cbn [engagement_sum map added_up fold_left].
  - split; [reflexivity | exact Hacc].
  - inversion Hall as [|? ? Hr Hrest]; subst.
    destruct (engagement_value_numbers r Hr) as (Hadd2 & Hadd3 & Hnum3).
    rewrite Hadd2, Hadd3.
    destruct (py_add_numbers _ _ Hacc Hnum3) as [Hadd Hnum]. rewrite Hadd.
    exact (IH _ Hnum Hrest).
Qed.

Lemma insights_of_bucket_step (platform : string) (r : Dict) (l : list Dict)
      (st : InsightsState) :
  Forall summable (r :: l) ->
  exists st' q a,
    insights_of_bucket (platform, r :: l) st = (Ok tt, st')
    /\ platform_scores st' = dict.set (platform_scores st) platform (VFloat q)
    /\ VFloat q = score_quotient (r :: l)
    /\ engagement_by_platform st'
       = dict.set (engagement_by_platform st) platform (VFloat a)
    /\ VFloat a = engagement_quotient (r :: l)
    /\ hashtag_counts st' = hashtag_counts st
    /\ dict.get (insights st') "best_performing_platform"
       = dict.get (insights st) "best_performing_platform"
    /\ dict.get (insights st') "average_engagement_by_platform"
       = Some (VDict (engagement_by_platform st')).
Proof.
  intros Hsum.
  assert (Hnum : Forall numeric
                        (map (fun content => dict.get_or content "viral_score" (VInt 0))
                             (r :: l))).
  { apply Forall_map. eapply Forall_impl; [|exact Hsum]. intros x (Hx & _). exact Hx. }
  assert (Hzero : numeric (VInt 0)) by (exists 0%Q; reflexivity).
  pose proof (py_sum_from_numbers _ (VInt 0) Hzero Hnum) as Hrun_sum.
  pose proof (added_up_numbers _ (VInt 0) Hzero Hnum) as Htotal.
  destruct (engagement_sum_numbers (r :: l) (VInt 0) Hzero Hsum) as [Hrun_eng Hnum_eng].
  assert (Hne : r :: l <> []) by discriminate.
  assert (Hne' : map (fun content => dict.get_or content "viral_score" (VInt 0)) (r :: l)
                 <> []) by discriminate.
  destruct (py_truediv_by_length _ _ Htotal Hne') as (q & Hdiv & Hq).
  destruct (py_truediv_by_length _ _ Hnum_eng Hne) as (a & Hdive & Ha).
  exists {| insights :=
              dict.set (insights st) "average_engagement_by_platform"
                       (VDict (dict.set (subdict (insights st)
                                                 "average_engagement_by_platform")
                                        platform (VFloat a)));
            platform_scores := dict.set (platform_scores st) platform (VFloat q);
            hashtag_counts := hashtag_counts st |}, q, a.
  split; [|split; [|split; [|split; [|split; [|split; [|split]]]]]].
  - unfold insights_of_bucket. cbv beta iota zeta.
    erewrite bind_ok by (unfold lift, py_sum; rewrite Hrun_sum; reflexivity).
    erewrite bind_ok by (unfold lift; rewrite Hdiv; reflexivity).
    erewrite bind_ok by reflexivity.
    erewrite bind_ok by (unfold lift; rewrite Hrun_eng; reflexivity).
    erewrite bind_ok by (unfold lift; rewrite Hdive; reflexivity).
    reflexivity.
  - reflexivity.
  - rewrite length_map in Hq. exact Hq.
  - unfold engagement_by_platform, subdict at 1. cbn [insights].
    rewrite dict_get_set_same. reflexivity.
  - exact Ha.
  - reflexivity.
  - cbn [insights]. now rewrite dict_get_set_other by discriminate.
  - unfold engagement_by_platform, subdict. cbn [insights].
    rewrite dict_get_set_same. reflexivity.
Qed.

Lemma insights_of_buckets (platform_analysis : Buckets) :
  forall st : InsightsState,
    Forall summable (all_content_of platform_analysis) ->
    NoDup (map fst platform_analysis) ->
    (forall bucket, In bucket platform_analysis ->
       dict.get (platform_scores st) (fst bucket) = None
       /\ dict.get (engagement_by_platform st) (fst bucket) = None) ->
    dict.get (insights st) "average_engagement_by_platform"
    = Some (VDict (engagement_by_platform st)) ->
    exists st' scores engagement,
      for_each platform_analysis insights_of_bucket st = (Ok tt, st')
      /\ platform_scores st' = platform_scores st ++ scores
      /\ Forall2 (holds_value score_quotient) scores (nonempty_buckets platform_analysis)
      /\ engagement_by_platform st' = engagement_by_platform st ++ engagement
      /\ Forall2 (holds_value engagement_quotient) engagement
                 (nonempty_buckets platform_analysis)
      /\ hashtag_counts st' = hashtag_counts st
      /\ dict.get (insights st') "best_performing_platform"
         = dict.get (insights st) "best_performing_platform"
      /\ dict.get (insights st') "average_engagement_by_platform"
         = Some (VDict (engagement_by_platform st')).
Proof.
  induction platform_analysis as [|[platform content_list] pa IH];
    intros st Hsum Hnd Hfresh Hhas.
  - exists st, [], []. cbn. rewrite !app_nil_r.
    repeat split; try constructor. exact Hhas.
  - change (all_content_of ((platform, content_list) :: pa))
      with (content_list ++ all_content_of pa) in Hsum.
    apply Forall_app in Hsum. destruct Hsum as [Hb Hpa].
    cbn [map fst] in Hnd. inversion Hnd as [|? ? Hnotin Hnd']; subst.
    destruct content_list as [|r l].
    + destruct (IH st Hpa Hnd') as (st' & ps & es & Hrun & H);
        [intros b Hin; apply Hfresh; now right | exact Hhas |].
      exists st', ps, es. cbn [for_each]. erewrite bind_ok by reflexivity.
      split; [exact Hrun | exact H].
    + destruct (insights_of_bucket_step platform r l st Hb)
        as (st1 & q & a & Hrun1 & Hps1 & Hq & Hes1 & Ha & Hh1 & Hbest1 & Hhas1).
      destruct (Hfresh (platform, r :: l)) as [Hf1 Hf2]; [now left|]. cbn [fst] in Hf1, Hf2.
      rewrite dict_set_fresh in Hps1 by exact Hf1.
      rewrite dict_set_fresh in Hes1 by exact Hf2.
      destruct (IH st1 Hpa Hnd')
        as (st' & ps & es & Hrun & Hps & Hmeans & Hes & Hmeans' & Hh & Hbest & Hhas').
      2: exact Hhas1.
      { intros b Hin.
        assert (Hneq : fst b <> platform)
          by (intros E; apply Hnotin; rewrite <- E; now apply in_map).
        rewrite Hps1, Hes1, !dict_get_snoc_other by exact Hneq.
        apply Hfresh. now right. }
      exists st', ((platform, VFloat q) :: ps), ((platform, VFloat a) :: es).
      cbn [for_each]. erewrite bind_ok by exact Hrun1.
      split; [exact Hrun|].
      split; [rewrite Hps, Hps1, <- app_assoc; reflexivity|].
      split; [constructor; [split; [reflexivity | now exists q] | exact Hmeans]|].
      split; [rewrite Hes, Hes1, <- app_assoc; reflexivity|].
      split; [constructor; [split; [reflexivity | now exists a] | exact Hmeans']|].
      split; [congruence|]. split; [congruence | exact Hhas'].
Qed.

Lemma max_key_from_floats (rest : list (string * pyval)) :
  forall best : string * pyval,
    (exists q, snd best = VFloat q) ->
    Forall (fun item => exists q, snd item = VFloat q) rest ->
    exists k q before after,
      max_key_from best rest = Ok k
      /\ best :: rest = before ++ (k, VFloat q) :: after
      /\ (forall x, In x before -> (number_of (snd x) < q)%Q)
      /\ (forall x, In x after -> (number_of (snd x) <= q)%Q).
Proof.
  induction rest as [|item rest IH]; intros [kb vb] [qb Hqb] Hall; cbn [snd] in Hqb;
    subst vb; cbn [max_key_from fst snd].
  - exists kb, qb, [], []. repeat split; intros x [].
  - inversion Hall as [|? ? [qi Hqi] Hrest]; subst.
    destruct item as [ki vi]. cbn [snd] in Hqi. subst vi. cbn [snd].
    rewrite (py_lt_num (VFloat qb) (VFloat qi) qb qi eq_refl eq_refl).
    destruct (Qle_bool qi qb) eqn:E; cbn [negb].
    + apply Qle_bool_iff in E.
      destruct (IH (kb, VFloat qb)) as (k & q & before & after & Hrun & Hsplit & Hlt & Hle);
        [now exists qb | exact Hrest |].
      exists k, q. destruct before as [|b0 before]; cbn [app] in Hsplit.
      * injection Hsplit as <- <- <-.
        exists [], ((ki, VFloat qi) :: rest).
        split; [exact Hrun|]. split; [reflexivity|]. split; [intros x []|].
        intros x [<-|Hx]; [exact E | now apply Hle].
      * injection Hsplit as <- ->.
        exists ((kb, VFloat qb) :: (ki, VFloat qi) :: before), after.
        split; [exact Hrun|]. split; [reflexivity|]. split; [|exact Hle].
        assert (Hb : (qb < q)%Q) by (apply (Hlt (kb, VFloat qb)); now left).
        intros x [<-|[<-|Hx]]; cbn [snd number_of as_number].
        -- exact Hb.
        -- eapply Qle_lt_trans; [exact E | exact Hb].
        -- apply Hlt. now right.
    + assert (Hlt0 : (qb < qi)%Q).
      { apply Qnot_le_lt. intros Hle. apply Qle_bool_iff in Hle. congruence. }
      destruct (IH (ki, VFloat qi)) as (k & q & before & after & Hrun & Hsplit & Hlt & Hle);
        [now exists qi | exact Hrest |].
      exists k, q, ((kb, VFloat qb) :: before), after.
      split; [exact Hrun|]. split; [cbn [app]; now rewrite Hsplit|]. split; [|exact Hle].
      intros x [<-|Hx]; [|now apply Hlt]. cbn [snd number_of as_number].
      destruct before as [|b0 before]; cbn [app] in Hsplit.
      * injection Hsplit as _ <- _. exact Hlt0.
      * injection Hsplit as <- _. eapply Qlt_trans; [exact Hlt0|].
        apply (Hlt (ki, VFloat qi)). now left.
Qed.

Lemma Forall2_In_r {A B : Type} (R : A -> B -> Prop) (l : list A) (l' : list B) (y : B) :
  Forall2 R l l' -> In y l' -> exists x, In x l /\ R x y.
Proof.
  induction 1 as [|x y' l l' Hxy _ IH]; intros Hin; [destruct Hin|].
  destruct Hin as [<-|Hin].
  - exists x. split; [now left | exact Hxy].
  - destruct (IH Hin) as (x' & Hx' & HR). exists x'. split; [now right | exact HR].
Qed.

Lemma count_hashtag_keeps_insights (k : string) (hashtag : pyval) :
  preserves (fun st => dict.get (insights st) k) (count_hashtag hashtag).
Proof. destruct hashtag; intros st; reflexivity. Qed.

Lemma insights_start_is_fresh (platform_analysis : Buckets) :
  forall bucket : string * list Dict,
    In bucket platform_analysis ->
    dict.get (platform_scores insights_start) (fst bucket) = None
    /\ dict.get (engagement_by_platform insights_start) (fst bucket) = None.
Proof. intros bucket _. split; reflexivity. Qed.

Ltac preserves_steps :=
  repeat first
    [ apply preserves_ret
    | apply preserves_lift
    | apply preserves_read
    | apply count_hashtag_keeps_insights
    | apply preserves_for_each; intros ?
    | apply preserves_bind; [|intros ?] ].

Lemma nonempty_buckets_of_content (platform_analysis : Buckets) :
  all_content_of platform_analysis <> [] -> nonempty_buckets platform_analysis <> [].
Proof.
  induction platform_analysis as [|[platform [|r l]] pa IH]; intros Hne.
  - now contradiction Hne.
  - exact (IH Hne).
  - discriminate.
Qed.

Lemma Forall2_impl_In_r {A B : Type} (R R' : A -> B -> Prop) (l : list A) (l' : list B) :
  (forall x y, In y l' -> R x y -> R' x y) -> Forall2 R l l' -> Forall2 R' l l'.
Proof.
  intros H HF. induction HF as [|x y l l' Hxy _ IH]; constructor.
  - apply H; [now left | exact Hxy].
  - apply IH. intros x' y' Hin. apply H. now right.
Qed.

Lemma nonempty_buckets_content (P : Dict -> Prop) (platform_analysis : Buckets) :
  Forall P (all_content_of platform_analysis) ->
  forall bucket, In bucket (nonempty_buckets platform_analysis) ->
    Forall P (snd bucket)
    /\ snd bucket <> []
    /\ (List.length (snd bucket) <= List.length (all_content_of platform_analysis))%nat.
Proof.
  induction platform_analysis as [|[platform content_list] pa IH]; intros Hall bucket Hin;
    [destruct Hin|].
  change (all_content_of ((platform, content_list) :: pa))
    with (content_list ++ all_content_of pa) in *.
  apply Forall_app in Hall. destruct Hall as [Hb Hpa]. rewrite length_app.
  unfold nonempty_buckets in Hin. cbn [filter snd] in Hin.
  destruct content_list as [|r l]; cbn [is_nonempty] in Hin.
  - destruct (IH Hpa bucket Hin) as (H1 & H2 & H3). repeat split; try assumption.
  - destruct Hin as [<-|Hin].
    + cbn [snd]. split; [exact Hb|]. split; [discriminate | lia].
    + destruct (IH Hpa bucket Hin) as (H1 & H2 & H3). repeat split; try assumption. lia.
Qed.

Lemma field_number_integer (k : string) (r : Dict) :
  integer_field k r -> field_number k r = inject_Z (field_integer k r).
Proof.
  intros (z & Hz & _).
  unfold field_number, field_integer, number_of, integer_of, field_value in *.
  destruct (dict.get_or r k (VInt 0)) as [|b| | | | | |]; try discriminate;
    cbn [as_number integer_value]; [destruct b|]; reflexivity.
Qed.

Lemma engagement_value_integers (r : Dict) :
  tallied r ->
  engagement_value r = VInt (engagement_integer r)
  /\ (engagement_of r == inject_Z (engagement_integer r))%Q.
Proof.
  intros (_ & H1 & H2 & H3 & _). split.
  - destruct H1 as (z1 & Hz1 & _), H2 as (z2 & Hz2 & _), H3 as (z3 & Hz3 & _).
    unfold engagement_value, engagement_integer, field_integer, integer_of.
    rewrite (plus_integers _ _ z1 z2 Hz1 Hz2).
    rewrite (plus_integers (VInt (z1 + z2)) _ (z1 + z2) z3 eq_refl Hz3).
    now rewrite Hz1, Hz2, Hz3.
  - unfold engagement_of, engagement_integer.
    rewrite (field_number_integer _ _ H1), (field_number_integer _ _ H2),
      (field_number_integer _ _ H3), !inject_Z_plus. reflexivity.
Qed.

Lemma mean_engagement_of_integers (content_list : list Dict) :
  content_list <> [] ->
  Forall tallied content_list ->
  engagement_quotient content_list = VFloat (round_double (mean_engagement content_list)).
Proof.
  intros Hne Hall.
  assert (Hvalues : map engagement_value content_list
                    = map (fun r => VInt (engagement_integer r)) content_list).
  { apply map_ext_in. intros r Hr. rewrite Forall_forall in Hall.
    exact (proj1 (engagement_value_integers r (Hall r Hr))). }
  assert (Hsum : (Qsum (map engagement_of content_list)
                  == inject_Z (Zsum (map engagement_integer content_list)))%Q).
  { clear Hne Hvalues. induction Hall as [|r l Hr _ IH]; [reflexivity|].
    cbn [map Qsum Zsum fold_right].
    fold (Qsum (map engagement_of l)). fold (Zsum (map engagement_integer l)).
    rewrite IH, (proj2 (engagement_value_integers r Hr)), inject_Z_plus. reflexivity. }
  assert (Hlen : 0 < Z.of_nat (List.length content_list))
    by (destruct content_list; [contradiction | cbn [List.length]; lia]).
  unfold engagement_quotient, quotient.
  rewrite Hvalues, added_up_integers.
  - rewrite (py_truediv_int _ _ Hlen). f_equal. apply round_double_Qeq.
    unfold mean_engagement. rewrite Hsum, map_map. cbn [integer_of integer_value].
    rewrite Z.add_0_l. reflexivity.
  - apply Forall_map, Forall_forall. intros r _. eexists. reflexivity.
Qed.

Lemma bucket_length_bound (n m : nat) :
  (n <= m)%nat -> 100 * Z.of_nat m <= 2 ^ 53 -> 100 * Z.of_nat n <= 2 ^ 53.
Proof. intros. lia. Qed.

(** X17.  When every record carries a whole number from 0 to 100 as viral
    score and integers of less than 2^64 in absolute value as likes,
    comments, shares and views where it has them, 100 times the number of
    records is at most 2^53, no two buckets share a name and there is a
    record, [best_performing_platform] is the first bucket, in the order
    of the mapping, among the non-empty buckets with the highest mean
    viral score as the code computes it, the float nearest to the mean:
    every non-empty bucket before it has a lower one and none after it has
    a higher one. *)
Theorem best_platform_has_highest_mean_score :
  forall platform_analysis : Buckets,
    Forall tallied (all_content_of platform_analysis) ->
    100 * Z.of_nat (List.length (all_content_of platform_analysis)) <= 2 ^ 53 ->
    NoDup (map fst platform_analysis) ->
    all_content_of platform_analysis <> [] ->
    exists best content_list before after,
      dict.get (_generate_engagement_insights platform_analysis)
               "best_performing_platform" = Some (VStr best)
      /\ nonempty_buckets platform_analysis = before ++ (best, content_list) :: after
      /\ (forall bucket, In bucket before ->
            (round_double (mean_score (snd bucket))
             < round_double (mean_score content_list))%Q)
      /\ (forall bucket, In bucket after ->
            (round_double (mean_score (snd bucket))
             <= round_double (mean_score content_list))%Q).
Proof.
  intros pa Htal Hbound Hnd Hne.
  assert (Hsum : Forall summable (all_content_of pa))
    by (eapply Forall_impl; [|exact Htal]; exact tallied_summable).
  destruct (insights_of_buckets pa insights_start Hsum Hnd
              (insights_start_is_fresh pa) eq_refl)
    as (st1 & ps & es & Hrun & Hps & Hvalues & _).
  cbn [platform_scores insights_start app] in Hps.
  assert (Hmeans : Forall2 (holds_mean mean_score) ps (nonempty_buckets pa)).
  { eapply Forall2_impl_In_r; [|exact Hvalues].
    intros entry bucket Hin [Hname (q & Hq & Hv)].
    destruct (nonempty_buckets_content tallied pa Htal bucket Hin) as (Hb & Hbne & Hlen).
    split; [exact Hname|]. rewrite Hq, Hv.
    apply mean_score_of_whole_scores; [exact Hbne | |].
    - exact (bucket_length_bound _ _ Hlen Hbound).
    - eapply Forall_impl; [|exact Hb]. intros r (Hr & _). exact Hr. }
  assert (Hfloats : Forall (fun item : string * pyval => exists q, snd item = VFloat q) ps).
  { clear - Hmeans. induction Hmeans as [|x y l l' [_ Hq] _ IH]; constructor;
      [eexists; exact Hq | exact IH]. }
  destruct ps as [|first others].
  { exfalso. apply (nonempty_buckets_of_content pa Hne). now inversion Hmeans. }
  inversion Hfloats as [|? ? Hfirst Hothers]; subst.
  destruct (max_key_from_floats others first Hfirst Hothers)
    as (k & q & before & after & Hmax & Hsplit & Hlt & Hle).
  rewrite Hsplit in Hmeans.
  apply Forall2_app_inv_l in Hmeans.
  destruct Hmeans as (bb & rest & Hbefore & Hrest & Hbuckets).
  inversion Hrest as [|? [best content_list] ? ba [Hname Hq'] Hafter]; subst.
  cbn [fst snd] in Hname, Hq'. injection Hq' as ->. subst k.
  exists best, content_list, bb, ba.
  split; [|split; [exact Hbuckets|split]].
  - unfold _generate_engagement_insights.
    erewrite bind_ok by exact Hrun.
    erewrite bind_ok by reflexivity.
    rewrite Hps. cbv beta iota.
    erewrite bind_ok
      by (erewrite bind_ok by (unfold lift; rewrite Hmax; reflexivity); reflexivity).
    match goal with
    | |- dict.get (insights (snd (?tail ?s))) ?key = _ =>
        assert (Htail : preserves (fun st => dict.get (insights st) key) tail);
        [|etransitivity; [exact (Htail s)|]]
    end.
    + preserves_steps. intros st. cbn [set_insight modify snd insights].
      now rewrite dict_get_set_other by discriminate.
    + cbn [insights]. apply dict_get_set_same.
  - intros bucket Hin.
    destruct (Forall2_In_r _ _ _ _ Hbefore Hin) as (x & Hx & _ & Hqx).
    specialize (Hlt x Hx). rewrite Hqx in Hlt. exact Hlt.
  - intros bucket Hin.
    destruct (Forall2_In_r _ _ _ _ Hafter Hin) as (x & Hx & _ & Hqx).
    specialize (Hle x Hx). rewrite Hqx in Hle. exact Hle.
Qed.

Lemma best_platform_has_highest_mean_score_witness :
  exists content_list before after,
    dict.get (_generate_engagement_insights sample_buckets)
             "best_performing_platform" = Some (VStr "instagram")
    /\ nonempty_buckets sample_buckets = before ++ ("instagram", content_list) :: after
    /\ (forall bucket, In bucket before ->
          (round_double (mean_score (snd bucket))
           < round_double (mean_score content_list))%Q)
    /\ (forall bucket, In bucket after ->
          (round_double (mean_score (snd bucket))
           <= round_double (mean_score content_list))%Q).
Proof.
  assert (Htal : Forall tallied (all_content_of sample_buckets)).
  { repeat constructor;
      solve [ eexists; split; [eexists; split; [reflexivity|reflexivity] | lia]
            | eexists; split; [reflexivity | reflexivity] ]. }
  assert (Hbound : 100 * Z.of_nat (List.length (all_content_of sample_buckets)) <= 2 ^ 53)
    by (apply Z.leb_le; vm_compute; reflexivity).
  assert (Hnd : NoDup (map fst sample_buckets))
    by (repeat constructor; cbn; intuition discriminate).
  destruct (best_platform_has_highest_mean_score sample_buckets Htal Hbound Hnd
              ltac:(discriminate))
    as (best & content_list & before & after & Hget & Hsplit & Hlt & Hle).
  assert (Hbest : dict.get (_generate_engagement_insights sample_buckets)
                           "best_performing_platform" = Some (VStr "instagram"))
    by (vm_compute; reflexivity).
  rewrite Hbest in Hget. injection Hget as <-.
  exists content_list, before, after. repeat split; assumption.
Defined.

(** X18.  When every record carries a whole number from 0 to 100 as viral
    score and integers of less than 2^64 in absolute value as likes,
    comments, shares and views where it has them, and no two buckets share
    a name, [average_engagement_by_platform] has one entry for each bucket
    that holds a record, in the order of the mapping: the float nearest to
    the mean of likes + comments + shares over the bucket's records, a
    missing field counting as 0.  Empty buckets have no entry. *)
Theorem average_engagement_is_the_mean_per_bucket :
  forall platform_analysis : Buckets,
    Forall tallied (all_content_of platform_analysis) ->
    NoDup (map fst platform_analysis) ->
    exists engagement,
      dict.get (_generate_engagement_insights platform_analysis)
               "average_engagement_by_platform" = Some (VDict engagement)
      /\ Forall2 (holds_mean mean_engagement) engagement
                 (nonempty_buckets platform_analysis).
Proof.
  intros pa Htal Hnd.
  assert (Hsum : Forall summable (all_content_of pa))
    by (eapply Forall_impl; [|exact Htal]; exact tallied_summable).
  destruct (insights_of_buckets pa insights_start Hsum Hnd
              (insights_start_is_fresh pa) eq_refl)
    as (st1 & ps & es & Hrun & _ & _ & Hes & Hvalues & _ & _ & Hhas).
  change (engagement_by_platform insights_start) with (@nil (string * pyval)) in Hes.
  cbn [app] in Hes. rewrite Hes in Hhas.
  exists es. split.
  2:{ eapply Forall2_impl_In_r; [|exact Hvalues].
      intros entry bucket Hin [Hname (q & Hq & Hv)].
      destruct (nonempty_buckets_content tallied pa Htal bucket Hin) as (Hb & Hbne & _).
      split; [exact Hname|]. rewrite Hq, Hv.
      now apply mean_engagement_of_integers. }
  unfold _generate_engagement_insights.
  erewrite bind_ok by exact Hrun.
  match goal with
  | |- dict.get (insights (snd (?tail ?s))) ?key = _ =>
      assert (Htail : preserves (fun st => dict.get (insights st) key) tail);
      [|etransitivity; [exact (Htail s) | exact Hhas]]
  end.
  apply preserves_bind; [apply preserves_read | intros scores].
  apply preserves_bind.
  - destruct scores; preserves_steps.
    intros st. cbn [set_insight modify snd insights].
    now rewrite dict_get_set_other by discriminate.
  - intros _. preserves_steps.
    intros st. cbn [set_insight modify snd insights].
    now rewrite dict_get_set_other by discriminate.
Qed.

Lemma average_engagement_is_the_mean_per_bucket_witness :
  dict.get (_generate_engagement_insights engaged_buckets)
           "average_engagement_by_platform"
  = Some (VDict [ ("instagram", VFloat (4691249611844267 # 140737488355328));
                  ("youtube", VFloat (7 # 2)) ])
  /\ Forall2 (holds_mean mean_engagement)
             [ ("instagram", VFloat (4691249611844267 # 140737488355328));
               ("youtube", VFloat (7 # 2)) ]
             (nonempty_buckets engaged_buckets).
Proof.
  assert (Htal : Forall tallied (all_content_of engaged_buckets)).
  { repeat constructor;
      solve [ eexists; split; [eexists; split; [reflexivity|reflexivity] | lia]
            | eexists; split; [reflexivity | reflexivity] ]. }
  assert (Hnd : NoDup (map fst engaged_buckets))
    by (repeat constructor; cbn; intuition discriminate).
  destruct (average_engagement_is_the_mean_per_bucket engaged_buckets Htal Hnd)
    as (engagement & Hget & Hmeans).
  assert (Hvalue : dict.get (_generate_engagement_insights engaged_buckets)
                            "average_engagement_by_platform"
                   = Some (VDict [ ("instagram",
                                    VFloat (4691249611844267 # 140737488355328));
                                   ("youtube", VFloat (7 # 2)) ]))
    by (vm_compute; reflexivity).
  split; [exact Hvalue|].
  rewrite Hvalue in Hget. injection Hget as <-. exact Hmeans.
Defined.


(** ** The report of a run *)

Section EntryPoint.

Context {rt : Runtime}.

Lemma _save_analysis_results_outcome (results : Dict) (session_id : string) (w : World) :
  _save_analysis_results results session_id w
  = (Ok tt, {| clock := S (clock w); slept := slept w;
               written := (report_path session_id (now_strftime (clock w)), results)
                          :: written w |}).
Proof.
  unfold _save_analysis_results, catch, bind, report_path. cbn [clock slept written].
  destruct (write_json _ results) as [[]|e]; reflexivity.
Qed.

Lemma analysis_phases_completed (search_results : pyval) (session_id : string)
      (max_captures : pyval) (w w1 : World) (started : pyval)
      (captured : list Dict) (pa : Buckets) :
  py_slice_to (_identify_viral_content search_results) max_captures = Ok captured ->
  _analyze_with_instascrape captured w = (Ok pa, w1) ->
  analysis_phases search_results session_id max_captures
                  (w, new_analysis_results session_id started)
  = (Ok tt,
     ({| clock := S (S (clock w1)); slept := slept w1;
         written := (report_path session_id (now_strftime (S (clock w1))),
                     report session_id started (_identify_viral_content search_results)
                            pa (VStr (now_isoformat (clock w1))))
                    :: written w1 |},
      report session_id started (_identify_viral_content search_results)
             pa (VStr (now_isoformat (clock w1))))).
Proof.
  intros Hslice Hpa. unfold analysis_phases.
  erewrite bind_ok by reflexivity. cbn [fst snd].
  erewrite bind_ok by (unfold lift; rewrite Hslice; reflexivity).
  erewrite bind_ok by (apply in_world_run; exact Hpa).
  do 4 (erewrite bind_ok by reflexivity; cbn [fst snd]).
  erewrite bind_ok by (apply in_world_run; reflexivity).
  do 3 (erewrite bind_ok by reflexivity; cbn [fst snd]).
  erewrite in_world_run by apply _save_analysis_results_outcome.
  reflexivity.
Qed.

Lemma analysis_phases_failed (search_results : pyval) (session_id : string)
      (max_captures : pyval) (w : World) (d : Dict) (e : exn) :
  py_slice_to (_identify_viral_content search_results) max_captures = Raise e ->
  analysis_phases search_results session_id max_captures (w, d)
  = (Raise e,
     (w, dict.set d "viral_content_identified"
                  (VList (map VDict (_identify_viral_content search_results))))).
Proof.
  intros Hslice. unfold analysis_phases.
  erewrite bind_ok by reflexivity. cbn [fst snd].
  erewrite bind_raise by (unfold lift; rewrite Hslice; reflexivity).
  reflexivity.
Qed.

Lemma py_slice_to_index {A : Type} (l : list A) (n : pyval) :
  if is_slice_index n then exists l', py_slice_to l n = Ok l'
  else exists e, py_slice_to l n = Raise e.
Proof. destruct n; cbn; eexists; reflexivity. Qed.

(** X19.  A run whose cap is accepted by the slice completes: it returns
    the report with the session id, the start time, all the candidates of
    the filter (also those beyond the cap), an empty screenshot list, the
    metrics, top ten performers and insights of the adapter's output on the
    capped candidates, the completion time and [success = True]; and it
    tries to write that same dictionary, once, to
    [viral_data/viral_analysis_<session_id>_<stamp>.json].  The run returns
    the report whether or not the write succeeds. *)
Theorem completed_run_returns_and_writes_its_report :
  forall (search_results : pyval) (session_id : string) (max_captures : pyval)
         (w w1 : World) (captured : list Dict) (pa : Buckets),
    py_slice_to (_identify_viral_content search_results) max_captures = Ok captured ->
    _analyze_with_instascrape captured (tick w) = (Ok pa, w1) ->
    analyze_and_capture_viral_content search_results session_id max_captures w
    = (Ok (report session_id (VStr (now_isoformat (clock w)))
                  (_identify_viral_content search_results) pa
                  (VStr (now_isoformat (clock w1)))),
       {| clock := S (S (clock w1)); slept := slept w1;
          written := (report_path session_id (now_strftime (S (clock w1))),
                      report session_id (VStr (now_isoformat (clock w)))
                             (_identify_viral_content search_results) pa
                             (VStr (now_isoformat (clock w1))))
                     :: written w |}).
Proof.
  intros sr sid mc w w1 captured pa Hslice Hpa.
  pose proof (_analyze_with_instascrape_writes_nothing captured (tick w)) as Hw.
  rewrite Hpa in Hw. cbn [snd tick written] in Hw.
  unfold analyze_and_capture_viral_content.
  unfold bind at 1, datetime_now_isoformat at 1. unfold catch.
  fold (tick w).
  rewrite (analysis_phases_completed sr sid mc (tick w) w1 _ captured pa Hslice Hpa).
  cbn [fst snd]. now rewrite Hw.
Qed.

(** X20.  The outcome of a run depends on the cap alone: the run reports
    [success = True] and tries to write one file when [max_captures] is an
    integer, a boolean or [None], and reports [success = False] and writes
    nothing for any other value, whatever the search results hold and
    whatever the scraper does.  In both cases the result carries the
    session id, all the candidates of the filter and an empty screenshot
    list. *)
Theorem run_succeeds_iff_cap_is_an_index :
  forall (search_results : pyval) (session_id : string) (max_captures : pyval)
         (w : World),
    exists analysis_results w',
      analyze_and_capture_viral_content search_results session_id max_captures w
      = (Ok analysis_results, w')
      /\ dict.get analysis_results "success" = Some (VBool (is_slice_index max_captures))
      /\ List.length (written w')
         = ((if is_slice_index max_captures then 1 else 0) + List.length (written w))%nat
      /\ dict.get analysis_results "session_id" = Some (VStr session_id)
      /\ dict.get analysis_results "viral_content_identified"
         = Some (VList (map VDict (_identify_viral_content search_results)))
      /\ dict.get analysis_results "screenshots_captured" = Some (VList []).
Proof.
  intros sr sid mc w.
  pose proof (py_slice_to_index (_identify_viral_content sr) mc) as Hidx.
  destruct (is_slice_index mc).
  - destruct Hidx as [captured Hslice].
    destruct (_analyze_with_instascrape_returns captured (tick w)) as (pa & w1 & Hpa).
    pose proof (_analyze_with_instascrape_writes_nothing captured (tick w)) as Hw.
    rewrite Hpa in Hw. cbn [snd tick written] in Hw.
    unfold analyze_and_capture_viral_content.
    unfold bind at 1, datetime_now_isoformat at 1. unfold catch.
    fold (tick w).
    rewrite (analysis_phases_completed sr sid mc (tick w) w1 _ captured pa Hslice Hpa).
    cbn [fst snd]. eexists. eexists. split; [reflexivity|].
    cbn [written List.length]. rewrite Hw. repeat split.
  - destruct Hidx as [e Hslice].
    unfold analyze_and_capture_viral_content.
    unfold bind at 1, datetime_now_isoformat at 1. unfold catch.
    fold (tick w).
    rewrite (analysis_phases_failed sr sid mc (tick w) _ e Hslice).
    unfold analysis_failed.
    erewrite bind_ok by reflexivity. cbn [set_result modify fst snd].
    eexists. eexists. split; [reflexivity|]. repeat split.
Qed.

Lemma slice_to_length {A : Type} (l : list A) (n : Z) :
  0 <= n -> (List.length (slice_to l n) <= Nat.min (Z.to_nat n) (List.length l))%nat.
Proof.
  intros Hn. unfold slice_to.
  destruct (Z.leb_spec 0 n); [|lia]. rewrite length_firstn. lia.
Qed.

(** X21.  With a cap [max_captures = n >= 0], a run files at most [n]
    records, and no more than the filter found candidates: the
    [platform_analysis] of the result is a mapping whose buckets hold at
    most [min n (number of candidates)] records together, and the metrics,
    top performers and insights of the result are those of that mapping. *)
Theorem run_files_at_most_max_captures :
  forall (search_results : pyval) (session_id : string) (n : Z) (w : World),
    0 <= n ->
    exists analysis_results w' pa,
      analyze_and_capture_viral_content search_results session_id (VInt n) w
      = (Ok analysis_results, w')
      /\ dict.get analysis_results "platform_analysis" = Some (buckets_value pa)
      /\ (List.length (all_content_of pa)
          <= Nat.min (Z.to_nat n)
                     (List.length (_identify_viral_content search_results)))%nat
      /\ dict.get analysis_results "viral_metrics"
         = Some (VDict (_calculate_viral_metrics pa))
      /\ dict.get analysis_results "top_performers"
         = Some (VList (map VDict (_get_top_performers pa 10)))
      /\ dict.get analysis_results "engagement_insights"
         = Some (VDict (_generate_engagement_insights pa)).
Proof.
  intros sr sid n w Hn.
  destruct (_analyze_with_instascrape_appends (slice_to (_identify_viral_content sr) n)
                                              (tick w))
    as (pa & w1 & Hpa & Hlen & _).
  pose proof (slice_to_length (_identify_viral_content sr) n Hn) as Hcap.
  unfold analyze_and_capture_viral_content.
  unfold bind at 1, datetime_now_isoformat at 1. unfold catch.
  fold (tick w).
  rewrite (analysis_phases_completed sr sid (VInt n) (tick w) w1 _ _ pa eq_refl Hpa).
  cbn [fst snd]. eexists. eexists. exists pa. split; [reflexivity|].
  split; [reflexivity|]. split; [lia|]. repeat split.
Qed.

End EntryPoint.

Lemma completed_run_returns_and_writes_its_report_witness :
  exists analysis_results,
    @analyze_and_capture_viral_content offline_runtime scenario_results "s1" (VInt 15)
                                       start_of_run
    = (Ok analysis_results,
       {| clock := 3; slept := 1;
          written := [("viral_data/viral_analysis_s1_2.json", analysis_results)] |}).
Proof.
  eexists.
  refine (eq_trans
            (@completed_run_returns_and_writes_its_report offline_runtime
               scenario_results "s1" (VInt 15) start_of_run
               {| clock := 1; slept := 1; written := [] |}
               [scenario_candidate] empty_buckets _ _) _).
  - vm_compute. reflexivity.
  - vm_compute. reflexivity.
  - reflexivity.
Defined.

Lemma run_files_at_most_max_captures_witness :
  exists analysis_results w' pa,
    @analyze_and_capture_viral_content offline_runtime scenario_results "s1" (VInt 15)
                                       start_of_run
    = (Ok analysis_results, w')
    /\ dict.get analysis_results "platform_analysis" = Some (buckets_value pa)
    /\ (List.length (all_content_of pa)
        <= Nat.min (Z.to_nat 15)
                   (List.length (@_identify_viral_content offline_runtime
                                   scenario_results)))%nat
    /\ dict.get analysis_results "viral_metrics"
       = Some (VDict (_calculate_viral_metrics pa))
    /\ dict.get analysis_results "top_performers"
       = Some (VList (map VDict (_get_top_performers pa 10)))
    /\ dict.get analysis_results "engagement_insights"
       = Some (VDict (_generate_engagement_insights pa)).
Proof.
  apply (@run_files_at_most_max_captures offline_runtime scenario_results "s1" 15
           start_of_run).
  lia.
Defined.


(** ** More engagement never lowers the viral score *)

Lemma no_lower_ret {A : Type} (a : A) : no_lower (ret a) (ret a).
Proof. intros s s' H. now split. Qed.

Lemma no_lower_lift {A : Type} (r : result A) : no_lower (lift r) (lift r).
Proof. intros s s' H. now split. Qed.

Lemma no_lower_add_score (n n' : Z) : n <= n' -> no_lower (add_score n) (add_score n').
Proof. intros Hn s s' H. split; [reflexivity|]. cbn. lia. Qed.

Lemma no_lower_bind {A B : Type} (m m' : Try Z A) (k k' : A -> Try Z B) :
  no_lower m m' -> (forall a, no_lower (k a) (k' a)) -> no_lower (bind m k) (bind m' k').
Proof.
  intros Hm Hk s s' H. unfold bind. destruct (Hm s s' H) as [Hfst Hsnd].
  destruct (m s) as [[a|e] s1]; destruct (m' s') as [[a'|e'] s1'];
    cbn [fst snd] in *; try discriminate.
  - injection Hfst as <-. now apply Hk.
  - injection Hfst as <-. split; [reflexivity | assumption].
Qed.

Lemma no_lower_score_tier (v v' : pyval) (q q' full half : Q) (hi lo : Z) :
  as_number v = Some q -> as_number v' = Some q' -> (q <= q')%Q ->
  0 <= lo <= hi ->
  no_lower (score_tier v full half hi lo) (score_tier v' full half hi lo).
Proof.
  intros Hq Hq' Hle Hpts s s' H.
  unfold score_tier, bind, lift, py_ge. rewrite Hq, Hq'.
  assert (Hmono : forall t, Qle_bool t q = true -> Qle_bool t q' = true).
  { intros t Ht. apply Qle_bool_iff. apply Qle_bool_iff in Ht.
    eapply Qle_trans; eassumption. }
  destruct (Qle_bool full q) eqn:E1.
  - rewrite (Hmono _ E1). cbn. split; [reflexivity | lia].
  - destruct (Qle_bool full q') eqn:E1'.
    + destruct (Qle_bool half q); cbn; split; try reflexivity; lia.
    + destruct (Qle_bool half q) eqn:E2.
      * rewrite (Hmono _ E2). cbn. split; [reflexivity | lia].
      * destruct (Qle_bool half q'); cbn; split; try reflexivity; lia.
Qed.

Lemma no_lower_score_tier_same (v : pyval) (full half : Q) (hi lo : Z) :
  no_lower (score_tier v full half hi lo) (score_tier v full half hi lo).
Proof.
  intros s s' H. unfold score_tier, bind, lift.
  destruct (py_ge v full) as [[|]|e]; cbn; try (split; [reflexivity | lia]).
  destruct (py_ge v half) as [[|]|e]; cbn; split; try reflexivity; lia.
Qed.

Lemma dict_get_or_set {A : Type} (d : list (string * A)) (k k' : string) (v default : A) :
  dict.get_or (dict.set d k v) k' default
  = if String.eqb k' k then v else dict.get_or d k' default.
Proof.
  unfold dict.get_or. destruct (String.eqb k' k) eqn:E.
  - apply String.eqb_eq in E. subst k'. now rewrite dict_get_set_same.
  - apply String.eqb_neq in E. now rewrite dict_get_set_other by exact E.
Qed.

(** X22.  More engagement never lowers the score: when one field of a
    record is raised from a number to a number that is not smaller, the
    record otherwise unchanged, [_calculate_viral_score] does not decrease,
    on any platform and whatever the other fields hold. *)
Theorem viral_score_is_monotone :
  forall (analysis : Dict) (platform k : string) (v v' : pyval) (q q' : Q),
    as_number v = Some q -> as_number v' = Some q' -> (q <= q')%Q ->
    _calculate_viral_score (dict.set analysis k v) platform
    <= _calculate_viral_score (dict.set analysis k v') platform.
Proof.
  intros analysis platform k v v' q q' Hq Hq' Hle.
  unfold _calculate_viral_score. apply Z.min_le_compat_r.
  assert (Htier : forall k0 default full half hi lo,
             0 <= lo <= hi ->
             no_lower (score_tier (dict.get_or (dict.set analysis k v) k0 default)
                                  full half hi lo)
                      (score_tier (dict.get_or (dict.set analysis k v') k0 default)
                                  full half hi lo)).
  { intros k0 default full half hi lo Hpts. rewrite !dict_get_or_set.
    destruct (String.eqb k0 k).
    - eapply no_lower_score_tier; eassumption.
    - apply no_lower_score_tier_same. }
  assert (Hlen : forall k0 default,
             py_len (dict.get_or (dict.set analysis k v) k0 default)
             = py_len (dict.get_or (dict.set analysis k v') k0 default)).
  { intros k0 default. rewrite !dict_get_or_set.
    destruct (String.eqb k0 k); [|reflexivity].
    destruct v; try discriminate; destruct v'; try discriminate; reflexivity. }
  match goal with
  | |- snd (?body 0) <= snd (?body' 0) =>
      assert (Hrun : no_lower body body'); [|apply Hrun; lia]
  end.
  destruct (platform =? "instagram")%string;
    [|destruct (platform =? "youtube")%string; [|apply no_lower_ret]].
  - repeat (apply no_lower_bind; [apply Htier; lia | intros _]).
    rewrite !Hlen.
    apply no_lower_bind; [apply no_lower_lift | intros hashtags].
    apply no_lower_bind; [apply no_lower_lift | intros mentions].
    apply no_lower_bind; [apply no_lower_add_score; lia | intros _].
    apply no_lower_add_score. lia.
  - repeat (apply no_lower_bind; [apply Htier; lia | intros _]).
    apply Htier. lia.
Qed.

Lemma viral_score_is_monotone_witness :
  _calculate_viral_score (dict.set top_youtube_record "views" (VInt 100)) "youtube"
  <= _calculate_viral_score (dict.set top_youtube_record "views" (VInt 20000)) "youtube".
Proof.
  apply (viral_score_is_monotone top_youtube_record "youtube" "views"
           (VInt 100) (VInt 20000) (inject_Z 100) (inject_Z 20000));
    [reflexivity | reflexivity |].
  unfold Qle. cbn. lia.
Defined.


(** ** The hashtag counts *)





(** ** The tally of a list of tags *)


















(** ** Scores that do not compare *)

Lemma insert_descending_compares {A : Type} (key : A -> pyval) (x y : A) (l r : list A) :
  insert_descending key x (y :: l) = Ok r ->
  (exists s t, key x = VStr s /\ key y = VStr t)
  \/ (exists p q, as_number (key x) = Some p /\ as_number (key y) = Some q).
Proof.
  cbn [insert_descending]. destruct (py_lt (key x) (key y)) as [b|e] eqn:E; [|discriminate].
  intros _. destruct (py_lt_cases _ _ _ E) as [(s & t & Hs & Ht & _)|(p & q & Hp & Hq & _)];
    [left | right]; eauto.
Qed.

Lemma sorted_reverse_one_kind {A : Type} (key : A -> pyval) (l : list A) :
  forall s,
    sorted_reverse key l = Ok s ->
    (forall x, In x l -> exists q, as_number (key x) = Some q)
    \/ (forall x, In x l -> exists t, key x = VStr t)
    \/ (List.length l <= 1)%nat.
Proof.
  induction l as [|x l IH]; intros r; cbn [sorted_reverse].
  - intros _. right. right. cbn. lia.
  - destruct (sorted_reverse key l) as [s|e] eqn:Es; [|discriminate].
    intros Hins. pose proof (sorted_reverse_perm key _ _ Es) as Hperm.
    destruct s as [|y s].
    { apply Permutation_sym, Permutation_nil in Hperm. subst l.
      right. right. cbn. lia. }
    assert (Hy : In y l)
      by (eapply Permutation_in; [apply Permutation_sym; exact Hperm | now left]).
    destruct (insert_descending_compares key x y s r Hins)
      as [(sx & sy & Hx & Hy')|(p & q & Hx & Hy')];
      destruct (IH _ eq_refl) as [Hnum|[Hstr|Hlen]].
    + destruct (Hnum y Hy) as (q & Hq). rewrite Hy' in Hq. discriminate.
    + right. left. intros z [<-|Hz]; [eauto | now apply Hstr].
    + right. left. destruct l as [|y0 [|? ?]]; [destruct Hy | | cbn in Hlen; lia].
      destruct Hy as [->|[]]. intros z [<-|[<-|[]]]; eauto.
    + left. intros z [<-|Hz]; [eauto | now apply Hnum].
    + destruct (Hstr y Hy) as (t & Ht). rewrite Ht in Hy'. discriminate.
    + left. destruct l as [|y0 [|? ?]]; [destruct Hy | | cbn in Hlen; lia].
      destruct Hy as [->|[]]. intros z [<-|[<-|[]]]; eauto.
Qed.

(** X24.  One record whose viral score is text among records with a
    numeric score empties the list: the comparison of the two raises
    inside [sorted], and [_get_top_performers] returns [[]] for the whole
    mapping, whatever [top_n] is. *)
Theorem text_score_empties_top_performers :
  forall (platform_analysis : Buckets) (top_n : Z) (r1 r2 : Dict) (s : string) (q : Q),
    In r1 (all_content_of platform_analysis) ->
    In r2 (all_content_of platform_analysis) ->
    viral_score_of r1 = VStr s ->
    as_number (viral_score_of r2) = Some q ->
    _get_top_performers platform_analysis top_n = [].
Proof.
  intros pa top_n r1 r2 s q H1 H2 Hs Hq. unfold _get_top_performers.
  destruct (sorted_reverse viral_score_of (all_content_of pa)) as [sorted|e] eqn:E;
    [|reflexivity].
  exfalso.
  destruct (sorted_reverse_one_kind _ _ _ E) as [Hnum|[Hstr|Hlen]].
  - destruct (Hnum r1 H1) as (p & Hp). rewrite Hs in Hp. discriminate.
  - destruct (Hstr r2 H2) as (t & Ht). rewrite Ht in Hq. discriminate.
  - destruct (all_content_of pa) as [|x [|? ?]]; [destruct H1 | | cbn in Hlen; lia].
    destruct H1 as [->|[]]. destruct H2 as [->|[]]. rewrite Hs in Hq. discriminate.
Qed.

Lemma text_score_empties_top_performers_witness :
  _get_top_performers
    [ ("instagram", [ [("url", VStr "i1"); ("viral_score", VStr "high")];
                      [("url", VStr "i2"); ("viral_score", VInt 40)] ]) ] 10
  = [].
Proof.
  apply (text_score_empties_top_performers _ 10
           [("url", VStr "i1"); ("viral_score", VStr "high")]
           [("url", VStr "i2"); ("viral_score", VInt 40)] "high" (inject_Z 40)).
  - cbn. auto.
  - cbn. auto.
  - reflexivity.
  - reflexivity.
Defined.

(** ** Metrics of records that cannot be scored *)

Lemma for_each_raises {S A : Type} (body : A -> Try S unit) (l : list A) (x : A) :
  In x l ->
  (forall s, exists e s', body x s = (Raise e, s')) ->
  forall s, exists e s', for_each l body s = (Raise e, s').
Proof.
  intros Hin Hx. induction l as [|a l IH]; [destruct Hin|].
  intros s. cbn [for_each]. unfold bind.
  destruct (body a s) as [[[]|e] s1] eqn:Ea; [|eauto].
  destruct Hin as [->|Hin].
  - destruct (Hx s) as (e & s' & He). congruence.
  - now apply IH.
Qed.

Lemma metrics_of_content_unscorable (r : Dict) (st : MetricsState) :
  as_number (viral_score_of r) = None ->
  exists e st', metrics_of_content r st = (Raise e, st').
Proof.
  intros Hnone. unfold metrics_of_content.
  erewrite bind_ok by reflexivity.
  eexists. eexists. apply bind_raise.
  unfold lift, py_ge. fold (viral_score_of r). rewrite Hnone. reflexivity.
Qed.

Lemma metrics_of_buckets_unscorable (platform_analysis : Buckets) (r : Dict)
      (st : MetricsState) :
  In r (all_content_of platform_analysis) ->
  as_number (viral_score_of r) = None ->
  exists e st', for_each platform_analysis metrics_of_bucket st = (Raise e, st').
Proof.
  intros Hin Hnone. unfold all_content_of in Hin. apply in_concat in Hin.
  destruct Hin as (content_list & Hl & Hr). apply in_map_iff in Hl.
  destruct Hl as ([platform l] & <- & Hb). cbn [snd] in Hr.
  apply (for_each_raises metrics_of_bucket _ _ Hb). intros s.
  destruct l as [|r0 l]; [destruct Hr|].
  unfold metrics_of_bucket.
  erewrite bind_ok by reflexivity. erewrite bind_ok by reflexivity.
  apply (for_each_raises metrics_of_content _ _ Hr).
  intros s'. now apply metrics_of_content_unscorable.
Qed.

Lemma metrics_loop_preserves (platform_analysis : Buckets) (k : string) :
  k <> "viral_content_count" -> k <> "platform_distribution" ->
  k <> "engagement_totals" ->
  preserves (fun st => dict.get (metrics st) k)
            (for_each platform_analysis metrics_of_bucket).
Proof.
  intros H1 H2 H3.
  assert (Hset : forall k' v, k <> k' -> preserves (fun st => dict.get (metrics st) k)
                                                   (set_metric k' v)).
  { intros k' v Hne st. cbn [set_metric modify snd metrics].
    now apply dict_get_set_other. }
  assert (Hin : forall k' v, preserves (fun st => dict.get (metrics st) k)
                                       (set_metric_in "engagement_totals" k' v)).
  { intros k' v st. cbn [set_metric_in modify snd metrics].
    now apply dict_get_set_other. }
  apply preserves_for_each. intros [platform [|r l]]; [apply preserves_ret|].
  unfold metrics_of_bucket.
  apply preserves_bind.
  { intros st. cbn [set_metric_in modify snd metrics]. now apply dict_get_set_other. }
  intros _. apply preserves_bind; [intros st; reflexivity | intros _].
  apply preserves_for_each. intros content. unfold metrics_of_content.
  apply preserves_bind; [intros st; reflexivity | intros _].
  apply preserves_bind; [apply preserves_lift | intros viral].
  apply preserves_bind.
  - destruct viral; [|apply preserves_ret].
    apply preserves_bind; [apply preserves_read | intros count]. now apply Hset.
  - intros _. unfold add_to_total.
    repeat (apply preserves_bind;
            [apply preserves_bind; [apply preserves_read | intros ?; apply Hin]
            | intros _]).
    apply preserves_bind; [apply preserves_read | intros ?; apply Hin].
Qed.

(** X25.  One record whose viral score is not a number stops the metrics:
    the loop raises at that record at the latest, and
    [_calculate_viral_metrics] returns the metrics as they are then, with
    [total_content_analyzed] and [average_viral_score] still 0 although the
    platform distribution, the viral count and the totals may already count
    the records seen before it. *)
Theorem unscorable_record_leaves_totals_at_0 :
  forall (platform_analysis : Buckets) (r : Dict),
    In r (all_content_of platform_analysis) ->
    as_number (viral_score_of r) = None ->
    dict.get (_calculate_viral_metrics platform_analysis) "total_content_analyzed"
    = Some (VInt 0)
    /\ dict.get (_calculate_viral_metrics platform_analysis) "average_viral_score"
       = Some (VInt 0).
Proof.
  intros pa r Hin Hnone.
  destruct (metrics_of_buckets_unscorable pa r metrics_start Hin Hnone) as (e & st & Hrun).
  unfold _calculate_viral_metrics.
  erewrite bind_raise by exact Hrun. cbn [snd].
  pose proof (metrics_loop_preserves pa "total_content_analyzed") as Htotal.
  pose proof (metrics_loop_preserves pa "average_viral_score") as Haverage.
  specialize (Htotal ltac:(discriminate) ltac:(discriminate) ltac:(discriminate)
                     metrics_start).
  specialize (Haverage ltac:(discriminate) ltac:(discriminate) ltac:(discriminate)
                       metrics_start).
  rewrite Hrun in Htotal, Haverage. cbn [snd] in Htotal, Haverage.
  split; [exact Htotal | exact Haverage].
Qed.

Lemma unscorable_record_leaves_totals_at_0_witness :
  dict.get (_calculate_viral_metrics
              [ ("instagram", [ [("url", VStr "i1"); ("viral_score", VInt 80)];
                                [("url", VStr "i2"); ("viral_score", VStr "high")] ]) ])
           "total_content_analyzed" = Some (VInt 0)
  /\ dict.get (_calculate_viral_metrics
                 [ ("instagram", [ [("url", VStr "i1"); ("viral_score", VInt 80)];
                                   [("url", VStr "i2"); ("viral_score", VStr "high")] ]) ])
              "average_viral_score" = Some (VInt 0).
Proof.
  apply (unscorable_record_leaves_totals_at_0 _
           [("url", VStr "i2"); ("viral_score", VStr "high")]).
  - cbn. auto.
  - reflexivity.
Defined.
